(** * FinOps Watchtower dashboard: transport client, run list and run detail

    A shallow embedding of [src/lib/api.ts], [src/pages/Home.tsx] (the run
    list view) and [src/pages/RunDetail.tsx].

    - ECMAScript strings are sequences of UTF-16 code units ([list N]);
      numbers are binary64 values (primitive floats).
    - [JSON.parse], [JSON.stringify], [Number.prototype.toString],
      [String.prototype.trim] and [URLSearchParams] are the platform's; they
      are embedded from ECMA-262 / the URL standard in the modules [JS],
      [Float64], [Json] and [Url].
    - [fetch], toasts, navigation and the DOM calls of the CSV download are
      events of a trace, threaded by a small state-and-exception monad.
    - The hooks of TanStack Query (v5, the version whose [useInfiniteQuery]
      takes [initialPageParam]) are embedded in [ReactQuery]. *)

From Stdlib Require Import List ZArith NArith String Ascii Bool Lia Floats DecimalPos.
Import ListNotations.

Set Implicit Arguments.
Set Warnings "-register-all".

(* ================================================================== *)
(** ** ECMAScript strings *)

Module JS.

(** A string is its sequence of UTF-16 code units. *)
Definition jsstring := list N.

(** The code units of an ASCII literal. *)
Definition lit (s : string) : jsstring :=
  map N_of_ascii (list_ascii_of_string s).

(** U+0022 QUOTATION MARK, U+005C REVERSE SOLIDUS, U+000A LINE FEED. *)
Definition dq : N := 34%N.
Definition bsl : N := 92%N.
Definition lf : N := 10%N.

(** [q s] is [s] between two quotation marks. *)
Definition q (s : string) : jsstring := dq :: lit s ++ [dq].

Fixpoint str_eqb (a b : jsstring) : bool :=
  match a, b with
  | [], [] => true
  | x :: a', y :: b' => N.eqb x y && str_eqb a' b'
  | _, _ => false
  end.

Fixpoint starts_with (p s : jsstring) : bool :=
  match p, s with
  | [], _ => true
  | x :: p', y :: s' => N.eqb x y && starts_with p' s'
  | _ :: _, [] => false
  end.

(** [String.prototype.includes]. *)
Fixpoint includes (s p : jsstring) : bool :=
  starts_with p s ||
  match s with
  | [] => false
  | _ :: s' => includes s' p
  end.

(** ToBoolean on a string: only the empty string is falsy. *)
Definition truthy_string (s : jsstring) : bool :=
  match s with [] => false | _ :: _ => true end.

(** ToBoolean on an optional string argument ([undefined] is falsy). *)
Definition truthy_opt_string (o : option jsstring) : bool :=
  match o with None => false | Some s => truthy_string s end.

(** WhiteSpace and LineTerminator code points (ECMA-262, 12.2 and 12.3),
    the ones [String.prototype.trim] strips. *)
Definition is_white_space (c : N) : bool :=
  ((9 <=? c) && (c <=? 13) || (c =? 32) || (c =? 160) || (c =? 5760)
   || (8192 <=? c) && (c <=? 8202) || (c =? 8232) || (c =? 8233)
   || (c =? 8239) || (c =? 8287) || (c =? 12288) || (c =? 65279))%N.

Fixpoint trim_start (s : jsstring) : jsstring :=
  match s with
  | [] => []
  | c :: r => if is_white_space c then trim_start r else s
  end.

Definition trim_end (s : jsstring) : jsstring := rev (trim_start (rev s)).

(** [String.prototype.trim]. *)
Definition trim (s : jsstring) : jsstring := trim_end (trim_start s).

(** Decimal digits of a natural number, as code units. *)
Fixpoint uint_chars (d : Decimal.uint) : jsstring :=
  match d with
  | Decimal.Nil => []
  | Decimal.D0 d => 48%N :: uint_chars d
  | Decimal.D1 d => 49%N :: uint_chars d
  | Decimal.D2 d => 50%N :: uint_chars d
  | Decimal.D3 d => 51%N :: uint_chars d
  | Decimal.D4 d => 52%N :: uint_chars d
  | Decimal.D5 d => 53%N :: uint_chars d
  | Decimal.D6 d => 54%N :: uint_chars d
  | Decimal.D7 d => 55%N :: uint_chars d
  | Decimal.D8 d => 56%N :: uint_chars d
  | Decimal.D9 d => 57%N :: uint_chars d
  end.

Definition N_digits (n : N) : jsstring := uint_chars (N.to_uint n).

(** The decimal form of an integer: what rendering does to the length of an
    array (a magnitude below 10^21, where Number::toString uses no
    exponent). *)
Definition Z_toString (z : Z) : jsstring :=
  match z with
  | Z0 => lit "0"
  | Zpos p => N_digits (Npos p)
  | Zneg p => 45%N :: N_digits (Npos p)
  end.

Definition is_digit (c : N) : bool := ((48 <=? c) && (c <=? 57))%N.

Definition hex_value (c : N) : option N :=
  if is_digit c then Some (c - 48)%N
  else if ((97 <=? c) && (c <=? 102))%N then Some (c - 87)%N
  else if ((65 <=? c) && (c <=? 70))%N then Some (c - 55)%N
  else None.

Definition hex_lower (d : N) : N := (if d <? 10 then 48 + d else 87 + d)%N.
Definition hex_upper (d : N) : N := (if d <? 10 then 48 + d else 55 + d)%N.

Fixpoint join (sep : jsstring) (l : list jsstring) : jsstring :=
  match l with
  | [] => []
  | [x] => x
  | x :: l' => x ++ sep ++ join sep l'
  end.

End JS.

(* ================================================================== *)
(** ** ECMAScript numbers

    A Number is a binary64 value, here a primitive [float].  The two
    conversions below work on exact integers: [Number_of_decimal] is the
    Number value of a decimal numeral (round to nearest, ties to even), and
    [Number_toString] is Number::toString in radix 10 (the shortest digits
    that read back as the same value, the closest to it among those). *)

Module Float64.
Import JS.

Definition Number := float.

(** ToBoolean on a Number: NaN, +0 and -0 are falsy. *)
Definition truthy_number (x : Number) : bool :=
  negb (PrimFloat.is_nan x || PrimFloat.is_zero x).

(** The number of decimal digits of a positive integer. *)
Definition digit_count (z : Z) : Z :=
  Z.of_nat (List.length (N_digits (Z.to_N z))).

(** The integer nearest to [a / b], ties to the even one ([0 <= a], [0 < b]). *)
Definition round_half_even (a b : Z) : Z :=
  let q := (a / b)%Z in
  match (2 * (a mod b) ?= b)%Z with
  | Lt => q
  | Gt => (q + 1)%Z
  | Eq => if Z.even q then q else (q + 1)%Z
  end.

(** The Number value of [(-1)^neg * m * 10^e]. *)
Definition Number_of_decimal (neg : bool) (m : N) (e : Z) : Number :=
  if (m =? 0)%N then SF2Prim (S754_zero neg)
  else
    let M := Z.of_N m in
    let d := digit_count M in
    if (309 <? d + e)%Z then SF2Prim (S754_infinity neg)
    else if (d + e <? -324)%Z then SF2Prim (S754_zero neg)
    else
      let num := (if 0 <=? e then M * 10 ^ e else M)%Z in
      let den := (if 0 <=? e then 1 else 10 ^ (- e))%Z in
      (* [t] is the integer with [2^t <= num / den < 2^(t+1)] *)
      let l := (Z.log2 num - Z.log2 den)%Z in
      let above :=
        (if 0 <=? l then den * 2 ^ l <=? num else den <=? num * 2 ^ (- l))%Z in
      let t := (if above then l else l - 1)%Z in
      (* the exponent of the last place, not below that of the subnormals *)
      let ex := Z.max (t - 52) (-1074) in
      let a := (if 0 <=? ex then num else num * 2 ^ (- ex))%Z in
      let b := (if 0 <=? ex then den * 2 ^ ex else den)%Z in
      let mant := round_half_even a b in
      if (mant =? 0)%Z then SF2Prim (S754_zero neg)
      else if ((971 <? ex) || ((ex =? 971) && (mant =? 2 ^ 53)))%Z
      then SF2Prim (S754_infinity neg)
      else SF2Prim (S754_finite neg (Z.to_pos mant) ex).

(** An integer-valued Number as an integer. *)
Definition Number_to_Z (x : Number) : option Z :=
  match Prim2SF x with
  | S754_zero _ => Some 0%Z
  | S754_finite s m e =>
      let z :=
        if (0 <=? e)%Z then Some (Zpos m * 2 ^ e)%Z
        else if (Zpos m mod 2 ^ (- e) =? 0)%Z then Some (Zpos m / 2 ^ (- e))%Z
        else None in
      option_map (fun v => if s then (- v)%Z else v) z
  | _ => None
  end.

(** *** Number::toString

    Everything is scaled by [2^1076], so that the value [m * 2^e] of a
    finite Number and the two midpoints to its neighbours are integers. *)

Definition scale : Z := 1076.

(** [s * 10^q] compared with the scaled bound [B]. *)
Definition compare_decimal (s q B : Z) : comparison :=
  (if 0 <=? q then s * 10 ^ q * 2 ^ scale ?= B
   else s * 2 ^ scale ?= B * 10 ^ (- q))%Z.

(** The largest [s] with [s * 10^q] not above the scaled value [X]. *)
Definition floor_decimal (X q : Z) : Z :=
  (if 0 <=? q then X / (10 ^ q * 2 ^ scale)
   else (X * 10 ^ (- q)) / 2 ^ scale)%Z.

(** The distance of [s * 10^q] to the scaled value [X], scaled once more by
    [10^(-base)] for a [base] not above [q] nor 0. *)
Definition distance (X base s q : Z) : Z :=
  Z.abs (s * 10 ^ (q - base) * 2 ^ scale - X * 10 ^ (- base))%Z.

Record interval : Type := mkInterval
  { value : Z;        (* the Number, scaled *)
    low : Z;          (* the midpoint to the Number below, scaled *)
    high : Z;         (* the midpoint to the Number above, scaled *)
    closed : bool }.  (* the midpoints read back as this Number *)

(** The decimals that read back as the Number [m * 2^e]. *)
Definition rounding_interval (m : positive) (e : Z) : interval :=
  let bits := (Z.log2 (Zpos m) + 1)%Z in
  let e_norm := (e - (53 - bits))%Z in
  let ue := Z.max e_norm (-1074) in
  let X := Z.shiftl (Zpos m) (e + scale) in
  let half := (2 ^ (ue - 1 + scale))%Z in
  let power_of_two := (Zpos m =? 2 ^ (bits - 1))%Z in
  let low_half :=
    if power_of_two && (-1074 <? e_norm)%Z
    then (2 ^ (ue - 2 + scale))%Z else half in
  mkInterval X (X - low_half)%Z (X + half)%Z
             (Z.even (Z.shiftr X (ue + scale))).

Definition inside (i : interval) (s q : Z) : bool :=
  (0 <? s)%Z
  && match compare_decimal s q (low i) with
     | Gt => true | Eq => closed i | Lt => false
     end
  && match compare_decimal s q (high i) with
     | Lt => true | Eq => closed i | Gt => false
     end.

(** The candidates with the last digit at [10^q]: the two around the value. *)
Definition candidates_at (i : interval) (q : Z) : list (Z * Z) :=
  let s := floor_decimal (value i) q in
  filter (fun c => inside i (fst c) (snd c)) [(s, q); ((s + 1)%Z, q)].

(** The closer of two candidates, the one with the even digits on a tie. *)
Definition closer (i : interval) (base : Z) (c1 c2 : Z * Z) : Z * Z :=
  match (distance (value i) base (fst c1) (snd c1)
         ?= distance (value i) base (fst c2) (snd c2))%Z with
  | Lt => c1
  | Gt => c2
  | Eq => if Z.even (fst c1) then c1 else c2
  end.

Definition closest (i : interval) (base : Z) (cs : list (Z * Z)) : option (Z * Z) :=
  match cs with
  | [] => None
  | c :: rest => Some (fold_left (closer i base) rest c)
  end.

(** The first [q], going down and in at most [steps] steps, at which a
    candidate reads back as the Number; the candidates one place lower that
    are no longer are kept in the choice. *)
Fixpoint shortest_from (steps : nat) (i : interval) (q : Z) : option (Z * Z) :=
  match steps with
  | O => None
  | S steps' =>
      match candidates_at i q with
      | [] => shortest_from steps' i (q - 1)%Z
      | c :: cs =>
          let k := fold_left Z.min (map (fun x => digit_count (fst x)) cs)
                             (digit_count (fst c)) in
          let lower :=
            filter (fun x => (digit_count (fst x) <=? k)%Z)
                   (candidates_at i (q - 1)%Z) in
          closest i (Z.min (q - 1) 0) (c :: cs ++ lower)
      end
  end.

(** The search starts above the leading digit and need not go below
    [10^(Z.min e 0)], where [m * 2^e] itself is a candidate. *)
Definition shortest (m : positive) (e : Z) : option (Z * Z) :=
  let bits := (Z.log2 (Zpos m) + 1 + e)%Z in
  let top := ((bits * 30103) / 100000 + 2)%Z in
  shortest_from (Z.to_nat (top - Z.min e 0 + 1)) (rounding_interval m e) top.

Definition zeros (n : Z) : jsstring := repeat 48%N (Z.to_nat n).

(** The text of the positive Number [s * 10^(n-k)], [s] having the [k]
    digits [ds]. *)
Definition format_digits (ds : jsstring) (n : Z) : jsstring :=
  let k := Z.of_nat (List.length ds) in
  if ((k <=? n) && (n <=? 21))%Z then ds ++ zeros (n - k)
  else if ((0 <? n) && (n <=? 21))%Z then
    firstn (Z.to_nat n) ds ++ [46%N] ++ skipn (Z.to_nat n) ds
  else if ((-6 <? n) && (n <=? 0))%Z then lit "0." ++ zeros (- n) ++ ds
  else
    let e1 := (n - 1)%Z in
    let es := (if (e1 <? 0)%Z then 45%N else 43%N) :: N_digits (Z.abs_N e1) in
    match ds with
    | [] => []
    | [d] => d :: 101%N :: es
    | d :: rest => d :: 46%N :: rest ++ 101%N :: es
    end.

Definition Number_toString (x : Number) : jsstring :=
  match Prim2SF x with
  | S754_nan => lit "NaN"
  | S754_zero _ => lit "0"
  | S754_infinity s => if s then lit "-Infinity" else lit "Infinity"
  | S754_finite s m e =>
      (if s then [45%N] else [])
        ++ match shortest m e with
           | Some (digits, q) =>
               let ds := N_digits (Z.to_N digits) in
               format_digits ds (Z.of_nat (List.length ds) + q)
           | None => []
           end
  end.

End Float64.

(* ================================================================== *)
(** ** JSON values, [JSON.parse] and [JSON.stringify] *)

Module Json.
Import JS Float64.

(** A number of JSON text as it is written, [(-1)^neg * mant * 10^exp10];
    the value [JSON.parse] makes of it is its Number value. *)
Record numeral : Type := mkNumeral { neg : bool; mant : N; exp10 : Z }.

Definition Number_of_numeral (n : numeral) : Number :=
  Number_of_decimal (neg n) (mant n) (exp10 n).

(** The values [JSON.parse] returns. *)
Inductive JValue : Type :=
| JNull
| JBool (b : bool)
| JNumber (x : Number)
| JString (s : jsstring)
| JArray (items : list JValue)
| JObject (members : list (jsstring * JValue)).

(** [Array.isArray]. *)
Definition isArray (v : JValue) : bool :=
  match v with JArray _ => true | _ => false end.

(** ToBoolean. *)
Definition truthy (v : JValue) : bool :=
  match v with
  | JNull => false
  | JBool b => b
  | JNumber x => truthy_number x
  | JString s => truthy_string s
  | JArray _ | JObject _ => true
  end.

(** *** Own property keys of an ordinary object

    Array-index keys come first in ascending numeric order, then the other
    keys in creation order; defining an existing key keeps its place. *)

Fixpoint digits_value (acc : N) (s : jsstring) : option N :=
  match s with
  | [] => Some acc
  | c :: r => if is_digit c then digits_value (10 * acc + (c - 48))%N r else None
  end.

Definition array_index (k : jsstring) : option N :=
  match k with
  | [] => None
  | c :: r =>
      if (c =? 48)%N then match r with [] => Some 0%N | _ :: _ => None end
      else if (10 <? N.of_nat (List.length k))%N then None
      else match digits_value 0%N k with
           | Some n => if (n <? 4294967295)%N then Some n else None
           | None => None
           end
  end.

Fixpoint has_key (k : jsstring) (l : list (jsstring * JValue)) : bool :=
  match l with
  | [] => false
  | (k', _) :: l' => str_eqb k k' || has_key k l'
  end.

Fixpoint replace_key (k : jsstring) (v : JValue) (l : list (jsstring * JValue))
  : list (jsstring * JValue) :=
  match l with
  | [] => []
  | (k', v') :: l' =>
      if str_eqb k k' then (k', v) :: l' else (k', v') :: replace_key k v l'
  end.

Fixpoint insert_index (i : N) (k : jsstring) (v : JValue)
  (l : list (jsstring * JValue)) : list (jsstring * JValue) :=
  match l with
  | [] => [(k, v)]
  | (k', v') :: l' =>
      match array_index k' with
      | Some j => if (j <? i)%N then (k', v') :: insert_index i k v l'
                  else (k, v) :: l
      | None => (k, v) :: l
      end
  end.

(** CreateDataProperty on the object under construction. *)
Definition define_property (k : jsstring) (v : JValue)
  (l : list (jsstring * JValue)) : list (jsstring * JValue) :=
  if has_key k l then replace_key k v l
  else match array_index k with
       | Some i => insert_index i k v l
       | None => l ++ [(k, v)]
       end.

(** *** JSON.parse *)

Definition is_json_ws (c : N) : bool :=
  ((c =? 32) || (c =? 9) || (c =? 10) || (c =? 13))%N.

Fixpoint skip_ws (s : jsstring) : jsstring :=
  match s with
  | [] => []
  | c :: r => if is_json_ws c then skip_ws r else s
  end.

Definition hex4 (a b c d : N) : option N :=
  match hex_value a, hex_value b, hex_value c, hex_value d with
  | Some x, Some y, Some z, Some w => Some (4096 * x + 256 * y + 16 * z + w)%N
  | _, _, _, _ => None
  end.

Definition escape_char (e : N) : option N :=
  if (e =? 34)%N then Some 34%N        (* quotation mark *)
  else if (e =? 92)%N then Some 92%N   (* reverse solidus *)
  else if (e =? 47)%N then Some 47%N   (* solidus *)
  else if (e =? 98)%N then Some 8%N    (* backspace *)
  else if (e =? 102)%N then Some 12%N  (* form feed *)
  else if (e =? 110)%N then Some 10%N  (* line feed *)
  else if (e =? 114)%N then Some 13%N  (* carriage return *)
  else if (e =? 116)%N then Some 9%N   (* tab *)
  else None.

(** The characters of a string literal after its opening quotation mark;
    [acc] holds the decoded code units, latest first. *)
Fixpoint parse_string_body (s : jsstring) (acc : jsstring)
  : option (jsstring * jsstring) :=
  match s with
  | [] => None
  | c :: r =>
      if (c =? 34)%N then Some (rev acc, r)
      else if (c =? 92)%N then
        match r with
        | [] => None
        | e :: r1 =>
            if (e =? 117)%N then
              match r1 with
              | h1 :: h2 :: h3 :: h4 :: r2 =>
                  match hex4 h1 h2 h3 h4 with
                  | Some u => parse_string_body r2 (u :: acc)
                  | None => None
                  end
              | _ => None
              end
            else
              match escape_char e with
              | Some u => parse_string_body r1 (u :: acc)
              | None => None
              end
        end
      else if (c <? 32)%N then None
      else parse_string_body r (c :: acc)
  end.

(** A maximal run of decimal digits: its values and what follows. *)
Fixpoint take_digits (s : jsstring) : list N * jsstring :=
  match s with
  | [] => ([], [])
  | c :: r =>
      if is_digit c then
        let '(ds, rest) := take_digits r in ((c - 48)%N :: ds, rest)
      else ([], s)
  end.

Definition digits_to_N (ds : list N) : N :=
  fold_left (fun acc d => (10 * acc + d)%N) ds 0%N.

Definition parse_int_part (s : jsstring) : option (list N * jsstring) :=
  match s with
  | [] => None
  | c :: r =>
      if (c =? 48)%N then Some ([0%N], r)
      else if is_digit c then Some (take_digits s)
      else None
  end.

Definition parse_frac_part (s : jsstring) : option (list N * jsstring) :=
  match s with
  | c :: r =>
      if (c =? 46)%N then
        match take_digits r with
        | ([], _) => None
        | (ds, rest) => Some (ds, rest)
        end
      else Some ([], s)
  | [] => Some ([], s)
  end.

Definition parse_exp_digits (sign : bool) (s : jsstring) : option (Z * jsstring) :=
  match take_digits s with
  | ([], _) => None
  | (ds, rest) =>
      let e := Z.of_N (digits_to_N ds) in
      Some ((if sign then - e else e)%Z, rest)
  end.

Definition parse_exp_part (s : jsstring) : option (Z * jsstring) :=
  match s with
  | c :: r =>
      if ((c =? 101) || (c =? 69))%N then
        match r with
        | c1 :: r1 =>
            if (c1 =? 43)%N then parse_exp_digits false r1
            else if (c1 =? 45)%N then parse_exp_digits true r1
            else parse_exp_digits false r
        | [] => None
        end
      else Some (0%Z, s)
  | [] => Some (0%Z, s)
  end.

Definition parse_number (s : jsstring) : option (numeral * jsstring) :=
  let '(sg, s1) :=
    match s with
    | c :: r => if (c =? 45)%N then (true, r) else (false, s)
    | [] => (false, s)
    end in
  match parse_int_part s1 with
  | None => None
  | Some (ip, s2) =>
      match parse_frac_part s2 with
      | None => None
      | Some (fp, s3) =>
          match parse_exp_part s3 with
          | None => None
          | Some (e, s4) =>
              Some (mkNumeral sg (digits_to_N (ip ++ fp))
                              (e - Z.of_nat (List.length fp)), s4)
          end
      end
  end.

Definition parse_literal (word : string) (v : JValue) (s : jsstring)
  : option (JValue * jsstring) :=
  if starts_with (lit word) s
  then Some (v, skipn (String.length word) s)
  else None.

(** The characters a JSON value can start with. *)
Definition value_start (c : N) : bool :=
  ((c =? 123) || (c =? 91) || (c =? 34) || (c =? 116) || (c =? 102)
   || (c =? 110) || (c =? 45))%N || is_digit c.

(** The recursive-descent parser; every call spends one unit of [fuel]. *)
Fixpoint parse_value (fuel : nat) (s : jsstring) : option (JValue * jsstring) :=
  match fuel with
  | O => None
  | S f =>
      match skip_ws s with
      | [] => None
      | c :: r =>
          if (c =? 123)%N then
            match skip_ws r with
            | c1 :: r1 =>
                if (c1 =? 125)%N then Some (JObject [], r1)
                else parse_members f r []
            | [] => None
            end
          else if (c =? 91)%N then
            match skip_ws r with
            | c1 :: r1 =>
                if (c1 =? 93)%N then Some (JArray [], r1)
                else parse_elements f r []
            | [] => None
            end
          else if (c =? 34)%N then
            match parse_string_body r [] with
            | Some (str, rest) => Some (JString str, rest)
            | None => None
            end
          else if (c =? 116)%N then parse_literal "true" (JBool true) (c :: r)
          else if (c =? 102)%N then parse_literal "false" (JBool false) (c :: r)
          else if (c =? 110)%N then parse_literal "null" JNull (c :: r)
          else if (c =? 45)%N || is_digit c then
            match parse_number (c :: r) with
            | Some (n, rest) => Some (JNumber (Number_of_numeral n), rest)
            | None => None
            end
          else None
      end
  end

with parse_elements (fuel : nat) (s : jsstring) (acc : list JValue)
  : option (JValue * jsstring) :=
  match fuel with
  | O => None
  | S f =>
      match parse_value f s with
      | None => None
      | Some (v, r) =>
          match skip_ws r with
          | c :: r1 =>
              if (c =? 44)%N then parse_elements f r1 (v :: acc)
              else if (c =? 93)%N then Some (JArray (rev (v :: acc)), r1)
              else None
          | [] => None
          end
      end
  end

with parse_members (fuel : nat) (s : jsstring) (acc : list (jsstring * JValue))
  : option (JValue * jsstring) :=
  match fuel with
  | O => None
  | S f =>
      match skip_ws s with
      | c :: r =>
          if (c =? 34)%N then
            match parse_string_body r [] with
            | None => None
            | Some (k, r1) =>
                match skip_ws r1 with
                | c1 :: r2 =>
                    if (c1 =? 58)%N then
                      match parse_value f r2 with
                      | None => None
                      | Some (v, r3) =>
                          let acc' := define_property k v acc in
                          match skip_ws r3 with
                          | c2 :: r4 =>
                              if (c2 =? 44)%N then parse_members f r4 acc'
                              else if (c2 =? 125)%N then Some (JObject acc', r4)
                              else None
                          | [] => None
                          end
                      end
                    else None
                | [] => None
                end
            end
          else None
      | [] => None
      end
  end.

(** [JSON.parse text]: [None] is the SyntaxError.  A value that starts at
    offset [p] is parsed with at least [length text + 2 - p] units of fuel. *)
Definition JSON_parse (text : jsstring) : option JValue :=
  match parse_value (2 + List.length text) text with
  | Some (v, rest) =>
      match skip_ws rest with
      | [] => Some v
      | _ :: _ => None
      end
  | None => None
  end.

(** *** JSON.stringify *)

Definition is_high_surrogate (c : N) : bool := ((55296 <=? c) && (c <=? 56319))%N.
Definition is_low_surrogate (c : N) : bool := ((56320 <=? c) && (c <=? 57343))%N.

Definition unicode_escape (c : N) : jsstring :=
  [bsl; 117%N; hex_lower (c / 4096); hex_lower ((c / 256) mod 16);
   hex_lower ((c / 16) mod 16); hex_lower (c mod 16)]%N.

(** The body of QuoteJSONString. *)
Fixpoint quote_chars (s : jsstring) : jsstring :=
  match s with
  | [] => []
  | c :: r =>
      if (c =? 8)%N then bsl :: 98%N :: quote_chars r
      else if (c =? 9)%N then bsl :: 116%N :: quote_chars r
      else if (c =? 10)%N then bsl :: 110%N :: quote_chars r
      else if (c =? 12)%N then bsl :: 102%N :: quote_chars r
      else if (c =? 13)%N then bsl :: 114%N :: quote_chars r
      else if (c =? 34)%N then bsl :: 34%N :: quote_chars r
      else if (c =? 92)%N then bsl :: 92%N :: quote_chars r
      else if (c <? 32)%N then unicode_escape c ++ quote_chars r
      else if is_high_surrogate c then
        match r with
        | d :: r' =>
            if is_low_surrogate d then c :: d :: quote_chars r'
            else unicode_escape c ++ quote_chars r
        | [] => unicode_escape c
        end
      else if is_low_surrogate c then unicode_escape c ++ quote_chars r
      else c :: quote_chars r
  end.

Definition quote (s : jsstring) : jsstring := dq :: quote_chars s ++ [dq].

(** SerializeJSONProperty with the state's [gap] and current [indent]. *)
Fixpoint serialize (gap indent : jsstring) (v : JValue) : jsstring :=
  match v with
  | JNull => lit "null"
  | JBool b => if b then lit "true" else lit "false"
  | JNumber x => if PrimFloat.is_finite x then Number_toString x else lit "null"
  | JString s => quote s
  | JArray items =>
      match items with
      | [] => lit "[]"
      | _ :: _ =>
          let ind := indent ++ gap in
          let parts := map (serialize gap ind) items in
          match gap with
          | [] => lit "[" ++ join (lit ",") parts ++ lit "]"
          | _ :: _ =>
              lit "[" ++ lf :: ind ++ join (44%N :: lf :: ind) parts
                ++ lf :: indent ++ lit "]"
          end
      end
  | JObject members =>
      match members with
      | [] => lit "{}"
      | _ :: _ =>
          let ind := indent ++ gap in
          let colon := match gap with [] => lit ":" | _ :: _ => lit ": " end in
          let parts :=
            map (fun kv => quote (fst kv) ++ colon ++ serialize gap ind (snd kv))
                members in
          match gap with
          | [] => lit "{" ++ join (lit ",") parts ++ lit "}"
          | _ :: _ =>
              lit "{" ++ lf :: ind ++ join (44%N :: lf :: ind) parts
                ++ lf :: indent ++ lit "}"
          end
      end
  end.

(** [JSON.stringify value null space] with a numeric [space]. *)
Definition JSON_stringify (v : JValue) (space : nat) : jsstring :=
  serialize (repeat 32%N (Nat.min space 10)) [] v.

(** [String value] on a value that arrived as JSON text; an array is its
    elements joined by commas, a [null] element giving the empty string. *)
Fixpoint String_of (v : JValue) : jsstring :=
  match v with
  | JString s => s
  | JNull => lit "null"
  | JBool b => if b then lit "true" else lit "false"
  | JNumber x => Number_toString x
  | JArray items =>
      join (lit ",")
           (map (fun x => match x with JNull => [] | _ => String_of x end) items)
  | JObject _ => lit "[object Object]"
  end.

(** *** Property reads and ToString on parsed values *)

Fixpoint own_property (k : jsstring) (members : list (jsstring * JValue))
  : option JValue :=
  match members with
  | [] => None
  | (k', v) :: rest => if str_eqb k k' then Some v else own_property k rest
  end.

(** [value.name], for a [name] that no built-in prototype, string or array
    has (so not [length], an index or [toString]): the own property of an
    object, and [undefined] (the inner [None]) on any other value but
    [null], where the read is a TypeError (the outer [None]). *)
Definition read_property (name : jsstring) (v : JValue) : option (option JValue) :=
  match v with
  | JNull => None
  | JObject members => Some (own_property name members)
  | _ => Some None
  end.

Fixpoint all_some {A} (l : list (option A)) : option (list A) :=
  match l with
  | [] => Some []
  | Some x :: r => option_map (cons x) (all_some r)
  | None :: _ => None
  end.

(** ToString.  A parsed object has no callable property of its own: with
    an own [toString] it cannot be converted to a primitive ([valueOf]
    returns the object), which is a TypeError ([None]); without one it is
    [Object.prototype.toString].  An array is its elements joined by commas,
    a [null] element giving the empty string. *)
Fixpoint ToString (v : JValue) : option jsstring :=
  match v with
  | JNull => Some (lit "null")
  | JBool b => Some (if b then lit "true" else lit "false")
  | JNumber x => Some (Number_toString x)
  | JString s => Some s
  | JArray items =>
      option_map (join (lit ","))
        (all_some (map (fun x => match x with JNull => Some [] | _ => ToString x end)
                       items))
  | JObject members =>
      if has_key (lit "toString") members then None
      else Some (lit "[object Object]")
  end.

(** A substitution [${value}] of a template literal. *)
Definition substitution (value : option JValue) : option jsstring :=
  match value with
  | None => Some (lit "undefined")
  | Some v => ToString v
  end.

End Json.

(* ================================================================== *)
(** ** [URLSearchParams] *)

Module Url.
Import JS Json.

Definition utf8_code_point (cp : N) : list N :=
  (if cp <? 128 then [cp]
   else if cp <? 2048 then [192 + cp / 64; 128 + cp mod 64]
   else if cp <? 65536 then
     [224 + cp / 4096; 128 + (cp / 64) mod 64; 128 + cp mod 64]
   else [240 + cp / 262144; 128 + (cp / 4096) mod 64;
         128 + (cp / 64) mod 64; 128 + cp mod 64])%N.

(** UTF-8 bytes of a string read as a USVString: a surrogate pair is one
    code point, a lone surrogate is U+FFFD. *)
Fixpoint utf8_encode (s : jsstring) : list N :=
  match s with
  | [] => []
  | c :: r =>
      if is_high_surrogate c then
        match r with
        | d :: r' =>
            if is_low_surrogate d
            then utf8_code_point (65536 + (c - 55296) * 1024 + (d - 56320))%N
                   ++ utf8_encode r'
            else utf8_code_point 65533%N ++ utf8_encode r
        | [] => utf8_code_point 65533%N
        end
      else if is_low_surrogate c then utf8_code_point 65533%N ++ utf8_encode r
      else utf8_code_point c ++ utf8_encode r
  end.

(** The application/x-www-form-urlencoded byte serializer. *)
Definition urlencode_byte (b : N) : jsstring :=
  if (b =? 32)%N then [43%N]
  else if ((b =? 42) || (b =? 45) || (b =? 46) || (b =? 95))%N
          || is_digit b
          || ((65 <=? b) && (b <=? 90))%N
          || ((97 <=? b) && (b <=? 122))%N
  then [b]
  else [37%N; hex_upper (b / 16); hex_upper (b mod 16)]%N.

Definition urlencode (s : jsstring) : jsstring :=
  flat_map urlencode_byte (utf8_encode s).

Definition URLSearchParams := list (jsstring * jsstring).

Definition append (name value : jsstring) (params : URLSearchParams)
  : URLSearchParams := params ++ [(name, value)].

(** [URLSearchParams.prototype.toString]. *)
Definition toString (params : URLSearchParams) : jsstring :=
  join [38%N]
       (map (fun nv => urlencode (fst nv) ++ 61%N :: urlencode (snd nv)) params).

(** Reading a query string back: its pieces between ampersands, each cut
    at its first equals sign (names and values still encoded). *)
Fixpoint split_on (c : N) (s : jsstring) : list jsstring :=
  match s with
  | [] => [[]]
  | x :: r =>
      if (x =? c)%N then [] :: split_on c r
      else match split_on c r with
           | [] => [[x]]
           | w :: ws => (x :: w) :: ws
           end
  end.

Fixpoint name_of (piece : jsstring) : jsstring :=
  match piece with
  | [] => []
  | x :: r => if (x =? 61)%N then [] else x :: name_of r
  end.

Definition query_names (query : jsstring) : list jsstring :=
  match query with
  | [] => []
  | _ :: _ => map name_of (split_on 38%N query)
  end.

End Url.

(* ================================================================== *)
(** ** Data model ([src/lib/api.ts]) *)

Import JS Json.

Module Finding.
Record t : Type := mk
  { index : option Z;
    type : jsstring;
    reason : jsstring;
    row : option JValue }.
End Finding.

Module Run.
Record t : Type := mk
  { id : jsstring;
    createdAt : jsstring;
    source : option jsstring;
    rowCount : option Z;
    explain : option bool;
    coverage : option (list jsstring);
    explanation : option jsstring;
    findings : option (list Finding.t) }.
End Run.

Module ListRunsResponse.
Record t : Type := mk
  { ok : bool;
    nextCursor : option jsstring;
    runs : list Run.t }.
End ListRunsResponse.

Module GetRunResponse.
Record t : Type := mk { ok : bool; run : Run.t }.
End GetRunResponse.

(** [response.json()] is annotated with an interface type and never checked
    against it; [from_json] is that unchecked reading of the parsed body.
    The views work on what is read of a list of runs and of a run.  Of the
    answer to a creation ([CreateRunResponse]) only [result.runId] is used,
    and it is read off the parsed body itself. *)
Class FromJson (A : Type) : Type := from_json : JValue -> A.

#[global] Instance parsed_body : FromJson JValue := fun v => v.

(** *** Bodies that conform to the interfaces

    A parsed body conforms to an interface when it is an object whose
    required properties are there with values of the declared types and
    whose optional properties are either left out or of the declared type;
    other properties may be there too.  Numbers are integers in the typed
    records, so a conforming [index] or [rowCount] is an integer-valued
    number.  The functions return what an unchecked reading of a conforming
    body sees, and [None] on any other body. *)

Module Conforming.

Definition required {A} (k : string) (read : JValue -> option A)
  (members : list (jsstring * JValue)) : option A :=
  match own_property (lit k) members with
  | Some v => read v
  | None => None
  end.

Definition optional {A} (k : string) (read : JValue -> option A)
  (members : list (jsstring * JValue)) : option (option A) :=
  match own_property (lit k) members with
  | Some v => option_map Some (read v)
  | None => Some None
  end.

Definition string (v : JValue) : option jsstring :=
  match v with JString s => Some s | _ => None end.

Definition boolean (v : JValue) : option bool :=
  match v with JBool b => Some b | _ => None end.

Definition integer (v : JValue) : option Z :=
  match v with JNumber x => Float64.Number_to_Z x | _ => None end.

Definition any (v : JValue) : option JValue := Some v.

Definition array {A} (read : JValue -> option A) (v : JValue) : option (list A) :=
  match v with JArray items => all_some (map read items) | _ => None end.

Definition finding (v : JValue) : option Finding.t :=
  match v with
  | JObject members =>
      match optional "index" integer members, required "type" string members,
            required "reason" string members, optional "row" any members with
      | Some index, Some type, Some reason, Some row =>
          Some (Finding.mk index type reason row)
      | _, _, _, _ => None
      end
  | _ => None
  end.

Definition run (v : JValue) : option Run.t :=
  match v with
  | JObject members =>
      match required "id" string members, required "createdAt" string members,
            optional "source" string members, optional "rowCount" integer members,
            optional "explain" boolean members,
            optional "coverage" (array string) members,
            optional "explanation" string members,
            optional "findings" (array finding) members with
      | Some id, Some createdAt, Some source, Some rowCount, Some explain,
        Some coverage, Some explanation, Some findings =>
          Some (Run.mk id createdAt source rowCount explain coverage explanation
                       findings)
      | _, _, _, _, _, _, _, _ => None
      end
  | _ => None
  end.

Definition getRunResponse (v : JValue) : option GetRunResponse.t :=
  match v with
  | JObject members =>
      match required "ok" boolean members, required "run" run members with
      | Some ok, Some r => Some (GetRunResponse.mk ok r)
      | _, _ => None
      end
  | _ => None
  end.

End Conforming.

(* ================================================================== *)
(** ** HTTP, thrown values and the event trace *)

Inductive Method : Type := GET | POST.

Record File : Type := mkFile { file_name : jsstring; file_content : jsstring }.

Inductive FormEntry : Type :=
| FormFile (f : File)
| FormText (s : jsstring).

Inductive Body : Type :=
| TextBody (s : jsstring)
| FormBody (entries : list (jsstring * FormEntry)).

(** A call of [fetch]: [url] is the string the caller passes, as it is
    built; what the URL parser of [fetch] makes of it is not part of the
    model. *)
Module Request.
Record t : Type := mk
  { url : jsstring;
    method : Method;
    headers : list (jsstring * jsstring);
    body : option Body }.
End Request.

Module Response.
Record t : Type := mk
  { status : Z;
    statusText : jsstring;
    body : jsstring }.

(** [Response.ok]: the status is in the range 200 to 299. *)
Definition ok (r : t) : bool := ((200 <=? status r) && (status r <=? 299))%Z.
End Response.

(** Every value thrown here is an [Error] object: [new Error(...)] of the
    source, the SyntaxError of [JSON.parse] and the TypeErrors of a [fetch]
    that got no response, of a property read on [null] and of a failed
    conversion to a string. *)
Inductive ErrorKind : Type := PlainError | SyntaxError | TypeError.

Inductive Exn : Type := ErrorObject (kind : ErrorKind) (message : jsstring).

Definition Error (message : jsstring) : Exn := ErrorObject PlainError message.

Definition instanceof_Error (e : Exn) : bool :=
  match e with ErrorObject _ _ => true end.

Definition message (e : Exn) : jsstring :=
  match e with ErrorObject _ m => m end.

(** The texts the engine chooses for its own errors: the SyntaxError of
    [JSON.parse] on a text, the TypeError of a [fetch] without a response,
    of reading a named property of [null], and of converting an object that
    has no primitive value. *)
Record Engine : Type := mkEngine
  { syntax_error_message : jsstring -> jsstring;
    network_error_message : jsstring;
    null_property_message : jsstring -> jsstring;
    not_primitive_message : jsstring }.

Inductive Variant : Type := destructive.

Record Toast : Type := mkToast
  { title : jsstring;
    description : option jsstring;
    variant : option Variant }.

(** The object URL of a blob, and the anchor element of the download. *)
Inductive ObjectURL : Type := BlobURL (blob : jsstring).

Record Anchor : Type := mkAnchor { href : ObjectURL; download : jsstring }.

Inductive Event : Type :=
| EFetch (req : Request.t)
| EBlob (resp : Response.t)
| ECreateObjectURL (blob : jsstring)
| ECreateElement (tag : jsstring)
| EAppendChild (a : Anchor)
| EClick (a : Anchor)
| ERevokeObjectURL (u : ObjectURL)
| ERemoveChild (a : Anchor)
| EToast (t : Toast)
| ENavigate (path : jsstring)
| ESetIsCreating (b : bool).

Definition Trace := list Event.

Definition is_fetch (e : Event) : bool :=
  match e with EFetch _ => true | _ => false end.

Definition is_download_effect (e : Event) : bool :=
  match e with
  | EBlob _ | ECreateObjectURL _ | ECreateElement _ | EAppendChild _
  | EClick _ | ERevokeObjectURL _ | ERemoveChild _ => true
  | _ => false
  end.

(** The requests of a trace, oldest first. *)
Definition requests (t : Trace) : list Request.t :=
  flat_map (fun e => match e with EFetch r => [r] | _ => [] end) t.

(** *** The monad of an async function: a trace and a result or a throw *)

Inductive Result (A : Type) : Type :=
| Ok (a : A)
| Thrown (e : Exn).

Arguments Ok {A} a.
Arguments Thrown {A} e.

Definition M (A : Type) : Type := Trace -> Trace * Result A.

Definition ret {A} (a : A) : M A := fun t => (t, Ok a).

Definition throw {A} (e : Exn) : M A := fun t => (t, Thrown e).

Definition bind {A B} (m : M A) (k : A -> M B) : M B :=
  fun t =>
    match m t with
    | (t1, Ok a) => k a t1
    | (t1, Thrown e) => (t1, Thrown e)
    end.

Definition emit (e : Event) : M unit := fun t => (t ++ [e], Ok tt).

(** An evaluation without effects, which returns or throws. *)
Definition completion {A} (r : Result A) : M A := fun t => (t, r).

(** [try { body } catch (error) { handler }]. *)
Definition try_catch {A} (body : M A) (handler : Exn -> M A) : M A :=
  fun t =>
    match body t with
    | (t1, Ok a) => (t1, Ok a)
    | (t1, Thrown e) => handler e t1
    end.

(** [try { body } finally { fin }], for a [fin] that completes normally. *)
Definition try_finally {A} (body : M A) (fin : M unit) : M A :=
  fun t =>
    match body t with
    | (t1, r) =>
        match fin t1 with
        | (t2, Ok _) => (t2, r)
        | (t2, Thrown e) => (t2, Thrown e)
        end
    end.

Declare Scope js_scope.
Delimit Scope js_scope with js.
Notation "x <- m ;; k" := (bind m (fun x => k))
  (at level 61, m at next level, right associativity) : js_scope.
Notation "m ;; k" := (bind m (fun _ => k))
  (at level 61, right associativity) : js_scope.
Open Scope js_scope.

Definition navigate (path : jsstring) : M unit := emit (ENavigate path).
Definition toast (t : Toast) : M unit := emit (EToast t).
Definition setIsCreating (b : bool) : M unit := emit (ESetIsCreating b).

(* ================================================================== *)
(** ** TanStack Query

    [useQuery] and [useInfiniteQuery] of version 5: a disabled query never
    calls its query function and is idle ([isLoading] is false); a failed
    attempt is repeated [retry] more times; [hasNextPage] tests
    [getNextPageParam] of the last page against null and undefined, and
    [fetchNextPage] passes that page parameter to the query function. *)

Module ReactQuery.

Fixpoint attempt {A} (retry : nat) (queryFn : M A) : M A :=
  try_catch queryFn
    (fun e => match retry with
              | O => throw e
              | S n => attempt n queryFn
              end).

Module Query.
Record t (A : Type) : Type := mk
  { data : option A;
    error : option Exn;
    isLoading : bool }.
Arguments mk {A} _ _ _.
Arguments data {A} _.
Arguments error {A} _.
Arguments isLoading {A} _.
End Query.

(** What the hook returns on the first render. *)
Definition first_render {A} (enabled : bool) : Query.t A :=
  Query.mk None None enabled.

(** What the hook returns once the query has settled. *)
Definition useQuery {A} (retry : nat) (queryFn : M A) (enabled : bool)
  : M (Query.t A) :=
  if enabled then
    try_catch (a <- attempt retry queryFn ;; ret (Query.mk (Some a) None false))
              (fun e => ret (Query.mk None (Some e) false))
  else ret (first_render false).

Module Infinite.
Record t (P : Type) : Type := mk
  { pages : option (list P);
    error : option Exn;
    isLoading : bool;
    isFetchingNextPage : bool }.
Arguments mk {P} _ _ _ _.
Arguments pages {P} _.
Arguments error {P} _.
Arguments isLoading {P} _.
Arguments isFetchingNextPage {P} _.
End Infinite.

Fixpoint last_page {P} (pages : list P) : option P :=
  match pages with
  | [] => None
  | [p] => Some p
  | _ :: rest => last_page rest
  end.

Section InfiniteQuery.
Variables (P Param : Type).
Variable retry : nat.
Variable queryFn : option Param -> M P.
Variable getNextPageParam : P -> option Param.
Variable initialPageParam : option Param.

Definition next_page_param (st : Infinite.t P) : option Param :=
  match Infinite.pages st with
  | None => None
  | Some pages =>
      match last_page pages with
      | None => None
      | Some lastPage => getNextPageParam lastPage
      end
  end.

Definition hasNextPage (st : Infinite.t P) : bool :=
  match next_page_param st with Some _ => true | None => false end.

(** The state once the first page has settled. *)
Definition useInfiniteQuery : M (Infinite.t P) :=
  try_catch
    (page <- attempt retry (queryFn initialPageParam) ;;
     ret (Infinite.mk (Some [page]) None false false))
    (fun e => ret (Infinite.mk None (Some e) false false)).

(** The state once [fetchNextPage()] has settled; without a next page
    parameter the data is returned as it is. *)
Definition fetchNextPage (st : Infinite.t P) : M (Infinite.t P) :=
  match Infinite.pages st with
  | None | Some [] => useInfiniteQuery
  | Some pages =>
      match next_page_param st with
      | None => ret st
      | Some param =>
          try_catch
            (page <- attempt retry (queryFn (Some param)) ;;
             ret (Infinite.mk (Some (pages ++ [page])) None false false))
            (fun e => ret (Infinite.mk (Some pages) (Some e) false false))
      end
  end.

End InfiniteQuery.

End ReactQuery.

(* ================================================================== *)
(** ** The dashboard *)

Import Url.

Import Float64.

(** ToBoolean on an optional number ([undefined] is falsy). *)
Definition truthy_opt_number (o : option Number) : bool :=
  match o with None => false | Some n => truthy_number n end.

(** [a || d] on an optional string. *)
Definition or_else (o : option jsstring) (d : jsstring) : jsstring :=
  match o with
  | Some s => if truthy_string s then s else d
  | None => d
  end.

(** U+2014 EM DASH, the placeholder of an empty cell. *)
Definition dash : jsstring := [8212%N].

Fixpoint mapi_from {A B} (i : nat) (f : A -> nat -> B) (l : list A) : list B :=
  match l with
  | [] => []
  | x :: r => f x i :: mapi_from (S i) f r
  end.

(** [array.map((x, idx) => ...)]. *)
Definition mapi {A B} (f : A -> nat -> B) (l : list A) : list B := mapi_from 0 f l.

(** The five operations of the transport client, with their arguments. *)
Inductive Operation : Type :=
| ListRuns (limit : option Number) (cursor : option jsstring)
| GetRun (runId : jsstring)
| CreateRunFromRows (rows : list JValue) (explain : option bool)
| CreateRunFromFile (file : File) (explain : option bool)
| ExportRunCsv (runId : jsstring).

Inductive Outcome : Type :=
| Listed (r : ListRunsResponse.t)
| Got (r : GetRunResponse.t)
| Created (result : JValue)
| Exported.

(** *** Views *)

Record RunRow : Type := mkRunRow
  { row_key : jsstring;
    created_cell : jsstring;
    source_cell : jsstring;
    rows_cell : Z;
    explain_badge : bool;
    coverage_cell : list jsstring;
    open_path : jsstring;
    export_id : jsstring }.

Record LoadMoreButton : Type := mkLoadMore { disabled : bool }.

Inductive RunListView : Type :=
| RunsLoading
| NoRunsYet
| RunsTable (rows : list RunRow) (loadMore : option LoadMoreButton).

Record FindingRow : Type := mkFindingRow
  { index_cell : Z;
    type_cell : jsstring;
    reason_cell : jsstring;
    row_cell : option jsstring }.

Record DetailContent : Type := mkDetail
  { shortId : jsstring;
    created : jsstring;
    explanation_card : option jsstring;
    findings_summary : jsstring;
    findings_table : option (list FindingRow) }.

Inductive RunDetailView : Type :=
| DetailLoading
| ErrorPanel (text : jsstring)
| Detail (content : DetailContent).

(** *** Readers and sample data of the worked examples *)

Module Sample.

Fixpoint get (k : jsstring) (members : list (jsstring * JValue)) : option JValue :=
  match members with
  | [] => None
  | (k', v) :: rest => if str_eqb k k' then Some v else get k rest
  end.

Definition prop (k : string) (v : JValue) : option JValue :=
  match v with JObject members => get (lit k) members | _ => None end.

Definition string_prop (k : string) (v : JValue) : option jsstring :=
  match prop k v with Some (JString s) => Some s | _ => None end.

Definition bool_prop (k : string) (v : JValue) : option bool :=
  match prop k v with Some (JBool b) => Some b | _ => None end.

Definition number_prop (k : string) (v : JValue) : option Z :=
  match prop k v with Some (JNumber x) => Number_to_Z x | _ => None end.

Definition list_prop {A} (k : string) (f : JValue -> A) (v : JValue)
  : option (list A) :=
  match prop k v with Some (JArray items) => Some (map f items) | _ => None end.

Definition text_of (v : JValue) : jsstring :=
  match v with JString s => s | _ => [] end.

Definition or_empty (o : option jsstring) : jsstring :=
  match o with Some s => s | None => [] end.

Definition read_finding (v : JValue) : Finding.t :=
  Finding.mk (number_prop "index" v)
             (or_empty (string_prop "type" v))
             (or_empty (string_prop "reason" v))
             (prop "row" v).

Definition read_run (v : JValue) : Run.t :=
  Run.mk (or_empty (string_prop "id" v))
         (or_empty (string_prop "createdAt" v))
         (string_prop "source" v)
         (number_prop "rowCount" v)
         (bool_prop "explain" v)
         (list_prop "coverage" text_of v)
         (string_prop "explanation" v)
         (list_prop "findings" read_finding v).

Definition read_ok (v : JValue) : bool :=
  match bool_prop "ok" v with Some b => b | None => false end.

Definition read_list (v : JValue) : ListRunsResponse.t :=
  ListRunsResponse.mk (read_ok v) (string_prop "nextCursor" v)
    (match list_prop "runs" read_run v with Some l => l | None => [] end).

Definition read_get (v : JValue) : GetRunResponse.t :=
  GetRunResponse.mk (read_ok v)
    (match prop "run" v with Some r => read_run r | None => read_run JNull end).

Definition engine : Engine :=
  mkEngine (fun _ => lit "Unexpected token") (lit "Failed to fetch")
           (fun name =>
              lit "Cannot read properties of null (reading '" ++ name ++ lit "')")
           (lit "Cannot convert object to primitive value").

Fixpoint ends_with_from (n : nat) (suffix s : jsstring) : bool :=
  match n with
  | O => str_eqb suffix s
  | S n' => match s with [] => false | _ :: r => ends_with_from n' suffix r end
  end.

Definition ends_with (suffix s : jsstring) : bool :=
  ends_with_from (List.length s - List.length suffix) suffix s.

Definition not_found : Response.t := Response.mk 404 (lit "Not Found") [].

(** A backend that finds nothing. *)
Definition backend_404 (_ : Trace) (_ : Request.t) : option Response.t :=
  Some not_found.

(** A backend that answers 200 with a body that is not JSON. *)
Definition garbled : Response.t := Response.mk 200 (lit "OK") (lit "oops").

Definition backend_garbled (_ : Trace) (_ : Request.t) : option Response.t :=
  Some garbled.

(** The body [{ ok: true, run: { id: r1, createdAt: 2024, explain: true } }]. *)
Definition run_body : jsstring :=
  lit "{" ++ q "ok" ++ lit ":true," ++ q "run" ++ lit ":{" ++ q "id" ++ lit ":"
    ++ q "r1" ++ lit "," ++ q "createdAt" ++ lit ":" ++ q "2024" ++ lit ","
    ++ q "explain" ++ lit ":true}}".

(** A backend that serves the run but not its CSV export. *)
Definition backend_no_export (_ : Trace) (req : Request.t) : option Response.t :=
  if ends_with (lit "/export.csv") (Request.url req) then Some not_found
  else Some (Response.mk 200 (lit "OK") run_body).

(** A member [key: text] of a JSON object, and a run object with an
    identifier and a creation time. *)
Definition member (key text : string) : jsstring := q key ++ lit ":" ++ q text.

Definition run_text (id : string) : jsstring :=
  lit "{" ++ member "id" id ++ lit "," ++ member "createdAt" "2024" ++ lit "}".

(** Two pages: runs r1 and r2 with the cursor c1, then run r3 and no cursor. *)
Definition first_page_body : jsstring :=
  lit "{" ++ q "ok" ++ lit ":true," ++ member "nextCursor" "c1" ++ lit ","
    ++ q "runs" ++ lit ":[" ++ run_text "r1" ++ lit "," ++ run_text "r2" ++ lit "]}".

Definition second_page_body : jsstring :=
  lit "{" ++ q "ok" ++ lit ":true," ++ q "runs" ++ lit ":[" ++ run_text "r3" ++ lit "]}".

Definition backend_two_pages (_ : Trace) (req : Request.t) : option Response.t :=
  if ends_with (lit "cursor=c1") (Request.url req)
  then Some (Response.mk 200 (lit "OK") second_page_body)
  else Some (Response.mk 200 (lit "OK") first_page_body).

(** A backend that cannot be reached. *)
Definition backend_down (_ : Trace) (_ : Request.t) : option Response.t := None.

(** A backend that creates the run r9. *)
Definition backend_creates (_ : Trace) (_ : Request.t) : option Response.t :=
  Some (Response.mk 201 (lit "Created")
          (lit "{" ++ q "ok" ++ lit ":true," ++ member "runId" "r9" ++ lit "}")).

(** A backend that serves a CSV of one line. *)
Definition backend_csv (_ : Trace) (_ : Request.t) : option Response.t :=
  Some (Response.mk 200 (lit "OK") (lit "index,type,reason")).

Definition run_of (id : string) : Run.t :=
  Run.mk (lit id) (lit "2024-01-01T00:00:00Z") None None None None None None.

Definition page_of (ids : list string) (next : option jsstring) : ListRunsResponse.t :=
  ListRunsResponse.mk true next (map run_of ids).

End Sample.

Unset Implicit Arguments.

Section Watchtower.

(** [import.meta.env]. *)
Variables VITE_API_URL VITE_WATCHTOWER_SECRET : option jsstring.
Variable engine : Engine.
(** The backend: the response to a request given all that happened before,
    or no response at all. *)
Variable backend : Trace -> Request.t -> option Response.t.
(** The retry count of the query client. *)
Variable retry : nat.
Context {ListRuns_json : FromJson ListRunsResponse.t}.
Context {GetRun_json : FromJson GetRunResponse.t}.

(** **** [src/lib/api.ts] *)

Definition API_URL : jsstring :=
  or_else VITE_API_URL (lit "http://localhost:8787/api/v1").

Definition SECRET : jsstring := or_else VITE_WATCHTOWER_SECRET (lit "dev-secret").

Definition getHeaders : list (jsstring * jsstring) :=
  [(lit "x-watchtower-secret", SECRET)].

Definition fetch (req : Request.t) : M Response.t :=
  fun t =>
    match backend t req with
    | Some response => (t ++ [EFetch req], Ok response)
    | None =>
        (t ++ [EFetch req],
         Thrown (ErrorObject TypeError (network_error_message engine)))
    end.

(** [response.json()]. *)
Definition json {A} `{FromJson A} (response : Response.t) : M A :=
  match JSON_parse (Response.body response) with
  | Some v => ret (from_json v)
  | None =>
      throw (ErrorObject SyntaxError
               (syntax_error_message engine (Response.body response)))
  end.

Definition listRuns_params (limit : option Number) (cursor : option jsstring)
  : URLSearchParams :=
  let params : URLSearchParams := [] in
  let params :=
    match limit with
    | Some n => if truthy_number n
                then append (lit "limit") (Number_toString n) params else params
    | None => params
    end in
  match cursor with
  | Some c => if truthy_string c
              then append (lit "cursor") c params else params
  | None => params
  end.

Definition listRuns_url (limit : option Number) (cursor : option jsstring) : jsstring :=
  let params := listRuns_params limit cursor in
  API_URL ++ lit "/runs"
    ++ (if truthy_string (toString params) then 63%N :: toString params else []).

Definition listRuns_request (limit : option Number) (cursor : option jsstring)
  : Request.t :=
  Request.mk (listRuns_url limit cursor) GET getHeaders None.

Definition listRuns (limit : option Number) (cursor : option jsstring)
  : M ListRunsResponse.t :=
  response <- fetch (listRuns_request limit cursor) ;;
  if negb (Response.ok response)
  then throw (Error (lit "Failed to list runs: " ++ Response.statusText response))
  else json response.

Definition getRun_request (runId : jsstring) : Request.t :=
  Request.mk (API_URL ++ lit "/runs/" ++ runId) GET getHeaders None.

Definition getRun (runId : jsstring) : M GetRunResponse.t :=
  response <- fetch (getRun_request runId) ;;
  if negb (Response.ok response)
  then throw (Error (lit "Failed to get run: " ++ Response.statusText response))
  else json response.

(** [JSON.stringify({ rows, explain })]: an undefined [explain] is left out. *)
Definition createRunFromRows_body (rows : list JValue) (explain : option bool)
  : jsstring :=
  JSON_stringify
    (JObject ((lit "rows", JArray rows)
              :: match explain with
                 | Some b => [(lit "explain", JBool b)]
                 | None => []
                 end)) 0.

Definition createRunFromRows_request (rows : list JValue) (explain : option bool)
  : Request.t :=
  Request.mk (API_URL ++ lit "/run") POST
    (getHeaders ++ [(lit "Content-Type", lit "application/json")])
    (Some (TextBody (createRunFromRows_body rows explain))).

Definition createRunFromRows (rows : list JValue) (explain : option bool)
  : M JValue :=
  response <- fetch (createRunFromRows_request rows explain) ;;
  if negb (Response.ok response)
  then throw (Error (lit "Failed to create run: " ++ Response.statusText response))
  else json response.

Definition createRunFromFile_request (file : File) (explain : option bool)
  : Request.t :=
  let formData := [(lit "file", FormFile file)] in
  let formData :=
    match explain with
    | Some b => formData ++ [(lit "explain", FormText (if b then lit "true" else lit "false"))]
    | None => formData
    end in
  Request.mk (API_URL ++ lit "/run") POST getHeaders (Some (FormBody formData)).

Definition createRunFromFile (file : File) (explain : option bool)
  : M JValue :=
  response <- fetch (createRunFromFile_request file explain) ;;
  if negb (Response.ok response)
  then throw (Error (lit "Failed to create run from file: "
                       ++ Response.statusText response))
  else json response.

Definition exportRunCsv_request (runId : jsstring) : Request.t :=
  Request.mk (API_URL ++ lit "/runs/" ++ runId ++ lit "/export.csv")
             GET getHeaders None.

(** The download of a fetched CSV: the events after the status check. *)
Definition download_events (runId : jsstring) (response : Response.t) : Trace :=
  let blob := Response.body response in
  let url := BlobURL blob in
  let a := mkAnchor url (lit "run-" ++ runId ++ lit ".csv") in
  [EBlob response; ECreateObjectURL blob; ECreateElement (lit "a");
   EAppendChild a; EClick a; ERevokeObjectURL url; ERemoveChild a].

Definition exportRunCsv (runId : jsstring) : M unit :=
  response <- fetch (exportRunCsv_request runId) ;;
  if negb (Response.ok response)
  then throw (Error (lit "Failed to export CSV: " ++ Response.statusText response))
  else
    emit (EBlob response) ;;
    let blob := Response.body response in
    emit (ECreateObjectURL blob) ;;
    let url := BlobURL blob in
    emit (ECreateElement (lit "a")) ;;
    let a := mkAnchor url (lit "run-" ++ runId ++ lit ".csv") in
    emit (EAppendChild a) ;;
    emit (EClick a) ;;
    emit (ERevokeObjectURL url) ;;
    emit (ERemoveChild a).

Definition request_of (op : Operation) : Request.t :=
  match op with
  | ListRuns limit cursor => listRuns_request limit cursor
  | GetRun runId => getRun_request runId
  | CreateRunFromRows rows explain => createRunFromRows_request rows explain
  | CreateRunFromFile file explain => createRunFromFile_request file explain
  | ExportRunCsv runId => exportRunCsv_request runId
  end.

(** The outcome an operation makes of a parsed body. *)
Definition read_outcome (op : Operation) (v : JValue) : Outcome :=
  match op with
  | ListRuns _ _ => Listed (from_json v)
  | GetRun _ => Got (from_json v)
  | CreateRunFromRows _ _ | CreateRunFromFile _ _ => Created v
  | ExportRunCsv _ => Exported
  end.

Definition perform (op : Operation) : M Outcome :=
  match op with
  | ListRuns limit cursor => r <- listRuns limit cursor ;; ret (Listed r)
  | GetRun runId => r <- getRun runId ;; ret (Got r)
  | CreateRunFromRows rows explain =>
      r <- createRunFromRows rows explain ;; ret (Created r)
  | CreateRunFromFile file explain =>
      r <- createRunFromFile file explain ;; ret (Created r)
  | ExportRunCsv runId => exportRunCsv runId ;; ret Exported
  end.

(** **** The run list view ([Home]) *)

Record HomeState : Type := mkHome
  { explain : bool;
    file : option File;
    jsonText : jsstring;
    isCreating : bool }.

(** The [useInfiniteQuery] of the view: page size 20, the page parameter is
    the cursor, the next one is the last page's [nextCursor]. *)
Definition Home_queryFn (pageParam : option jsstring) : M ListRunsResponse.t :=
  listRuns (Some 20%float) pageParam.

Definition Home_getNextPageParam (lastPage : ListRunsResponse.t) : option jsstring :=
  ListRunsResponse.nextCursor lastPage.

Definition Home_query : M (ReactQuery.Infinite.t ListRunsResponse.t) :=
  ReactQuery.useInfiniteQuery retry Home_queryFn None.

Definition Home_fetchNextPage (q : ReactQuery.Infinite.t ListRunsResponse.t)
  : M (ReactQuery.Infinite.t ListRunsResponse.t) :=
  ReactQuery.fetchNextPage retry Home_queryFn Home_getNextPageParam None q.

Definition Home_hasNextPage (q : ReactQuery.Infinite.t ListRunsResponse.t) : bool :=
  ReactQuery.hasNextPage Home_getNextPageParam q.

(** [data?.pages.flatMap(page => page.runs) || []]. *)
Definition Home_runs (q : ReactQuery.Infinite.t ListRunsResponse.t) : list Run.t :=
  match ReactQuery.Infinite.pages q with
  | Some pages => flat_map ListRunsResponse.runs pages
  | None => []
  end.

(** The route [`/run/${result.runId}`] of a created run. *)
Definition run_route (result : JValue) : Result jsstring :=
  match read_property (lit "runId") result with
  | None => Thrown (ErrorObject TypeError (null_property_message engine (lit "runId")))
  | Some runId =>
      match substitution runId with
      | None => Thrown (ErrorObject TypeError (not_primitive_message engine))
      | Some text => Ok (lit "/run/" ++ text)
      end
  end.

Definition handleFileUpload (st : HomeState) : M unit :=
  match file st with
  | None => toast (mkToast (lit "No file selected") None (Some destructive))
  | Some f =>
      setIsCreating true ;;
      try_finally
        (try_catch
           (result <- createRunFromFile f (Some (explain st)) ;;
            toast (mkToast (lit "Run created successfully") None None) ;;
            route <- completion (run_route result) ;;
            navigate route)
           (fun error =>
              toast (mkToast (lit "Failed to create run")
                       (Some (if instanceof_Error error then message error
                              else lit "Unknown error"))
                       (Some destructive))))
        (setIsCreating false)
  end.

Definition handleJsonSubmit (st : HomeState) : M unit :=
  if negb (truthy_string (trim (jsonText st))) then
    toast (mkToast (lit "No JSON provided") None (Some destructive))
  else
    try_finally
      (try_catch
         (rows <-
            match JSON_parse (jsonText st) with
            | Some v => ret v
            | None =>
                throw (ErrorObject SyntaxError
                         (syntax_error_message engine (jsonText st)))
            end ;;
          match rows with
          | JArray items =>
              setIsCreating true ;;
              result <- createRunFromRows items (Some (explain st)) ;;
              toast (mkToast (lit "Run created successfully") None None) ;;
              route <- completion (run_route result) ;;
              navigate route
          | _ => throw (Error (lit "JSON must be an array of rows"))
          end)
         (fun error =>
            toast (mkToast (lit "Failed to create run")
                     (Some (if instanceof_Error error then message error
                            else lit "Invalid JSON"))
                     (Some destructive))))
      (setIsCreating false).

Definition Home_handleExport (runId : jsstring) : M unit :=
  try_catch
    (exportRunCsv runId ;;
     toast (mkToast (lit "CSV exported successfully") None None))
    (fun error =>
       toast (mkToast (lit "Failed to export CSV")
                (Some (if instanceof_Error error then message error
                       else lit "Unknown error"))
                (Some destructive))).

Definition Home_row (run : Run.t) : RunRow :=
  mkRunRow (Run.id run)
           (Run.createdAt run)
           (or_else (Run.source run) dash)
           (match Run.rowCount run with Some n => n | None => 0%Z end)
           (match Run.explain run with Some b => b | None => false end)
           (match Run.coverage run with Some c => c | None => [] end)
           (lit "/run/" ++ Run.id run)
           (Run.id run).

(** The [Recent Runs] card. *)
Definition Home_view (q : ReactQuery.Infinite.t ListRunsResponse.t) : RunListView :=
  let runs := Home_runs q in
  if ReactQuery.Infinite.isLoading q then RunsLoading
  else if Nat.eqb (List.length runs) 0 then NoRunsYet
  else RunsTable (map Home_row runs)
         (if Home_hasNextPage q
          then Some (mkLoadMore (ReactQuery.Infinite.isFetchingNextPage q))
          else None).

Definition load_more_offered (v : RunListView) : bool :=
  match v with
  | RunsTable _ (Some _) => true
  | _ => false
  end.

Definition displayed_ids (v : RunListView) : list jsstring :=
  match v with
  | RunsTable rows _ => map row_key rows
  | _ => []
  end.

(** The query state once the pages [pages] have been fetched. *)
Definition fetched (pages : list ListRunsResponse.t) (fetchingNext : bool)
  : ReactQuery.Infinite.t ListRunsResponse.t :=
  ReactQuery.Infinite.mk (Some pages) None false fetchingNext.

(** **** The run detail view ([RunDetail]) *)

Definition RunDetail_queryFn (runId : option jsstring) : M GetRunResponse.t :=
  match runId with
  | Some id => if negb (truthy_string id)
               then throw (Error (lit "No run ID provided"))
               else getRun id
  | None => throw (Error (lit "No run ID provided"))
  end.

Definition RunDetail_query (runId : option jsstring)
  : M (ReactQuery.Query.t GetRunResponse.t) :=
  ReactQuery.useQuery retry (RunDetail_queryFn runId) (truthy_opt_string runId).

Definition RunDetail_handleExport (runId : option jsstring) : M unit :=
  match runId with
  | Some id =>
      if negb (truthy_string id) then ret tt
      else
        try_catch
          (exportRunCsv id ;;
           toast (mkToast (lit "CSV exported successfully") None None))
          (fun error =>
             toast (mkToast (lit "Failed to export CSV")
                      (Some (if instanceof_Error error then message error
                             else lit "Unknown error"))
                      (Some destructive)))
  | None => ret tt
  end.

Definition formatJson (obj : JValue) : jsstring :=
  match
    match obj with
    | JString s =>
        match JSON_parse s with
        | Some parsed => Some (JSON_stringify parsed 2)
        | None => None
        end
    | _ => Some (JSON_stringify obj 2)
    end
  with
  | Some text => text
  | None => String_of obj
  end.

(** [run.explain && run.explanation && <Card>]: the card, or a falsy value
    that renders nothing. *)
Definition explanation_panel (run : Run.t) : option jsstring :=
  match Run.explain run with
  | Some true =>
      match Run.explanation run with
      | Some text => if truthy_string text then Some text else None
      | None => None
      end
  | _ => None
  end.

(** [finding.index ?? idx]. *)
Definition finding_index (finding : Finding.t) (idx : nat) : Z :=
  match Finding.index finding with
  | Some i => i
  | None => Z.of_nat idx
  end.

Definition finding_row (finding : Finding.t) (idx : nat) : FindingRow :=
  mkFindingRow (finding_index finding idx)
               (Finding.type finding)
               (Finding.reason finding)
               (match Finding.row finding with
                | Some r => if truthy r then Some (formatJson r) else None
                | None => None
                end).

Definition findings_text (run : Run.t) : jsstring :=
  let length := option_map (@List.length Finding.t) (Run.findings run) in
  Z_toString (match length with Some n => Z.of_nat n | None => 0%Z end)
    ++ lit " issue"
    ++ (match length with Some 1%nat => [] | _ => lit "s" end)
    ++ lit " detected".

Definition RunDetail_view (q : ReactQuery.Query.t GetRunResponse.t) : RunDetailView :=
  let run := option_map GetRunResponse.run (ReactQuery.Query.data q) in
  if ReactQuery.Query.isLoading q then DetailLoading
  else
    match ReactQuery.Query.error q, run with
    | Some error, _ =>
        ErrorPanel (if instanceof_Error error then message error
                    else lit "Failed to load run details")
    | None, None => ErrorPanel (lit "Failed to load run details")
    | None, Some run =>
        Detail (mkDetail
                  (firstn 8 (Run.id run))
                  (Run.createdAt run)
                  (explanation_panel run)
                  (findings_text run)
                  (match Run.findings run with
                   | None | Some [] => None
                   | Some findings => Some (mapi finding_row findings)
                   end))
    end.

(** The Export button exists only in the detail rendering. *)
Definition export_button (v : RunDetailView) : bool :=
  match v with Detail _ => true | _ => false end.

Definition panel_text (v : RunDetailView) : option jsstring :=
  match v with ErrorPanel text => Some text | _ => None end.


(** **** Vocabulary of the statements *)

Definition page_ids (page : ListRunsResponse.t) : list jsstring :=
  map Run.id (ListRunsResponse.runs page).

(** No identifier occurs in two different lists. *)
Fixpoint pairwise_disjoint (ls : list (list jsstring)) : Prop :=
  match ls with
  | [] => True
  | l :: rest =>
      Forall (fun l' => forall x, In x l -> ~ In x l') rest
      /\ pairwise_disjoint rest
  end.

(** Neither an ampersand nor an equals sign. *)
Definition plain (c : N) : Prop := c <> 38%N /\ c <> 61%N.

(** **** The buttons of the [New Analysis Run] card

    [disabled={!file || isCreating}] and
    [disabled={!jsonText.trim() || isCreating}]. *)

Definition file_button_disabled (st : HomeState) : bool :=
  negb (match file st with Some _ => true | None => false end) || isCreating st.

Definition json_button_disabled (st : HomeState) : bool :=
  negb (truthy_string (trim (jsonText st))) || isCreating st.

(** **** More vocabulary *)

(** The latest value given to the in-flight flag in a trace, if any. *)
Fixpoint last_flag (t : Trace) : option bool :=
  match t with
  | [] => None
  | e :: rest =>
      match last_flag rest with
      | Some b => Some b
      | None => match e with ESetIsCreating b => Some b | _ => None end
      end
  end.

(** What an operation that ends in [response.json()] makes of the outcome
    of its [fetch]; [label] is the text before the status text. *)
Definition response_result {A} `{FromJson A} (label : jsstring)
  (o : option Response.t) : Result A :=
  match o with
  | None => Thrown (ErrorObject TypeError (network_error_message engine))
  | Some response =>
      if negb (Response.ok response)
      then Thrown (Error (label ++ Response.statusText response))
      else match JSON_parse (Response.body response) with
           | Some v => Ok (from_json v)
           | None =>
               Thrown (ErrorObject SyntaxError
                         (syntax_error_message engine (Response.body response)))
           end
  end.

(** What a creation handler does once the creation has returned [result]:
    the success toast, then the navigation, or the failure toast when the
    route cannot be made. *)
Definition after_creation (result : JValue) : Trace :=
  [EToast (mkToast (lit "Run created successfully") None None);
   match run_route result with
   | Ok route => ENavigate route
   | Thrown e =>
       EToast (mkToast (lit "Failed to create run") (Some (message e))
                 (Some destructive))
   end].

(** The toasts of a trace, oldest first. *)
Definition toasts (t : Trace) : list Toast :=
  flat_map (fun e => match e with EToast x => [x] | _ => [] end) t.

Definition success_toast (text : string) : Event :=
  EToast (mkToast (lit text) None None).

Definition failure_toast (text : string) (detail : jsstring) : Event :=
  EToast (mkToast (lit text) (Some detail) (Some destructive)).

Definition warning_toast (text : string) : Event :=
  EToast (mkToast (lit text) None (Some destructive)).

(* ================================================================== *)
(** ** Properties *)

(** *** Strings *)

Ltac bool_hyps :=
  repeat match goal with
    | H : (_ || _)%bool = true |- _ => apply orb_true_iff in H; destruct H
    | H : (_ && _)%bool = true |- _ => apply andb_true_iff in H; destruct H
    | H : (_ || _)%bool = false |- _ => apply orb_false_iff in H; destruct H
    | H : negb _ = true |- _ => apply negb_true_iff in H
    | H : negb _ = false |- _ => apply negb_false_iff in H
    | H : (_ =? _)%N = true |- _ => apply N.eqb_eq in H
    | H : (_ =? _)%N = false |- _ => apply N.eqb_neq in H
    | H : (_ <=? _)%N = true |- _ => apply N.leb_le in H
    | H : (_ <=? _)%N = false |- _ => apply N.leb_gt in H
    | H : (_ <? _)%N = true |- _ => apply N.ltb_lt in H
    | H : (_ <? _)%N = false |- _ => apply N.ltb_ge in H
    end.

Lemma starts_with_refl (s : jsstring) : starts_with s s = true.
Proof.
  induction s as [|c s IH]; simpl; [reflexivity|].
  now rewrite N.eqb_refl, IH.
Qed.

Lemma starts_with_app (p s : jsstring) : starts_with p (p ++ s) = true.
Proof.
  induction p as [|c p IH]; simpl; [reflexivity|].
  now rewrite N.eqb_refl, IH.
Qed.

Lemma includes_self (s : jsstring) : includes s s = true.
Proof.
  destruct s; simpl; [reflexivity|].
  now rewrite N.eqb_refl, starts_with_refl.
Qed.

Lemma includes_suffix (p s : jsstring) : includes (p ++ s) s = true.
Proof.
  induction p as [|c p IH]; simpl.
  - apply includes_self.
  - rewrite IH. apply orb_true_r.
Qed.

Lemma str_eqb_eq (a b : jsstring) : str_eqb a b = true <-> a = b.
Proof.
  revert b; induction a as [|x a IH]; destruct b as [|y b]; simpl;
    try (split; [discriminate | discriminate]); try tauto.
  rewrite andb_true_iff, N.eqb_eq, IH. split.
  - intros [-> ->]; reflexivity.
  - intros H; inversion H; auto.
Qed.

Lemma trim_start_head (s : jsstring) (c : N) (r : jsstring) :
  trim_start s = c :: r -> is_white_space c = false.
Proof.
  induction s as [|x s IH]; simpl; [discriminate|].
  destruct (is_white_space x) eqn:E; [exact IH|].
  intros H; inversion H; subst; exact E.
Qed.

Lemma trim_start_blank (s : jsstring) :
  trim_start s = [] -> Forall (fun c => is_white_space c = true) s.
Proof.
  induction s as [|x s IH]; simpl; [constructor|].
  destruct (is_white_space x) eqn:E; [|discriminate].
  intros H; constructor; auto.
Qed.

Lemma trim_start_last (l : jsstring) (c : N) :
  is_white_space c = false -> trim_start (l ++ [c]) <> [].
Proof.
  intros Hc; induction l as [|x l IH]; simpl.
  - rewrite Hc; discriminate.
  - destruct (is_white_space x); [exact IH | discriminate].
Qed.

(** A string that trims to nothing is made of white space only. *)
Lemma trim_blank (s : jsstring) :
  trim s = [] -> Forall (fun c => is_white_space c = true) s.
Proof.
  unfold trim, trim_end; intros H.
  apply trim_start_blank.
  destruct (trim_start s) as [|c r] eqn:E; [reflexivity|].
  exfalso. apply trim_start_head in E.
  simpl in H.
  destruct (trim_start (rev r ++ [c])) as [|y l] eqn:E2.
  - now apply trim_start_last in E2.
  - simpl in H. destruct (rev l); discriminate.
Qed.

(** *** The parser *)

Lemma skip_ws_head (s : jsstring) (c : N) (r : jsstring) :
  skip_ws s = c :: r -> is_json_ws c = false /\ In c s.
Proof.
  induction s as [|x s IH]; simpl; [discriminate|].
  destruct (is_json_ws x) eqn:E.
  - intros H; destruct (IH H); auto.
  - intros H; inversion H; subst; auto.
Qed.

Lemma parse_value_start (fuel : nat) (s : jsstring) (x : JValue * jsstring) :
  parse_value fuel s = Some x ->
  exists c r, skip_ws s = c :: r /\ value_start c = true.
Proof.
  destruct fuel as [|f]; simpl; [discriminate|].
  destruct (skip_ws s) as [|c r]; [discriminate|].
  intros H; exists c, r; split; [reflexivity|].
  unfold value_start.
  destruct (c =? 123)%N; [reflexivity|].
  destruct (c =? 91)%N; [reflexivity|].
  destruct (c =? 34)%N; [reflexivity|].
  destruct (c =? 116)%N; [reflexivity|].
  destruct (c =? 102)%N; [reflexivity|].
  destruct (c =? 110)%N; [reflexivity|].
  simpl. destruct ((c =? 45)%N || is_digit c); [reflexivity | discriminate].
Qed.


Lemma white_space_not_value_start (c : N) :
  is_white_space c = true -> value_start c = false.
Proof.
  intros H. destruct (value_start c) eqn:E; [|reflexivity].
  unfold is_white_space in H. unfold value_start, is_digit in E.
  bool_hyps; lia.
Qed.

(** Text made of white space only is not JSON. *)
Lemma parse_blank (s : jsstring) :
  Forall (fun c => is_white_space c = true) s -> JSON_parse s = None.
Proof.
  intros Hs. unfold JSON_parse.
  destruct (parse_value (2 + List.length s) s) as [x|] eqn:E; [|reflexivity].
  apply parse_value_start in E. destruct E as (c & r & Hskip & Hstart).
  apply skip_ws_head in Hskip. destruct Hskip as [_ Hin].
  rewrite Forall_forall in Hs. apply Hs in Hin.
  apply white_space_not_value_start in Hin. congruence.
Qed.

Lemma parsed_text_is_not_blank (s : jsstring) (v : JValue) :
  JSON_parse s = Some v -> truthy_string (trim s) = true.
Proof.
  intros H. destruct (trim s) eqn:E; [|reflexivity].
  apply trim_blank, parse_blank in E. congruence.
Qed.

(** *** Fuel *)

Lemma skip_ws_length (s : jsstring) :
  List.length (skip_ws s) <= List.length s.
Proof.
  induction s as [|c s IH]; simpl; [lia|].
  destruct (is_json_ws c); simpl; lia.
Qed.

Lemma parse_string_body_length_bounded (n : nat) :
  forall s acc str r,
    List.length s <= n ->
    parse_string_body s acc = Some (str, r) -> List.length r < List.length s.
Proof.
  induction n as [|n IH]; intros s acc str r Hn.
  - destruct s; [discriminate | simpl in Hn; lia].
  - destruct s as [|c s1]; simpl; [discriminate|]. simpl in Hn.
    destruct (c =? 34)%N.
    { intros H; inversion H; subst. lia. }
    destruct (c =? 92)%N.
    { destruct s1 as [|e s2]; [discriminate|]. simpl in Hn.
      destruct (e =? 117)%N.
      - destruct s2 as [|h1 [|h2 [|h3 [|h4 s3]]]]; try discriminate.
        simpl in Hn.
        destruct (hex4 h1 h2 h3 h4); [|discriminate].
        intros H. apply IH in H; [simpl; lia | lia].
      - destruct (escape_char e); [|discriminate].
        intros H. apply IH in H; [simpl; lia | lia]. }
    destruct (c <? 32)%N; [discriminate|].
    intros H. apply IH in H; [lia | lia].
Qed.

Lemma parse_string_body_length (s acc str r : jsstring) :
  parse_string_body s acc = Some (str, r) -> List.length r < List.length s.
Proof. apply (parse_string_body_length_bounded (List.length s)). lia. Qed.

Lemma take_digits_length (s : jsstring) :
  List.length (snd (take_digits s)) <= List.length s.
Proof.
  induction s as [|c s IH]; simpl; [lia|].
  destruct (is_digit c); [|simpl; lia].
  destruct (take_digits s) as [ds rest]. simpl in *. lia.
Qed.

Lemma parse_number_length (s : jsstring) (n : numeral) (r : jsstring) :
  parse_number s = Some (n, r) -> List.length r < List.length s.
Proof.
  unfold parse_number.
  assert (Hint : forall s1 ip s2,
             parse_int_part s1 = Some (ip, s2) -> List.length s2 < List.length s1).
  { intros s1 ip s2. unfold parse_int_part. destruct s1 as [|c r1]; [discriminate|].
    destruct (c =? 48)%N.
    - intros H; inversion H; subst. simpl; lia.
    - destruct (is_digit c) eqn:Ed; [|discriminate].
      simpl. rewrite Ed. pose proof (take_digits_length r1) as Hl.
      destruct (take_digits r1) as [ds rest]. intros H; inversion H; subst.
      simpl in *. lia. }
  assert (Hfrac : forall s2 fp s3,
             parse_frac_part s2 = Some (fp, s3) -> List.length s3 <= List.length s2).
  { intros s2 fp s3. unfold parse_frac_part. destruct s2 as [|c r2].
    - intros H; inversion H; subst. simpl; lia.
    - destruct (c =? 46)%N.
      + pose proof (take_digits_length r2) as Hl.
        destruct (take_digits r2) as [[|d ds] rest]; [discriminate|].
        intros H; inversion H; subst. simpl in *. lia.
      + intros H; inversion H; subst. simpl; lia. }
  assert (Hdig : forall sg s3 e s4,
             parse_exp_digits sg s3 = Some (e, s4) -> List.length s4 <= List.length s3).
  { intros sg s3 e s4. unfold parse_exp_digits.
    pose proof (take_digits_length s3) as Hl.
    destruct (take_digits s3) as [[|d ds] rest]; [discriminate|].
    intros H; inversion H; subst. simpl in *. lia. }
  assert (Hexp : forall s3 e s4,
             parse_exp_part s3 = Some (e, s4) -> List.length s4 <= List.length s3).
  { intros s3 e s4. unfold parse_exp_part. destruct s3 as [|c r3].
    - intros H; inversion H; subst. simpl; lia.
    - destruct ((c =? 101) || (c =? 69))%N.
      + destruct r3 as [|c1 r4]; [discriminate|].
        destruct (c1 =? 43)%N; [intros H; apply Hdig in H; simpl; lia|].
        destruct (c1 =? 45)%N; [intros H; apply Hdig in H; simpl; lia|].
        intros H; apply Hdig in H; simpl in *; lia.
      + intros H; inversion H; subst. simpl; lia. }
  destruct s as [|c r0].
  - simpl. discriminate.
  - destruct (c =? 45)%N.
    + destruct (parse_int_part r0) as [[ip s2]|] eqn:E1; [|discriminate].
      destruct (parse_frac_part s2) as [[fp s3]|] eqn:E2; [|discriminate].
      destruct (parse_exp_part s3) as [[e s4]|] eqn:E3; [|discriminate].
      intros H; inversion H; subst.
      apply Hint in E1. apply Hfrac in E2. apply Hexp in E3. simpl. lia.
    + destruct (parse_int_part (c :: r0)) as [[ip s2]|] eqn:E1; [|discriminate].
      destruct (parse_frac_part s2) as [[fp s3]|] eqn:E2; [|discriminate].
      destruct (parse_exp_part s3) as [[e s4]|] eqn:E3; [|discriminate].
      intros H; inversion H; subst.
      apply Hint in E1. apply Hfrac in E2. apply Hexp in E3. simpl in *. lia.
Qed.

Lemma starts_with_length (p s : jsstring) :
  starts_with p s = true ->
  List.length (skipn (List.length p) s) + List.length p = List.length s.
Proof.
  revert s; induction p as [|x p IH]; intros s; simpl; [lia|].
  destruct s as [|y s]; [discriminate|].
  rewrite andb_true_iff. intros [_ H]. apply IH in H. simpl. lia.
Qed.

Lemma lit_length (w : string) : List.length (lit w) = String.length w.
Proof.
  unfold lit. rewrite length_map.
  induction w as [|a w IH]; simpl; [reflexivity | now rewrite IH].
Qed.

Lemma parse_literal_length (w : string) (v v' : JValue) (s r : jsstring) :
  w <> ""%string ->
  parse_literal w v s = Some (v', r) -> List.length r < List.length s.
Proof.
  intros Hw. unfold parse_literal.
  destruct (starts_with (lit w) s) eqn:E; [|discriminate].
  intros H; inversion H; subst.
  apply starts_with_length in E. rewrite lit_length in E.
  destruct w; [congruence|]. simpl String.length in *. lia.
Qed.

Ltac step_parser := cbn [parse_value parse_elements parse_members].
Ltac step_parser_in H := cbn [parse_value parse_elements parse_members] in H.

(** Whatever fuel lets a parser return lets it return with any fuel that
    is at least the number of characters it consumed. *)
Lemma parser_fuel (f : nat) :
  (forall s v r,
      parse_value f s = Some (v, r) ->
      List.length r < List.length s
      /\ forall m, List.length s - List.length r <= m ->
                   parse_value m s = Some (v, r))
  /\ (forall s acc v r,
        parse_elements f s acc = Some (v, r) ->
        List.length r < List.length s
        /\ forall m, List.length s - List.length r <= m ->
                     parse_elements m s acc = Some (v, r))
  /\ (forall s acc v r,
        parse_members f s acc = Some (v, r) ->
        List.length r < List.length s
        /\ forall m, List.length s - List.length r <= m ->
                     parse_members m s acc = Some (v, r)).
Proof.
  induction f as [|f (IHV & IHE & IHM)].
  { repeat split; discriminate. }
  split; [|split].
  - intros s v r H. step_parser_in H.
    pose proof (skip_ws_length s) as Hws.
    destruct (skip_ws s) as [|c rest] eqn:Es; [discriminate|]. simpl in Hws.
    destruct (c =? 123)%N eqn:E1.
    { pose proof (skip_ws_length rest) as Hws1.
      destruct (skip_ws rest) as [|c1 r1] eqn:Es1; [discriminate|]. simpl in Hws1.
      destruct (c1 =? 125)%N eqn:E2.
      - inversion H; subst. split; [lia|]. intros m Hm.
        destruct m as [|m]; [lia|]. step_parser. now rewrite Es, E1, Es1, E2.
      - apply IHM in H. destruct H as [Hl Hm']. split; [lia|]. intros m Hm.
        destruct m as [|m]; [lia|]. step_parser. rewrite Es, E1, Es1, E2.
        apply Hm'. lia. }
    destruct (c =? 91)%N eqn:E2.
    { pose proof (skip_ws_length rest) as Hws1.
      destruct (skip_ws rest) as [|c1 r1] eqn:Es1; [discriminate|]. simpl in Hws1.
      destruct (c1 =? 93)%N eqn:E3.
      - inversion H; subst. split; [lia|]. intros m Hm.
        destruct m as [|m]; [lia|]. step_parser. now rewrite Es, E1, E2, Es1, E3.
      - apply IHE in H. destruct H as [Hl Hm']. split; [lia|]. intros m Hm.
        destruct m as [|m]; [lia|]. step_parser. rewrite Es, E1, E2, Es1, E3.
        apply Hm'. lia. }
    destruct (c =? 34)%N eqn:E3.
    { destruct (parse_string_body rest []) as [[str r1]|] eqn:Eb; [|discriminate].
      inversion H; subst. apply parse_string_body_length in Eb as Hl.
      split; [lia|]. intros m Hm.
      destruct m as [|m]; [lia|]. step_parser. now rewrite Es, E1, E2, E3, Eb. }
    destruct (c =? 116)%N eqn:E4.
    { apply parse_literal_length in H as Hl; [|discriminate]. simpl in Hl.
      split; [lia|]. intros m Hm.
      destruct m as [|m]; [lia|]. step_parser. now rewrite Es, E1, E2, E3, E4. }
    destruct (c =? 102)%N eqn:E5.
    { apply parse_literal_length in H as Hl; [|discriminate]. simpl in Hl.
      split; [lia|]. intros m Hm.
      destruct m as [|m]; [lia|]. step_parser. now rewrite Es, E1, E2, E3, E4, E5. }
    destruct (c =? 110)%N eqn:E6.
    { apply parse_literal_length in H as Hl; [|discriminate]. simpl in Hl.
      split; [lia|]. intros m Hm.
      destruct m as [|m]; [lia|]. step_parser.
      now rewrite Es, E1, E2, E3, E4, E5, E6. }
    destruct ((c =? 45)%N || is_digit c) eqn:E7; [|discriminate].
    destruct (parse_number (c :: rest)) as [[n r1]|] eqn:En; [|discriminate].
    inversion H; subst. apply parse_number_length in En as Hl. simpl in Hl.
    split; [lia|]. intros m Hm.
    destruct m as [|m]; [lia|]. step_parser.
    now rewrite Es, E1, E2, E3, E4, E5, E6, E7, En.
  - intros s acc v r H. step_parser_in H.
    destruct (parse_value f s) as [[v1 r1]|] eqn:Ev; [|discriminate].
    apply IHV in Ev. destruct Ev as [Hl1 Hm1].
    pose proof (skip_ws_length r1) as Hws.
    destruct (skip_ws r1) as [|c r2] eqn:Es; [discriminate|]. simpl in Hws.
    destruct (c =? 44)%N eqn:E1.
    { apply IHE in H. destruct H as [Hl2 Hm2]. split; [lia|]. intros m Hm.
      destruct m as [|m]; [lia|]. step_parser.
      rewrite (Hm1 m) by lia. rewrite Es, E1. apply Hm2. lia. }
    destruct (c =? 93)%N eqn:E2; [|discriminate].
    inversion H; subst. split; [lia|]. intros m Hm.
    destruct m as [|m]; [lia|]. step_parser.
    rewrite (Hm1 m) by lia. now rewrite Es, E1, E2.
  - intros s acc v r H. step_parser_in H.
    pose proof (skip_ws_length s) as Hws.
    destruct (skip_ws s) as [|c rest] eqn:Es; [discriminate|]. simpl in Hws.
    destruct (c =? 34)%N eqn:E1; [|discriminate].
    destruct (parse_string_body rest []) as [[k r1]|] eqn:Eb; [|discriminate].
    apply parse_string_body_length in Eb as Hlb.
    pose proof (skip_ws_length r1) as Hws1.
    destruct (skip_ws r1) as [|c1 r2] eqn:Es1; [discriminate|]. simpl in Hws1.
    destruct (c1 =? 58)%N eqn:E2; [|discriminate].
    destruct (parse_value f r2) as [[v1 r3]|] eqn:Ev; [|discriminate].
    apply IHV in Ev. destruct Ev as [Hl1 Hm1].
    pose proof (skip_ws_length r3) as Hws3.
    destruct (skip_ws r3) as [|c2 r4] eqn:Es3; [discriminate|]. simpl in Hws3.
    destruct (c2 =? 44)%N eqn:E3.
    { apply IHM in H. destruct H as [Hl2 Hm2]. split; [lia|]. intros m Hm.
      destruct m as [|m]; [lia|]. step_parser.
      rewrite Es, E1, Eb, Es1, E2. rewrite (Hm1 m) by lia.
      rewrite Es3, E3. apply Hm2. lia. }
    destruct (c2 =? 125)%N eqn:E4; [|discriminate].
    inversion H; subst. split; [lia|]. intros m Hm.
    destruct m as [|m]; [lia|]. step_parser.
    rewrite Es, E1, Eb, Es1, E2. rewrite (Hm1 m) by lia.
    now rewrite Es3, E3, E4.
Qed.

(** [JSON.parse] never fails for lack of fuel: it accepts a text exactly
    when the parser, with some fuel, reads one value and then only white
    space up to the end. *)
Theorem JSON_parse_any_fuel (text : jsstring) (v : JValue) :
  JSON_parse text = Some v
  <-> exists f r, parse_value f text = Some (v, r) /\ skip_ws r = [].
Proof.
  unfold JSON_parse. split.
  - destruct (parse_value (2 + List.length text) text) as [[v' r]|] eqn:E;
      [|discriminate].
    destruct (skip_ws r) eqn:Er; [|discriminate].
    intros H; inversion H; subst. eauto.
  - intros (f & r & H & Hr).
    destruct (parser_fuel f) as (HV & _ & _).
    destruct (HV _ _ _ H) as [_ Hm].
    rewrite (Hm (2 + List.length text)) by lia. now rewrite Hr.
Qed.

(** *** Traces *)

(** *** Numbers: [Number_toString] always finds its digits *)

Lemma shortest_from_some (i : interval) (q0 : Z) (steps : nat) :
  candidates_at i q0 <> [] ->
  forall q, (q0 <= q)%Z -> (q - q0 < Z.of_nat steps)%Z ->
  shortest_from steps i q <> None.
Proof.
  intros Hq0. induction steps as [|steps IH]; intros q Hle Hlt; [lia|].
  cbn [shortest_from].
  destruct (candidates_at i q) as [|c cs] eqn:Hc.
  - assert (q <> q0) by (intros ->; contradiction).
    apply IH; lia.
  - discriminate.
Qed.

Lemma value_is_a_candidate (m : positive) (e : Z) :
  (-1074 <= e)%Z ->
  candidates_at (rounding_interval m e) (Z.min e 0) <> [].
Proof.
  intros He.
  set (i := rounding_interval m e).
  set (X := value i).
  assert (HX : X = (Zpos m * 2 ^ (e + scale))%Z).
  { unfold X, i, rounding_interval. cbn [value].
    apply Z.shiftl_mul_pow2. unfold scale. lia. }
  assert (Hlow : (low i < X)%Z).
  { unfold X, i, rounding_interval. cbn [low value].
    match goal with |- (_ - ?h < _)%Z => assert (0 < h)%Z end; [|lia].
    destruct (_ && _); apply Z.pow_pos_nonneg; unfold scale; lia. }
  assert (Hhigh : (X < high i)%Z).
  { unfold X, i, rounding_interval. cbn [high value].
    match goal with |- (_ < _ + ?h)%Z => assert (0 < h)%Z end; [|lia].
    apply Z.pow_pos_nonneg; unfold scale; lia. }
  assert (Hin : inside i (floor_decimal X (Z.min e 0)) (Z.min e 0) = true).
  { unfold inside, floor_decimal, compare_decimal.
    destruct (Z.leb_spec 0 (Z.min e 0)) as [Hq|Hq].
    - (* e >= 0 *)
      assert (Hmin : Z.min e 0 = 0%Z) by lia. rewrite Hmin.
      assert (He0 : (0 <= e)%Z) by lia.
      assert (Hs : (X / (10 ^ 0 * 2 ^ scale) = Zpos m * 2 ^ e)%Z).
      { rewrite HX, Z.pow_add_r by (unfold scale; lia).
        rewrite Z.pow_0_r, Z.mul_1_l, Z.mul_assoc.
        apply Z.div_mul. apply Z.pow_nonzero; unfold scale; lia. }
      rewrite Hs.
      assert (Hback : (Zpos m * 2 ^ e * 10 ^ 0 * 2 ^ scale = X)%Z).
      { rewrite HX, Z.pow_add_r by (unfold scale; lia). rewrite Z.pow_0_r. ring. }
      rewrite Hback.
      assert (Hpos : (0 < Zpos m * 2 ^ e)%Z).
      { apply Z.mul_pos_pos; [lia | apply Z.pow_pos_nonneg; lia]. }
      apply Z.ltb_lt in Hpos. rewrite Hpos.
      rewrite (proj2 (Z.compare_gt_iff _ _) Hlow).
      rewrite (proj2 (Z.compare_lt_iff _ _) Hhigh). reflexivity.
    - assert (Hmin : Z.min e 0 = e) by lia. rewrite Hmin in *.
      assert (Hten : (10 ^ (- e) = 2 ^ (- e) * 5 ^ (- e))%Z).
      { change 10%Z with (2 * 5)%Z. apply Z.pow_mul_l. }
      assert (Hscaled : (X * 10 ^ (- e) = Zpos m * 5 ^ (- e) * 2 ^ scale)%Z).
      { rewrite HX, Hten.
        replace (2 ^ scale)%Z with (2 ^ (e + scale) * 2 ^ (- e))%Z.
        - ring.
        - rewrite <- Z.pow_add_r by (unfold scale; lia). f_equal. lia. }
      assert (Hs : (X * 10 ^ (- e) / 2 ^ scale = Zpos m * 5 ^ (- e))%Z).
      { rewrite Hscaled. apply Z.div_mul. apply Z.pow_nonzero; unfold scale; lia. }
      rewrite Hs, <- Hscaled.
      assert (Hpos : (0 < Zpos m * 5 ^ (- e))%Z).
      { apply Z.mul_pos_pos; [lia | apply Z.pow_pos_nonneg; lia]. }
      apply Z.ltb_lt in Hpos. rewrite Hpos.
      assert (H10 : (0 < 10 ^ (- e))%Z) by (apply Z.pow_pos_nonneg; lia).
      rewrite (proj2 (Z.compare_gt_iff _ _)) by (apply Z.mul_lt_mono_pos_r; assumption).
      rewrite (proj2 (Z.compare_lt_iff _ _)) by (apply Z.mul_lt_mono_pos_r; assumption).
      reflexivity. }
  unfold candidates_at. fold i. fold X. cbn [filter fst snd].
  rewrite Hin. discriminate.
Qed.

Lemma search_starts_high_enough (m : positive) (e : Z) :
  (Z.min e 0 <= (Z.log2 (Zpos m) + 1 + e) * 30103 / 100000 + 2)%Z.
Proof.
  pose proof (Z.log2_nonneg (Zpos m)) as Hlog.
  set (bits := (Z.log2 (Zpos m) + 1 + e)%Z).
  assert (Hbits : (e + 1 <= bits)%Z) by (unfold bits; lia).
  destruct (Z.le_gt_cases 0 bits) as [H|H].
  - assert (0 <= bits * 30103 / 100000)%Z by (apply Z.div_pos; lia). lia.
  - assert (bits <= bits * 30103 / 100000)%Z.
    { apply Z.div_le_lower_bound; lia. }
    lia.
Qed.

Theorem shortest_total (m : positive) (e : Z) :
  (-1074 <= e)%Z -> shortest m e <> None.
Proof.
  intros He. unfold shortest.
  pose proof (search_starts_high_enough m e) as Htop.
  apply (shortest_from_some _ (Z.min e 0)).
  - apply value_is_a_candidate, He.
  - exact Htop.
  - rewrite Z2Nat.id; lia.
Qed.

Lemma N_digits_nonempty (n : N) : N_digits n <> [].
Proof.
  unfold N_digits. destruct n as [|p]; [discriminate|].
  cbn [N.to_uint].
  pose proof (DecimalPos.Unsigned.to_uint_nonnil p) as H.
  destruct (Pos.to_uint p); try discriminate. congruence.
Qed.

Lemma format_digits_nonempty (ds : jsstring) (n : Z) :
  ds <> [] -> format_digits ds n <> [].
Proof.
  intros H. unfold format_digits.
  destruct ds as [|d rest]; [congruence|].
  destruct (_ && _); [discriminate|].
  destruct (_ && _).
  - intros E. apply app_eq_nil in E. destruct E as [_ E]. discriminate E.
  - destruct (_ && _); [discriminate|]. destruct rest; discriminate.
Qed.

Lemma finite_exponent (x : float) (s : bool) (m : positive) (e : Z) :
  Prim2SF x = S754_finite s m e -> (-1074 <= e)%Z.
Proof.
  intros H. pose proof (Prim2SF_valid x) as V. rewrite H in V.
  cbn [SpecFloat.valid_binary] in V. unfold bounded, canonical_mantissa, fexp in V.
  apply andb_true_iff in V. destruct V as [V _]. apply Z.eqb_eq in V.
  change (SpecFloat.emin prec emax) with (-1074)%Z in V.
  revert V. generalize (Z.pos (digits2_pos m) + e - prec)%Z. intros z V. 
  rewrite <- V. apply Z.le_max_r.
Qed.

(** [Number_toString] returns a text for every Number: the search for its
    digits never runs out of steps. *)
Theorem Number_toString_total (x : Number) : Number_toString x <> [].
Proof.
  unfold Number_toString.
  destruct (Prim2SF x) as [s| s | | s m e] eqn:Hx; try discriminate.
  - destruct s; discriminate.
  - pose proof (shortest_total m e (finite_exponent x s m e Hx)) as Hs.
    destruct (shortest m e) as [[digits q]|]; [|congruence].
    intros E. apply app_eq_nil in E. destruct E as [_ E]. revert E.
    apply format_digits_nonempty, N_digits_nonempty.
Qed.

Lemma requests_app (t u : Trace) : requests (t ++ u) = requests t ++ requests u.
Proof. unfold requests. apply flat_map_app. Qed.

(** *** The run list view: creating a run from pasted JSON *)

(** C4.  Pasted text that parses to anything but an array is turned down
    in the browser: the handler shows the toast that says the JSON must be
    an array of rows, clears the in-flight flag, and issues no request
    ([createRunFromRows] is never reached). *)
Theorem non_array_json_is_rejected_before_any_request
  (st : HomeState) (v : JValue) (t : Trace) :
  JSON_parse (jsonText st) = Some v ->
  isArray v = false ->
  handleJsonSubmit st t
  = (t ++ [EToast (mkToast (lit "Failed to create run")
                     (Some (lit "JSON must be an array of rows"))
                     (Some destructive));
           ESetIsCreating false],
     Ok tt)
  /\ requests (fst (handleJsonSubmit st t)) = requests t.
Proof.
  intros Hparse Harr.
  assert (E : handleJsonSubmit st t
    = (t ++ [EToast (mkToast (lit "Failed to create run")
                     (Some (lit "JSON must be an array of rows"))
                     (Some destructive));
             ESetIsCreating false], Ok tt)).
  { unfold handleJsonSubmit.
    rewrite (parsed_text_is_not_blank _ _ Hparse). simpl negb. cbv iota.
    rewrite Hparse.
    destruct v; try discriminate Harr;
      unfold try_finally, try_catch, bind, ret, throw, toast, setIsCreating, emit;
      simpl; rewrite <- app_assoc; reflexivity. }
  split; [exact E|].
  rewrite E. simpl fst. rewrite requests_app. simpl. apply app_nil_r.
Qed.


(** *** The transport client *)

Ltac run_monad :=
  unfold try_finally, try_catch, bind, ret, throw, toast, navigate,
    setIsCreating, emit.

(** Every operation starts with one [fetch] of its request. *)
Lemma fetch_response (req : Request.t) (t : Trace) (response : Response.t) :
  backend t req = Some response ->
  fetch req t = (t ++ [EFetch req], Ok response).
Proof. intros H. unfold fetch. now rewrite H. Qed.

Lemma exportRunCsv_failure (runId : jsstring) (t : Trace) (response : Response.t) :
  backend t (exportRunCsv_request runId) = Some response ->
  Response.ok response = false ->
  exportRunCsv runId t
  = (t ++ [EFetch (exportRunCsv_request runId)],
     Thrown (Error (lit "Failed to export CSV: " ++ Response.statusText response))).
Proof.
  intros Hb Hok. unfold exportRunCsv, bind.
  rewrite (fetch_response _ _ _ Hb), Hok. reflexivity.
Qed.

Lemma exportRunCsv_success (runId : jsstring) (t : Trace) (response : Response.t) :
  backend t (exportRunCsv_request runId) = Some response ->
  Response.ok response = true ->
  exportRunCsv runId t
  = (t ++ EFetch (exportRunCsv_request runId) :: download_events runId response,
     Ok tt).
Proof.
  intros Hb Hok. unfold exportRunCsv, bind at 1.
  rewrite (fetch_response _ _ _ Hb), Hok.
  run_monad. unfold download_events. simpl.
  repeat rewrite <- app_assoc. reflexivity.
Qed.

(** C1, amended.  Whatever the operation and the response: one request is
    made; a status outside 200..299 makes the operation throw an [Error]
    whose message contains the status text; a status inside it lets
    [exportRunCsv] complete with the download, and makes the four JSON
    operations return the parsed body, or throw the parser's SyntaxError
    when the body is not JSON. *)
Theorem transport_error_policy
  (op : Operation) (t : Trace) (response : Response.t) :
  backend t (request_of op) = Some response ->
  requests (fst (perform op t)) = requests t ++ [request_of op]
  /\ (Response.ok response = false ->
      exists msg,
        perform op t = (t ++ [EFetch (request_of op)], Thrown (Error msg))
        /\ includes msg (Response.statusText response) = true)
  /\ (Response.ok response = true ->
      perform op t
      = match op with
        | ExportRunCsv runId =>
            (t ++ EFetch (request_of op) :: download_events runId response,
             Ok Exported)
        | _ =>
            (t ++ [EFetch (request_of op)],
             match JSON_parse (Response.body response) with
             | Some v => Ok (read_outcome op v)
             | None =>
                 Thrown (ErrorObject SyntaxError
                           (syntax_error_message engine (Response.body response)))
             end)
        end).
Proof.
  intros Hb.
  assert (Hbad : Response.ok response = false ->
      exists msg,
        perform op t = (t ++ [EFetch (request_of op)], Thrown (Error msg))
        /\ includes msg (Response.statusText response) = true).
  { intros Hok.
    destruct op; simpl in Hb |- *;
      unfold listRuns, getRun, createRunFromRows, createRunFromFile,
        exportRunCsv, bind;
      rewrite (fetch_response _ _ _ Hb), Hok; cbn [negb];
      eexists; (split; [reflexivity | apply includes_suffix]). }
  assert (Hgood : Response.ok response = true ->
      perform op t
      = match op with
        | ExportRunCsv runId =>
            (t ++ EFetch (request_of op) :: download_events runId response,
             Ok Exported)
        | _ =>
            (t ++ [EFetch (request_of op)],
             match JSON_parse (Response.body response) with
             | Some v => Ok (read_outcome op v)
             | None =>
                 Thrown (ErrorObject SyntaxError
                           (syntax_error_message engine (Response.body response)))
             end)
        end).
  { intros Hok.
    destruct op; simpl in Hb |- *;
      try (unfold listRuns, getRun, createRunFromRows, createRunFromFile, bind;
           rewrite (fetch_response _ _ _ Hb), Hok; simpl; unfold json;
           destruct (JSON_parse (Response.body response)); reflexivity).
    unfold bind. rewrite (exportRunCsv_success _ _ _ Hb Hok). reflexivity. }
  split; [|split; assumption].
  destruct (Response.ok response) eqn:Hok.
  - rewrite (Hgood eq_refl).
    destruct op; simpl; rewrite requests_app; simpl; reflexivity.
  - destruct (Hbad eq_refl) as (msg & -> & _).
    simpl. rewrite requests_app. reflexivity.
Qed.


(** *** CSV export *)

(** The Export button of the detail view exists only for a run that was
    fetched, hence only for a present, non-empty identifier. *)
Lemma export_button_needs_id
  (runId : option jsstring) (t0 t1 : Trace) (q : ReactQuery.Query.t GetRunResponse.t) :
  RunDetail_query runId t0 = (t1, Ok q) ->
  export_button (RunDetail_view q) = true ->
  truthy_opt_string runId = true.
Proof.
  unfold RunDetail_query, ReactQuery.useQuery.
  destruct (truthy_opt_string runId); [reflexivity|].
  unfold ret. intros H; inversion H; subst. simpl. discriminate.
Qed.

(** C8.  When the backend answers the export request of a run with a
    status outside 200..299, [exportRunCsv] throws right after the request:
    no blob is read, no object URL or anchor is made; the export handler of
    the run list shows the failure toast, and so does the one of the detail
    view whenever its Export button is on screen. *)
Theorem failed_export_downloads_nothing
  (runId : jsstring) (t : Trace) (response : Response.t) :
  backend t (exportRunCsv_request runId) = Some response ->
  Response.ok response = false ->
  let failure :=
    EToast (mkToast (lit "Failed to export CSV")
              (Some (lit "Failed to export CSV: " ++ Response.statusText response))
              (Some destructive)) in
  exportRunCsv runId t
  = (t ++ [EFetch (exportRunCsv_request runId)],
     Thrown (Error (lit "Failed to export CSV: " ++ Response.statusText response)))
  /\ filter is_download_effect (fst (exportRunCsv runId t))
     = filter is_download_effect t
  /\ Home_handleExport runId t
     = (t ++ [EFetch (exportRunCsv_request runId); failure], Ok tt)
  /\ (forall t0 t1 q,
        RunDetail_query (Some runId) t0 = (t1, Ok q) ->
        export_button (RunDetail_view q) = true ->
        RunDetail_handleExport (Some runId) t
        = (t ++ [EFetch (exportRunCsv_request runId); failure], Ok tt)).
Proof.
  intros Hb Hok failure.
  pose proof (exportRunCsv_failure _ _ _ Hb Hok) as E.
  assert (EH : Home_handleExport runId t
               = (t ++ [EFetch (exportRunCsv_request runId); failure], Ok tt)).
  { unfold Home_handleExport, try_catch, bind at 1. rewrite E.
    unfold toast, emit. cbn [instanceof_Error message Error].
    rewrite <- app_assoc. reflexivity. }
  repeat split.
  - exact E.
  - rewrite E. cbn [fst]. rewrite filter_app. simpl. apply app_nil_r.
  - exact EH.
  - intros t0 t1 q Hq Hbtn.
    pose proof (export_button_needs_id _ _ _ _ Hq Hbtn) as Hid.
    unfold RunDetail_handleExport. cbn [truthy_opt_string] in Hid.
    rewrite Hid. cbn [negb]. exact EH.
Qed.

(** *** The run detail view *)

(** C7, amended.  Without a run identifier (absent or empty) the query is
    disabled: entering the view issues no request and renders the error
    panel with the generic text; the query function, which alone throws
    [No run ID provided] (and does so before any request), is not called. *)
Theorem missing_run_id_disables_query (runId : option jsstring) (t : Trace) :
  truthy_opt_string runId = false ->
  RunDetail_query runId t = (t, Ok (ReactQuery.first_render false))
  /\ RunDetail_view (ReactQuery.first_render false)
     = ErrorPanel (lit "Failed to load run details")
  /\ RunDetail_queryFn runId t = (t, Thrown (Error (lit "No run ID provided"))).
Proof.
  intros H. unfold RunDetail_query, ReactQuery.useQuery. rewrite H.
  repeat split.
  unfold RunDetail_queryFn.
  destruct runId as [id|]; [|reflexivity].
  cbn [truthy_opt_string] in H. rewrite H. reflexivity.
Qed.

(** C9.  Once a run is fetched, the explanation card is rendered exactly
    when [run.explain] is true and [run.explanation] is a non-empty string;
    with [explain] true and the explanation empty or absent there is none. *)
Theorem explanation_card_iff (response : GetRunResponse.t) :
  let run := GetRunResponse.run response in
  exists content,
    RunDetail_view (ReactQuery.Query.mk (Some response) None false) = Detail content
    /\ explanation_card content = explanation_panel run
    /\ (forall text,
          explanation_panel run = Some text
          <-> Run.explain run = Some true
              /\ Run.explanation run = Some text /\ text <> [])
    /\ (Run.explain run = Some true ->
        Run.explanation run = None \/ Run.explanation run = Some [] ->
        explanation_panel run = None).
Proof.
  intros run. eexists. split; [reflexivity|]. split; [reflexivity|].
  unfold explanation_panel. split.
  - intros text. split.
    + destruct (Run.explain run) as [[|]|]; try discriminate.
      destruct (Run.explanation run) as [[|c s]|]; simpl; try discriminate.
      intros H; inversion H; subst. repeat split; discriminate.
    + intros (He & Hx & Hne). rewrite He, Hx.
      destruct text; [congruence | reflexivity].
  - intros -> [-> | ->]; reflexivity.
Qed.

Lemma mapi_from_nth {A B} (f : A -> nat -> B) (l : list A) (start i : nat) (x : A) :
  nth_error l i = Some x ->
  nth_error (mapi_from start f l) i = Some (f x (start + i)).
Proof.
  revert start i; induction l as [|y l IH]; intros start [|i]; simpl;
    try discriminate.
  - intros H; inversion H; subst. now rewrite Nat.add_0_r.
  - intros H. rewrite (IH (S start) i H). f_equal. f_equal. lia.
Qed.

(** C10.  In the findings table the row at zero-based position [i] shows
    the finding's own [index] when it has one (0 included) and [i]
    otherwise. *)
Theorem finding_index_falls_back_to_position
  (response : GetRunResponse.t) (findings : list Finding.t)
  (i : nat) (finding : Finding.t) :
  Run.findings (GetRunResponse.run response) = Some findings ->
  nth_error findings i = Some finding ->
  exists content rows row,
    RunDetail_view (ReactQuery.Query.mk (Some response) None false) = Detail content
    /\ findings_table content = Some rows
    /\ nth_error rows i = Some row
    /\ index_cell row
       = match Finding.index finding with
         | Some explicit => explicit
         | None => Z.of_nat i
         end.
Proof.
  intros Hf Hi.
  exists (mkDetail (firstn 8 (Run.id (GetRunResponse.run response)))
            (Run.createdAt (GetRunResponse.run response))
            (explanation_panel (GetRunResponse.run response))
            (findings_text (GetRunResponse.run response))
            (Some (mapi finding_row findings))),
    (mapi finding_row findings), (finding_row finding i).
  repeat split.
  - unfold RunDetail_view. cbn. rewrite Hf.
    destruct findings; [destruct i; discriminate | reflexivity].
  - unfold mapi. rewrite (mapi_from_nth finding_row findings 0 i finding Hi).
    reflexivity.
Qed.


(** *** The run list view: pagination *)

Lemma listRuns_trace (limit : option Number) (cursor : option jsstring) (t : Trace) :
  fst (listRuns limit cursor t) = t ++ [EFetch (listRuns_request limit cursor)].
Proof.
  unfold listRuns, bind, fetch.
  destruct (backend t (listRuns_request limit cursor)) as [response|];
    [|reflexivity].
  destruct (Response.ok response); cbn [negb]; [|reflexivity].
  unfold json. destruct (JSON_parse (Response.body response)); reflexivity.
Qed.

(** A query function that makes one request per call makes between one
    and [retry + 1] of them under [attempt]. *)
Lemma attempt_trace {A} (queryFn : M A) (e : Event) :
  (forall t, fst (queryFn t) = t ++ [e]) ->
  forall n t, exists k,
    1 <= k <= S n /\ fst (ReactQuery.attempt n queryFn t) = t ++ repeat e k.
Proof.
  intros Hq n. induction n as [|n IH]; intros t.
  - exists 1. split; [lia|]. simpl. unfold try_catch.
    specialize (Hq t). destruct (queryFn t) as [t1 [a|x]]; simpl in *; exact Hq.
  - simpl. unfold try_catch.
    pose proof (Hq t) as Ht. destruct (queryFn t) as [t1 [a|x]]; simpl in Ht.
    + exists 1. split; [lia|]. exact Ht.
    + destruct (IH t1) as (k & Hk & Ek). exists (S k). split; [lia|].
      rewrite Ek, Ht, <- app_assoc. reflexivity.
Qed.

(** C2, amended.  For the pages fetched so far, the Load more button is
    rendered exactly when the last page carries a [nextCursor] and the
    accumulated run list is not empty; clicking it calls [listRuns] with
    page size 20 and exactly that cursor (once, or again after a failed
    attempt, up to the retry count); when the last page has no
    [nextCursor] a further [fetchNextPage] requests nothing. *)
Theorem load_more_follows_last_cursor
  (pages : list ListRunsResponse.t) (fetchingNext : bool) :
  (load_more_offered (Home_view (fetched pages fetchingNext)) = true
   <-> (exists lastPage cursor,
          ReactQuery.last_page pages = Some lastPage
          /\ ListRunsResponse.nextCursor lastPage = Some cursor)
       /\ flat_map ListRunsResponse.runs pages <> [])
  /\ (forall lastPage cursor t,
        ReactQuery.last_page pages = Some lastPage ->
        ListRunsResponse.nextCursor lastPage = Some cursor ->
        exists k,
          1 <= k <= S retry
          /\ fst (Home_fetchNextPage (fetched pages fetchingNext) t)
             = t ++ repeat (EFetch (listRuns_request (Some 20%float) (Some cursor))) k)
  /\ (forall lastPage t,
        ReactQuery.last_page pages = Some lastPage ->
        ListRunsResponse.nextCursor lastPage = None ->
        Home_fetchNextPage (fetched pages fetchingNext) t
        = (t, Ok (fetched pages fetchingNext))).
Proof.
  split; [|split].
  - unfold Home_view, Home_runs, Home_hasNextPage, ReactQuery.hasNextPage,
      ReactQuery.next_page_param, Home_getNextPageParam, fetched.
    cbn [ReactQuery.Infinite.pages ReactQuery.Infinite.isLoading
         ReactQuery.Infinite.isFetchingNextPage].
    destruct (flat_map ListRunsResponse.runs pages) as [|r rs] eqn:Eruns.
    + simpl. split; [discriminate|]. intros [_ H]. now elim H.
    + cbn [List.length Nat.eqb].
      destruct (ReactQuery.last_page pages) as [lastPage|].
      * destruct (ListRunsResponse.nextCursor lastPage) as [c|] eqn:Ec; simpl.
        -- split; [|reflexivity]. intros _. split; [|discriminate].
           exists lastPage, c. split; [reflexivity | exact Ec].
        -- split; [discriminate|]. intros [(lp & c & Hl & Hc) _].
           inversion Hl; subst. congruence.
      * simpl. split; [discriminate|]. intros [(lp & c & Hl & _) _]. discriminate.
  - intros lastPage cursor t Hlast Hcur.
    destruct (attempt_trace (Home_queryFn (Some cursor))
                (EFetch (listRuns_request (Some 20%float) (Some cursor)))
                (listRuns_trace (Some 20%float) (Some cursor)) retry t)
      as (k & Hk & Ek).
    exists k. split; [exact Hk|]. rewrite <- Ek.
    unfold Home_fetchNextPage, ReactQuery.fetchNextPage,
      ReactQuery.next_page_param, Home_getNextPageParam, fetched.
    cbn [ReactQuery.Infinite.pages]. rewrite Hlast, Hcur.
    destruct pages as [|p ps]; [discriminate|].
    unfold try_catch, bind, ret.
    destruct (ReactQuery.attempt retry (Home_queryFn (Some cursor)) t)
      as [t1 [a|x]]; reflexivity.
  - intros lastPage t Hlast Hcur.
    unfold Home_fetchNextPage, ReactQuery.fetchNextPage,
      ReactQuery.next_page_param, Home_getNextPageParam, fetched.
    cbn [ReactQuery.Infinite.pages]. rewrite Hlast, Hcur.
    destruct pages as [|p ps]; [discriminate|]. reflexivity.
Qed.

Lemma map_flat_map {A B C} (f : B -> C) (g : A -> list B) (l : list A) :
  map f (flat_map g l) = List.concat (map (fun x => map f (g x)) l).
Proof.
  induction l as [|x l IH]; simpl; [reflexivity|].
  now rewrite map_app, IH.
Qed.

Lemma NoDup_concat_disjoint (ls : list (list jsstring)) :
  Forall (@NoDup jsstring) ls -> pairwise_disjoint ls -> NoDup (List.concat ls).
Proof.
  induction ls as [|l ls IH]; simpl; intros Hnd Hdis; [constructor|].
  inversion Hnd as [|? ? Hl Hls]; subst. destruct Hdis as [Hfor Hrest].
  specialize (IH Hls Hrest).
  clear Hnd Hls Hrest.
  induction l as [|x l IHl]; simpl; [exact IH|].
  inversion Hl as [|? ? Hx Hl']; subst.
  constructor.
  - rewrite in_app_iff. intros [Hin | Hin]; [contradiction|].
    rewrite in_concat in Hin. destruct Hin as (l' & Hl'in & Hxin).
    rewrite Forall_forall in Hfor.
    apply (Hfor l' Hl'in x); [left; reflexivity | exact Hxin].
  - apply IHl; [|exact Hl'].
    rewrite Forall_forall in Hfor |- *.
    intros l' Hin y Hy. apply Hfor; [exact Hin | right; exact Hy].
Qed.

(** C3, amended.  The rows on screen are the runs of the fetched pages, page
    after page, each page in its own order; if no page lists an identifier
    twice and no identifier is on two pages, no identifier is on screen
    twice. *)
Theorem flattened_runs_keep_order_and_uniqueness
  (pages : list ListRunsResponse.t) (fetchingNext : bool) :
  displayed_ids (Home_view (fetched pages fetchingNext))
  = List.concat (map page_ids pages)
  /\ Home_runs (fetched pages fetchingNext)
     = List.concat (map ListRunsResponse.runs pages)
  /\ (Forall (fun page => NoDup (page_ids page)) pages ->
      pairwise_disjoint (map page_ids pages) ->
      NoDup (displayed_ids (Home_view (fetched pages fetchingNext)))).
Proof.
  assert (E : displayed_ids (Home_view (fetched pages fetchingNext))
              = List.concat (map page_ids pages)).
  { unfold Home_view, Home_runs, fetched.
    cbn [ReactQuery.Infinite.pages ReactQuery.Infinite.isLoading].
    unfold page_ids. rewrite <- (map_flat_map Run.id ListRunsResponse.runs pages).
    destruct (flat_map ListRunsResponse.runs pages) as [|r rs]; [reflexivity|].
    cbn [List.length Nat.eqb displayed_ids].
    rewrite map_map. reflexivity. }
  split; [exact E|]. split.
  - unfold Home_runs, fetched. cbn [ReactQuery.Infinite.pages].
    apply flat_map_concat_map.
  - intros Hnd Hdis. rewrite E. apply NoDup_concat_disjoint; [|exact Hdis].
    rewrite Forall_map. exact Hnd.
Qed.


(** *** Row payloads *)

(** C5.  A row payload that is the string of a JSON object with one member
    [x] equal to 1 is shown re-serialized with two-space indentation; the
    string [oops], which is not JSON, is shown as it is.  In general a
    string payload is parsed and re-serialized, and shown unchanged when
    the parse fails. *)
Theorem formatJson_string_payloads :
  formatJson (JString (lit "{" ++ q "x" ++ lit ":1}"))
  = lit "{" ++ lf :: lit "  " ++ q "x" ++ lit ": 1" ++ lf :: lit "}"
  /\ formatJson (JString (lit "oops")) = lit "oops"
  /\ (forall s parsed,
        JSON_parse s = Some parsed ->
        formatJson (JString s) = JSON_stringify parsed 2)
  /\ (forall s, JSON_parse s = None -> formatJson (JString s) = s)
  /\ (forall i ty why,
        row_cell (finding_row
                    (Finding.mk i ty why (Some (JString (lit "{" ++ q "x" ++ lit ":1}"))))
                    0)
        = Some (lit "{" ++ lf :: lit "  " ++ q "x" ++ lit ": 1" ++ lf :: lit "}")).
Proof.
  split; [vm_compute; reflexivity|].
  split; [vm_compute; reflexivity|].
  split; [|split].
  - intros s parsed H. unfold formatJson. now rewrite H.
  - intros s H. unfold formatJson. now rewrite H.
  - intros i ty why. vm_compute. reflexivity.
Qed.

(** *** The query string of [listRuns] *)

Lemma hex_upper_plain (d : N) : plain (hex_upper d).
Proof.
  unfold plain, hex_upper. destruct (d <? 10)%N eqn:E; bool_hyps; lia.
Qed.

Lemma urlencode_byte_plain (b : N) : Forall plain (urlencode_byte b).
Proof.
  unfold urlencode_byte.
  destruct (b =? 32)%N; [repeat constructor; discriminate|].
  match goal with |- context [if ?c then _ else _] => destruct c eqn:E end.
  - constructor; [|constructor]. unfold is_digit in E. unfold plain.
    bool_hyps; lia.
  - constructor; [split; discriminate|].
    constructor; [apply hex_upper_plain|].
    constructor; [apply hex_upper_plain | constructor].
Qed.

Lemma urlencode_plain (s : jsstring) : Forall plain (urlencode s).
Proof.
  unfold urlencode. induction (utf8_encode s) as [|b bytes IH]; simpl.
  - constructor.
  - apply Forall_app. split; [apply urlencode_byte_plain | exact IH].
Qed.

Lemma name_of_app (a b : jsstring) :
  Forall plain a -> name_of (a ++ 61%N :: b) = a.
Proof.
  induction 1 as [|x a [_ Hx] _ IH]; simpl; [reflexivity|].
  apply N.eqb_neq in Hx. now rewrite Hx, IH.
Qed.

Lemma split_on_never_empty (c : N) (s : jsstring) : split_on c s <> [].
Proof.
  destruct s as [|x r]; simpl; [discriminate|].
  destruct (x =? c)%N; [discriminate|].
  destruct (split_on c r); discriminate.
Qed.

Lemma split_on_app (a rest : jsstring) :
  Forall (fun c => c <> 38%N) a ->
  split_on 38%N (a ++ 38%N :: rest) = a :: split_on 38%N rest.
Proof.
  induction 1 as [|x a Hx _ IH]; simpl; [reflexivity|].
  apply N.eqb_neq in Hx. now rewrite Hx, IH.
Qed.

Lemma split_on_whole (a : jsstring) :
  Forall (fun c => c <> 38%N) a -> split_on 38%N a = [a].
Proof.
  induction 1 as [|x a Hx _ IH]; simpl; [reflexivity|].
  apply N.eqb_neq in Hx. now rewrite Hx, IH.
Qed.

(** The text of one parameter has no ampersand, and its name is read back
    encoded. *)
Lemma piece_no_ampersand (nv : jsstring * jsstring) :
  Forall (fun c => c <> 38%N)
         (urlencode (fst nv) ++ 61%N :: urlencode (snd nv)).
Proof.
  apply Forall_app. split; [|constructor; [discriminate|]];
    (eapply Forall_impl; [|apply urlencode_plain]); intros c [H _]; exact H.
Qed.

Lemma piece_name (nv : jsstring * jsstring) :
  name_of (urlencode (fst nv) ++ 61%N :: urlencode (snd nv)) = urlencode (fst nv).
Proof. apply name_of_app, urlencode_plain. Qed.

(** Reading the names back from a serialized parameter list. *)
Lemma split_pieces (params : URLSearchParams) :
  params <> [] ->
  map name_of (split_on 38%N (toString params))
  = map (fun nv => urlencode (fst nv)) params.
Proof.
  unfold toString.
  induction params as [|nv params IH]; [congruence|]. intros _.
  destruct params as [|nv' params].
  - cbn [map join]. rewrite (split_on_whole _ (piece_no_ampersand nv)).
    cbn [map]. now rewrite piece_name.
  - specialize (IH ltac:(discriminate)).
    change (join [38%N]
              (map (fun nv0 => urlencode (fst nv0) ++ 61%N :: urlencode (snd nv0))
                   (nv :: nv' :: params)))
      with ((urlencode (fst nv) ++ 61%N :: urlencode (snd nv))
              ++ 38%N :: join [38%N]
                   (map (fun nv0 => urlencode (fst nv0) ++ 61%N :: urlencode (snd nv0))
                        (nv' :: params))).
    rewrite (split_on_app _ _ (piece_no_ampersand nv)).
    rewrite (map_cons name_of), IH, piece_name. reflexivity.
Qed.

Lemma toString_truthy (params : URLSearchParams) :
  truthy_string (toString params) = negb (Nat.eqb (List.length params) 0).
Proof.
  unfold toString. destruct params as [|nv [|nv' params]]; [reflexivity| |]; cbn.
  - destruct (urlencode (fst nv)); reflexivity.
  - destruct (urlencode (fst nv)); reflexivity.
Qed.

Lemma query_names_toString (params : URLSearchParams) :
  query_names (toString params) = map (fun nv => urlencode (fst nv)) params.
Proof.
  destruct params as [|nv params]; [reflexivity|].
  unfold query_names.
  destruct (toString (nv :: params)) eqn:E.
  - pose proof (toString_truthy (nv :: params)) as H.
    rewrite E in H. discriminate H.
  - rewrite <- E. apply split_pieces. discriminate.
Qed.

(** C6, amended.  The query string of [listRuns] names [limit] exactly when
    a limit was passed that is neither zero (of either sign) nor NaN, and
    [cursor] exactly when a non-empty cursor was passed, in this order and
    nothing else; the URL has a question mark and a query only if one of the
    two is there, so none when neither argument is supplied. *)
Theorem listRuns_query_names (limit : option Number) (cursor : option jsstring) :
  let query := toString (listRuns_params limit cursor) in
  query_names query
  = (if truthy_opt_number limit then [lit "limit"] else [])
      ++ (if truthy_opt_string cursor then [lit "cursor"] else [])
  /\ (In (lit "limit") (query_names query)
      <-> exists n, limit = Some n
                    /\ PrimFloat.is_zero n = false /\ PrimFloat.is_nan n = false)
  /\ (In (lit "cursor") (query_names query)
      <-> exists c, cursor = Some c /\ c <> [])
  /\ listRuns_url limit cursor
     = API_URL ++ lit "/runs"
         ++ (if truthy_opt_number limit || truthy_opt_string cursor
             then 63%N :: query else [])
  /\ (limit = None -> cursor = None ->
      listRuns_url limit cursor = API_URL ++ lit "/runs").
Proof.
  intros query.
  assert (E : query_names query
    = (if truthy_opt_number limit then [lit "limit"] else [])
        ++ (if truthy_opt_string cursor then [lit "cursor"] else [])).
  { unfold query. rewrite query_names_toString. unfold listRuns_params.
    destruct limit as [n|]; destruct cursor as [c|];
      cbn [truthy_opt_number truthy_opt_string];
      try destruct (truthy_number n); try destruct (truthy_string c);
      reflexivity. }
  assert (U : listRuns_url limit cursor
     = API_URL ++ lit "/runs"
         ++ (if truthy_opt_number limit || truthy_opt_string cursor
             then 63%N :: query else [])).
  { unfold listRuns_url. fold query. unfold query at 1.
    rewrite toString_truthy. unfold listRuns_params.
    destruct limit as [n|]; destruct cursor as [c|];
      cbn [truthy_opt_number truthy_opt_string];
      try destruct (truthy_number n); try destruct (truthy_string c);
      reflexivity. }
  split; [exact E|]. split; [|split; [|split; [exact U|]]].
  - rewrite E. destruct limit as [n|]; cbn [truthy_opt_number].
    + unfold truthy_number.
      destruct (PrimFloat.is_nan n) eqn:Hnan;
        destruct (PrimFloat.is_zero n) eqn:Hzero; cbn [orb negb];
        try (split;
             [destruct (truthy_opt_string cursor); simpl; intros H;
                [destruct H as [H|[]]; discriminate H | destruct H]
             | intros (m & Hm & Hz & Hn); inversion Hm; subst; congruence]).
      split; [|intros _; left; reflexivity].
      intros _. exists n. repeat split; assumption.
    + split.
      * destruct (truthy_opt_string cursor); simpl; intros H;
          [destruct H as [H|[]]; discriminate H | destruct H].
      * intros (m & Hm & _). discriminate.
  - rewrite E. destruct cursor as [c|]; cbn [truthy_opt_string].
    + destruct c as [|x c]; cbn [truthy_string].
      * split.
        -- rewrite app_nil_r. destruct (truthy_opt_number limit); simpl; intros H;
             [destruct H as [H|[]]; discriminate H | destruct H].
        -- intros (m & Hm & Hne). inversion Hm; subst. congruence.
      * split; [|intros _; apply in_or_app; right; left; reflexivity].
        intros _. exists (x :: c). split; [reflexivity | discriminate].
    + split.
      * rewrite app_nil_r. destruct (truthy_opt_number limit); simpl; intros H;
          [destruct H as [H|[]]; discriminate H | destruct H].
      * intros (m & Hm & _). discriminate.
  - intros -> ->. rewrite U. cbn [truthy_opt_number truthy_opt_string orb].
    now rewrite app_nil_r.
Qed.

(* ================================================================== *)
(** ** Further properties *)

(** *** What each operation returns *)

Lemma listRuns_result (limit : option Number) (cursor : option jsstring) (t : Trace) :
  listRuns limit cursor t
  = (t ++ [EFetch (listRuns_request limit cursor)],
     response_result (lit "Failed to list runs: ")
       (backend t (listRuns_request limit cursor))).
Proof.
  unfold listRuns, bind, fetch, response_result.
  destruct (backend t (listRuns_request limit cursor)) as [response|];
    [|reflexivity].
  destruct (Response.ok response); cbn [negb]; [|reflexivity].
  unfold json. destruct (JSON_parse (Response.body response)); reflexivity.
Qed.

Lemma getRun_result (runId : jsstring) (t : Trace) :
  getRun runId t
  = (t ++ [EFetch (getRun_request runId)],
     response_result (lit "Failed to get run: ") (backend t (getRun_request runId))).
Proof.
  unfold getRun, bind, fetch, response_result.
  destruct (backend t (getRun_request runId)) as [response|]; [|reflexivity].
  destruct (Response.ok response); cbn [negb]; [|reflexivity].
  unfold json. destruct (JSON_parse (Response.body response)); reflexivity.
Qed.

Lemma createRunFromRows_result
  (rows : list JValue) (flag : option bool) (t : Trace) :
  createRunFromRows rows flag t
  = (t ++ [EFetch (createRunFromRows_request rows flag)],
     response_result (lit "Failed to create run: ")
       (backend t (createRunFromRows_request rows flag))).
Proof.
  unfold createRunFromRows, bind, fetch, response_result.
  destruct (backend t (createRunFromRows_request rows flag)) as [response|];
    [|reflexivity].
  destruct (Response.ok response); cbn [negb]; [|reflexivity].
  unfold json. destruct (JSON_parse (Response.body response)); reflexivity.
Qed.

Lemma createRunFromFile_result (f : File) (flag : option bool) (t : Trace) :
  createRunFromFile f flag t
  = (t ++ [EFetch (createRunFromFile_request f flag)],
     response_result (lit "Failed to create run from file: ")
       (backend t (createRunFromFile_request f flag))).
Proof.
  unfold createRunFromFile, bind, fetch, response_result.
  destruct (backend t (createRunFromFile_request f flag)) as [response|];
    [|reflexivity].
  destruct (Response.ok response); cbn [negb]; [|reflexivity].
  unfold json. destruct (JSON_parse (Response.body response)); reflexivity.
Qed.

Lemma exportRunCsv_result (runId : jsstring) (t : Trace) :
  exportRunCsv runId t
  = match backend t (exportRunCsv_request runId) with
    | None =>
        (t ++ [EFetch (exportRunCsv_request runId)],
         Thrown (ErrorObject TypeError (network_error_message engine)))
    | Some response =>
        if Response.ok response
        then (t ++ EFetch (exportRunCsv_request runId)
                :: download_events runId response, Ok tt)
        else (t ++ [EFetch (exportRunCsv_request runId)],
              Thrown (Error (lit "Failed to export CSV: "
                               ++ Response.statusText response)))
    end.
Proof.
  destruct (backend t (exportRunCsv_request runId)) as [response|] eqn:Hb.
  - destruct (Response.ok response) eqn:Hok.
    + apply exportRunCsv_success; assumption.
    + apply exportRunCsv_failure; assumption.
  - unfold exportRunCsv, bind, fetch. now rewrite Hb.
Qed.

(** X1.  Every request of the transport client carries the shared-secret
    header, whose value is the configured secret or [dev-secret] when none
    (or an empty one) is configured; only [createRunFromRows] adds a
    content type; the two creations are POSTs and the rest GETs; every URL
    lies under the base URL. *)
Theorem requests_carry_the_secret (op : Operation) :
  Request.headers (request_of op)
  = (lit "x-watchtower-secret", SECRET)
      :: match op with
         | CreateRunFromRows _ _ => [(lit "Content-Type", lit "application/json")]
         | _ => []
         end
  /\ SECRET = (if truthy_opt_string VITE_WATCHTOWER_SECRET
               then match VITE_WATCHTOWER_SECRET with Some s => s | None => [] end
               else lit "dev-secret")
  /\ Request.method (request_of op)
     = match op with
       | CreateRunFromRows _ _ | CreateRunFromFile _ _ => POST
       | _ => GET
       end
  /\ starts_with API_URL (Request.url (request_of op)) = true.
Proof.
  split; [destruct op; reflexivity|].
  split.
  { unfold SECRET, or_else. destruct VITE_WATCHTOWER_SECRET as [[|c s]|]; reflexivity. }
  split; [destruct op; reflexivity|].
  destruct op; cbn [request_of]; unfold listRuns_request, getRun_request,
    createRunFromRows_request, createRunFromFile_request, exportRunCsv_request,
    listRuns_url; cbn [Request.url]; apply starts_with_app.
Qed.

(** X2.  When [fetch] gets no response at all, every operation throws the
    engine's TypeError after its single request, and nothing is downloaded. *)
Theorem no_response_is_thrown (op : Operation) (t : Trace) :
  backend t (request_of op) = None ->
  perform op t
  = (t ++ [EFetch (request_of op)],
     Thrown (ErrorObject TypeError (network_error_message engine))).
Proof.
  intros Hb. destruct op; cbn [perform request_of] in *; unfold bind.
  - rewrite listRuns_result, Hb. reflexivity.
  - rewrite getRun_result, Hb. reflexivity.
  - rewrite createRunFromRows_result, Hb. reflexivity.
  - rewrite createRunFromFile_result, Hb. reflexivity.
  - rewrite exportRunCsv_result, Hb. reflexivity.
Qed.

(** *** The handlers of the run list view, case by case *)

Lemma handleJsonSubmit_cases (st : HomeState) (t : Trace) :
  handleJsonSubmit st t
  = if negb (truthy_string (trim (jsonText st)))
    then (t ++ [warning_toast "No JSON provided"], Ok tt)
    else
      match JSON_parse (jsonText st) with
      | None =>
          (t ++ [failure_toast "Failed to create run"
                   (syntax_error_message engine (jsonText st));
                 ESetIsCreating false], Ok tt)
      | Some (JArray items) =>
          let req := createRunFromRows_request items (Some (explain st)) in
          match response_result (lit "Failed to create run: ")
                  (backend (t ++ [ESetIsCreating true]) req) with
          | Ok result =>
              (t ++ [ESetIsCreating true; EFetch req] ++ after_creation result
                 ++ [ESetIsCreating false], Ok tt)
          | Thrown e =>
              (t ++ [ESetIsCreating true; EFetch req;
                     failure_toast "Failed to create run" (message e);
                     ESetIsCreating false], Ok tt)
          end
      | Some _ =>
          (t ++ [failure_toast "Failed to create run"
                   (lit "JSON must be an array of rows");
                 ESetIsCreating false], Ok tt)
      end.
Proof.
  unfold handleJsonSubmit.
  destruct (negb (truthy_string (trim (jsonText st)))); [reflexivity|].
  destruct (JSON_parse (jsonText st)) as [v|].
  - destruct v;
      try (unfold try_finally, try_catch, bind, ret, throw, toast,
             setIsCreating, emit; cbn [instanceof_Error message Error];
           rewrite <- app_assoc; reflexivity).
    cbv zeta.
    unfold try_finally, try_catch, bind at 1 2 3.
    unfold ret at 1. unfold setIsCreating at 1. unfold emit at 1.
    rewrite createRunFromRows_result.
    destruct (response_result (lit "Failed to create run: ")
                (backend (t ++ [ESetIsCreating true])
                   (createRunFromRows_request items (Some (explain st)))))
      as [result|[kind msg]];
      unfold bind, toast, navigate, setIsCreating, emit, completion, after_creation;
      [destruct (run_route result) as [route|[kind msg]]|];
      cbn [instanceof_Error message]; repeat rewrite <- app_assoc; reflexivity.
  - unfold try_finally, try_catch, bind, ret, throw, toast, setIsCreating, emit.
    cbn [instanceof_Error message]. rewrite <- app_assoc. reflexivity.
Qed.

Lemma handleFileUpload_cases (st : HomeState) (t : Trace) :
  handleFileUpload st t
  = match file st with
    | None => (t ++ [warning_toast "No file selected"], Ok tt)
    | Some f =>
        let req := createRunFromFile_request f (Some (explain st)) in
        match response_result (lit "Failed to create run from file: ")
                (backend (t ++ [ESetIsCreating true]) req) with
        | Ok result =>
            (t ++ [ESetIsCreating true; EFetch req] ++ after_creation result
               ++ [ESetIsCreating false], Ok tt)
        | Thrown e =>
            (t ++ [ESetIsCreating true; EFetch req;
                   failure_toast "Failed to create run" (message e);
                   ESetIsCreating false], Ok tt)
        end
    end.
Proof.
  unfold handleFileUpload. destruct (file st) as [f|]; [|reflexivity].
  cbv zeta.
  unfold try_finally, try_catch, bind at 1 2.
  unfold setIsCreating at 1. unfold emit at 1.
  rewrite createRunFromFile_result.
  destruct (response_result (lit "Failed to create run from file: ")
              (backend (t ++ [ESetIsCreating true])
                 (createRunFromFile_request f (Some (explain st)))))
    as [result|[kind msg]];
    unfold bind, toast, navigate, setIsCreating, emit, completion, after_creation;
    [destruct (run_route result) as [route|[kind msg]]|];
    cbn [instanceof_Error message]; repeat rewrite <- app_assoc; reflexivity.
Qed.

Lemma Home_handleExport_cases (runId : jsstring) (t : Trace) :
  Home_handleExport runId t
  = let req := exportRunCsv_request runId in
    match backend t req with
    | None =>
        (t ++ [EFetch req;
               failure_toast "Failed to export CSV" (network_error_message engine)],
         Ok tt)
    | Some response =>
        if Response.ok response
        then (t ++ EFetch req :: download_events runId response
                ++ [success_toast "CSV exported successfully"], Ok tt)
        else (t ++ [EFetch req;
                    failure_toast "Failed to export CSV"
                      (lit "Failed to export CSV: " ++ Response.statusText response)],
              Ok tt)
    end.
Proof.
  unfold Home_handleExport, try_catch, bind at 1. rewrite exportRunCsv_result.
  cbv zeta.
  destruct (backend t (exportRunCsv_request runId)) as [response|].
  - destruct (Response.ok response); unfold toast, emit;
      cbn [instanceof_Error message Error]; rewrite <- app_assoc; reflexivity.
  - unfold toast, emit. cbn [instanceof_Error message].
    rewrite <- app_assoc. reflexivity.
Qed.

Lemma RunDetail_handleExport_cases (runId : option jsstring) (t : Trace) :
  RunDetail_handleExport runId t
  = match runId with
    | Some id => if truthy_string id then Home_handleExport id t else (t, Ok tt)
    | None => (t, Ok tt)
    end.
Proof.
  unfold RunDetail_handleExport. destruct runId as [id|]; [|reflexivity].
  destruct (truthy_string id); reflexivity.
Qed.

Lemma requests_download (runId : jsstring) (response : Response.t) :
  requests (download_events runId response) = [].
Proof. reflexivity. Qed.

(** The outcomes of a creation: a result with or without a route, or a
    thrown error. *)
Ltac creation_outcomes :=
  destruct (response_result _ _) as [result|e];
  [unfold after_creation; destruct (run_route result) as [route|e] |].

(** X3.  The four handlers of the two views never throw, whatever the
    state, the input and the backend do, and each makes at most one
    request. *)
Theorem handlers_never_throw (st : HomeState) (runId : jsstring) (t : Trace) :
  (exists new, handleFileUpload st t = (t ++ new, Ok tt)
               /\ List.length (requests new) <= 1)
  /\ (exists new, handleJsonSubmit st t = (t ++ new, Ok tt)
                  /\ List.length (requests new) <= 1)
  /\ (exists new, Home_handleExport runId t = (t ++ new, Ok tt)
                  /\ List.length (requests new) <= 1)
  /\ (forall id, exists new,
         RunDetail_handleExport id t = (t ++ new, Ok tt)
         /\ List.length (requests new) <= 1).
Proof.
  assert (Hexp : forall id, exists new,
             Home_handleExport id t = (t ++ new, Ok tt)
             /\ List.length (requests new) <= 1).
  { intros id. rewrite Home_handleExport_cases. cbv zeta.
    destruct (backend t (exportRunCsv_request id)) as [response|].
    - destruct (Response.ok response); eexists; (split; [reflexivity|]).
      + cbn [requests flat_map app]. fold (requests (download_events id response
                                                    ++ [success_toast "CSV exported successfully"])).
        rewrite requests_app, requests_download. simpl. lia.
      + simpl. lia.
    - eexists. split; [reflexivity | simpl; lia]. }
  split; [|split; [|split]].
  - rewrite handleFileUpload_cases. destruct (file st) as [f|].
    + cbv zeta.
      creation_outcomes; eexists;
        (split; [reflexivity | simpl; lia]).
    + eexists. split; [reflexivity | simpl; lia].
  - rewrite handleJsonSubmit_cases.
    destruct (negb (truthy_string (trim (jsonText st)))).
    + eexists. split; [reflexivity | simpl; lia].
    + destruct (JSON_parse (jsonText st)) as [v|].
      * destruct v; try (eexists; split; [reflexivity | simpl; lia]).
        cbv zeta.
        creation_outcomes; eexists;
          (split; [reflexivity | simpl; lia]).
      * eexists. split; [reflexivity | simpl; lia].
  - apply Hexp.
  - intros id. rewrite RunDetail_handleExport_cases.
    destruct id as [id|].
    + destruct (truthy_string id); [apply Hexp|].
      exists []. rewrite app_nil_r. split; [reflexivity | simpl; lia].
    + exists []. rewrite app_nil_r. split; [reflexivity | simpl; lia].
Qed.

(** X4.  Both creation handlers leave the in-flight flag cleared: unless
    the input is missing (no file, or text that trims to nothing), in which
    case the flag is not touched, the last value they give it is false. *)
Theorem creating_flag_is_cleared (st : HomeState) (t : Trace) :
  (exists new,
      fst (handleFileUpload st t) = t ++ new
      /\ last_flag new = match file st with Some _ => Some false | None => None end)
  /\ (exists new,
        fst (handleJsonSubmit st t) = t ++ new
        /\ last_flag new = if truthy_string (trim (jsonText st))
                           then Some false else None).
Proof.
  split.
  - rewrite handleFileUpload_cases. destruct (file st) as [f|].
    + cbv zeta.
      creation_outcomes; eexists;
        (split; [reflexivity | reflexivity]).
    + eexists. split; reflexivity.
  - rewrite handleJsonSubmit_cases.
    destruct (truthy_string (trim (jsonText st))); cbn [negb].
    + destruct (JSON_parse (jsonText st)) as [v|].
      * destruct v; try (eexists; split; reflexivity).
        cbv zeta.
        creation_outcomes; eexists; split; reflexivity.
      * eexists. split; reflexivity.
    + eexists. split; reflexivity.
Qed.

(** *** Creating a run *)

Lemma trim_start_all_blank (s : jsstring) :
  Forall (fun c => is_white_space c = true) s -> trim_start s = [].
Proof.
  induction 1 as [|c s Hc _ IH]; simpl; [reflexivity|]. now rewrite Hc.
Qed.

Lemma trim_all_blank (s : jsstring) :
  Forall (fun c => is_white_space c = true) s -> trim s = [].
Proof.
  intros H. unfold trim, trim_end. now rewrite (trim_start_all_blank s H).
Qed.

(** X5.  Pasted text made of white space only (spaces, tabs, line breaks,
    no-break and other Unicode spaces, or nothing at all) is not submitted:
    the handler shows [No JSON provided] and does nothing else. *)
Theorem blank_json_is_not_submitted (st : HomeState) (t : Trace) :
  Forall (fun c => is_white_space c = true) (jsonText st) ->
  handleJsonSubmit st t = (t ++ [warning_toast "No JSON provided"], Ok tt).
Proof.
  intros H. rewrite handleJsonSubmit_cases, (trim_all_blank _ H). reflexivity.
Qed.

(** X6.  Pasted text that is not blank and not JSON is reported with the
    parser's own message (a SyntaxError is an Error, so the [Invalid JSON]
    fallback text is not used); no request is made and the in-flight flag
    ends cleared. *)
Theorem invalid_json_shows_the_parser_message (st : HomeState) (t : Trace) :
  truthy_string (trim (jsonText st)) = true ->
  JSON_parse (jsonText st) = None ->
  handleJsonSubmit st t
  = (t ++ [failure_toast "Failed to create run"
             (syntax_error_message engine (jsonText st));
           ESetIsCreating false],
     Ok tt).
Proof.
  intros Ht Hp. rewrite handleJsonSubmit_cases, Ht, Hp. reflexivity.
Qed.

Lemma after_creation_runId (members : list (jsstring * JValue)) (runId : jsstring) :
  own_property (lit "runId") members = Some (JString runId) ->
  after_creation (JObject members)
  = [success_toast "Run created successfully"; ENavigate (lit "/run/" ++ runId)].
Proof.
  intros H. unfold after_creation, run_route. cbn [read_property].
  rewrite H. reflexivity.
Qed.

Lemma after_creation_null :
  after_creation JNull
  = [success_toast "Run created successfully";
     failure_toast "Failed to create run" (null_property_message engine (lit "runId"))].
Proof. reflexivity. Qed.


(** X8.  Uploading without a selected file only shows [No file selected].
    With a file, the handler sets the in-flight flag and posts the file with
    the explain choice as text.  A 2xx answer with a JSON body is followed by
    the success toast and then by the navigation to the route made of
    [result.runId], or by the failure toast when that route cannot be made:
    an object with a string [runId] leads to [/run/<runId>], a [null] body to
    the success toast followed by the failure toast with the engine's
    TypeError.  A 2xx answer whose body is not JSON gives the failure toast
    with the parser's message, any other status the failure toast carrying
    the status text.  The flag is cleared last. *)
Theorem file_upload_outcome (st : HomeState) (t : Trace) :
  (file st = None ->
   handleFileUpload st t = (t ++ [warning_toast "No file selected"], Ok tt))
  /\ (forall f response,
        file st = Some f ->
        let req := createRunFromFile_request f (Some (explain st)) in
        backend (t ++ [ESetIsCreating true]) req = Some response ->
        Request.body req
        = Some (FormBody [(lit "file", FormFile f);
                          (lit "explain",
                           FormText (if explain st then lit "true" else lit "false"))])
        /\ (Response.ok response = true ->
            forall result, JSON_parse (Response.body response) = Some result ->
              handleFileUpload st t
              = (t ++ [ESetIsCreating true; EFetch req] ++ after_creation result
                   ++ [ESetIsCreating false],
                 Ok tt)
              /\ (forall members runId,
                    result = JObject members ->
                    own_property (lit "runId") members = Some (JString runId) ->
                    handleFileUpload st t
                    = (t ++ [ESetIsCreating true; EFetch req;
                             success_toast "Run created successfully";
                             ENavigate (lit "/run/" ++ runId);
                             ESetIsCreating false],
                       Ok tt))
              /\ (result = JNull ->
                  handleFileUpload st t
                  = (t ++ [ESetIsCreating true; EFetch req;
                           success_toast "Run created successfully";
                           failure_toast "Failed to create run"
                             (null_property_message engine (lit "runId"));
                           ESetIsCreating false],
                     Ok tt)))
        /\ (Response.ok response = true ->
            JSON_parse (Response.body response) = None ->
            handleFileUpload st t
            = (t ++ [ESetIsCreating true; EFetch req;
                     failure_toast "Failed to create run"
                       (syntax_error_message engine (Response.body response));
                     ESetIsCreating false],
               Ok tt))
        /\ (Response.ok response = false ->
            handleFileUpload st t
            = (t ++ [ESetIsCreating true; EFetch req;
                     failure_toast "Failed to create run"
                       (lit "Failed to create run from file: "
                          ++ Response.statusText response);
                     ESetIsCreating false],
               Ok tt))).
Proof.
  split.
  - intros Hf. rewrite handleFileUpload_cases, Hf. reflexivity.
  - intros f response Hf req Hb. split; [reflexivity|]. split.
    + intros Hok result Hv.
      assert (E : handleFileUpload st t
                  = (t ++ [ESetIsCreating true; EFetch req] ++ after_creation result
                       ++ [ESetIsCreating false], Ok tt)).
      { rewrite handleFileUpload_cases, Hf. cbv zeta.
        fold req. rewrite Hb. unfold response_result. rewrite Hok, Hv. reflexivity. }
      split; [exact E|]. split.
      * intros members runId -> Hid. rewrite E, (after_creation_runId _ _ Hid).
        reflexivity.
      * intros ->. rewrite E, after_creation_null. reflexivity.
    + split.
      * intros Hok Hv. rewrite handleFileUpload_cases, Hf. cbv zeta.
        fold req. rewrite Hb. unfold response_result. rewrite Hok, Hv. reflexivity.
      * intros Hok. rewrite handleFileUpload_cases, Hf. cbv zeta.
        fold req. rewrite Hb. unfold response_result. rewrite Hok. reflexivity.
Qed.

(** *** Exporting *)

(** X9.  A 2xx answer to the export request is downloaded once, under the
    name [run-<id>.csv]: the blob is read, an object URL and an anchor are
    made, the anchor is attached, clicked, and removed again, the URL is
    revoked, and the success toast comes last. *)
Theorem successful_export_downloads_once
  (runId : jsstring) (t : Trace) (response : Response.t) :
  backend t (exportRunCsv_request runId) = Some response ->
  Response.ok response = true ->
  let blob := Response.body response in
  let a := mkAnchor (BlobURL blob) (lit "run-" ++ runId ++ lit ".csv") in
  Home_handleExport runId t
  = (t ++ [EFetch (exportRunCsv_request runId);
           EBlob response; ECreateObjectURL blob; ECreateElement (lit "a");
           EAppendChild a; EClick a; ERevokeObjectURL (BlobURL blob);
           ERemoveChild a;
           success_toast "CSV exported successfully"],
     Ok tt).
Proof.
  intros Hb Hok blob a. rewrite Home_handleExport_cases. cbv zeta.
  rewrite Hb, Hok. reflexivity.
Qed.

(** X10.  A click on Export in the run list ends in exactly one toast,
    which comes last, under every backend: after a 2xx answer it is the
    success toast, and the download has taken place; after any other status
    it is the failure toast that reads [Failed to export CSV: ] followed by
    the status text, and without a response the failure toast with the
    engine's network error; in these two cases nothing is downloaded.  The
    handler of the detail view does the same for a non-empty identifier and
    nothing at all (no request, no toast) without one. *)
Theorem export_reports_exactly_once (runId : jsstring) (t : Trace) :
  (exists before shown,
      Home_handleExport runId t = (t ++ before ++ [EToast shown], Ok tt)
      /\ toasts before = []
      /\ shown
         = match backend t (exportRunCsv_request runId) with
           | Some response =>
               if Response.ok response
               then mkToast (lit "CSV exported successfully") None None
               else mkToast (lit "Failed to export CSV")
                      (Some (lit "Failed to export CSV: "
                               ++ Response.statusText response))
                      (Some destructive)
           | None =>
               mkToast (lit "Failed to export CSV")
                 (Some (network_error_message engine)) (Some destructive)
           end
      /\ (In (success_toast "CSV exported successfully") (before ++ [EToast shown])
          <-> exists response,
                backend t (exportRunCsv_request runId) = Some response
                /\ Response.ok response = true)
      /\ (existsb is_download_effect before = true
          <-> exists response,
                backend t (exportRunCsv_request runId) = Some response
                /\ Response.ok response = true))
  /\ RunDetail_handleExport (Some runId) t
     = (if truthy_string runId then Home_handleExport runId t else (t, Ok tt))
  /\ RunDetail_handleExport None t = (t, Ok tt).
Proof.
  split; [|split; [exact (RunDetail_handleExport_cases (Some runId) t) | reflexivity]].
  rewrite Home_handleExport_cases. cbv zeta.
  destruct (backend t (exportRunCsv_request runId)) as [response|].
  - destruct (Response.ok response) eqn:Hok.
    + exists (EFetch (exportRunCsv_request runId) :: download_events runId response).
      eexists. split; [reflexivity|]. split; [reflexivity|].
      split; [reflexivity|]. split; split.
      * intros _. eauto.
      * intros _. apply in_or_app. right. left. reflexivity.
      * intros _. eauto.
      * intros _. reflexivity.
    + exists [EFetch (exportRunCsv_request runId)].
      eexists. split; [reflexivity|]. split; [reflexivity|].
      split; [reflexivity|]. split; split.
      * simpl. intros [E|[E|[]]]; discriminate E.
      * intros (r & Hr & Hr'). inversion Hr; subst. congruence.
      * simpl. discriminate.
      * intros (r & Hr & Hr'). inversion Hr; subst. congruence.
  - exists [EFetch (exportRunCsv_request runId)].
    eexists. split; [reflexivity|]. split; [reflexivity|].
    split; [reflexivity|]. split; split.
    + simpl. intros [E|[E|[]]]; discriminate E.
    + intros (r & Hr & _). discriminate.
    + simpl. discriminate.
    + intros (r & Hr & _). discriminate.
Qed.

(** *** Fetching one run *)

Lemma attempt_first_success {A} (queryFn : M A) (n : nat) (t t1 : Trace) (a : A) :
  queryFn t = (t1, Ok a) -> ReactQuery.attempt n queryFn t = (t1, Ok a).
Proof. intros H. destruct n; simpl; unfold try_catch; now rewrite H. Qed.

Lemma attempt_always_fails {A} (queryFn : M A) (e : Event) (x : Exn) :
  (forall t, queryFn t = (t ++ [e], Thrown x)) ->
  forall n t, ReactQuery.attempt n queryFn t = (t ++ repeat e (S n), Thrown x).
Proof.
  intros Hq n. induction n as [|n IH]; intros t; simpl; unfold try_catch;
    rewrite Hq.
  - reflexivity.
  - unfold throw. rewrite IH, <- app_assoc. reflexivity.
Qed.

(** X11.  When the backend keeps answering the request for a run with a
    status outside 200..299, the detail view makes [retry + 1] requests for
    that run and then shows the error panel with [Failed to get run:]
    followed by the status text, and no Export button. *)
Theorem missing_run_shows_the_status_text
  (runId : jsstring) (t : Trace) (response : Response.t) :
  truthy_string runId = true ->
  (forall t', backend t' (getRun_request runId) = Some response) ->
  Response.ok response = false ->
  exists q,
    RunDetail_query (Some runId) t
    = (t ++ repeat (EFetch (getRun_request runId)) (S retry), Ok q)
    /\ RunDetail_view q
       = ErrorPanel (lit "Failed to get run: " ++ Response.statusText response)
    /\ export_button (RunDetail_view q) = false.
Proof.
  intros Hid Hb Hok.
  assert (Hq : forall t', RunDetail_queryFn (Some runId) t'
                 = (t' ++ [EFetch (getRun_request runId)],
                    Thrown (Error (lit "Failed to get run: "
                                     ++ Response.statusText response)))).
  { intros t'. unfold RunDetail_queryFn. rewrite Hid. cbn [negb].
    rewrite getRun_result, Hb. unfold response_result. now rewrite Hok. }
  eexists. split; [|split].
  - unfold RunDetail_query, ReactQuery.useQuery. cbn [truthy_opt_string].
    rewrite Hid. unfold try_catch, bind.
    rewrite (attempt_always_fails _ _ _ Hq retry t). reflexivity.
  - reflexivity.
  - reflexivity.
Qed.

(** X12.  With a non-empty identifier the view first shows the spinner.
    When the backend answers the request with a 2xx status and a JSON body
    that conforms to [GetRunResponse], that is the only request, and the
    view shows the run of the body: the first eight code units of its
    identifier, its explanation card if any, and the Export button. *)
Theorem fetched_run_is_shown
  (runId : jsstring) (t : Trace) (response : Response.t) (v : JValue)
  (data : GetRunResponse.t) :
  truthy_string runId = true ->
  backend t (getRun_request runId) = Some response ->
  Response.ok response = true ->
  JSON_parse (Response.body response) = Some v ->
  Conforming.getRunResponse v = Some data ->
  from_json v = data ->
  let run := GetRunResponse.run data in
  RunDetail_view (ReactQuery.first_render (truthy_opt_string (Some runId)))
  = DetailLoading
  /\ exists q content,
       RunDetail_query (Some runId) t = (t ++ [EFetch (getRun_request runId)], Ok q)
       /\ ReactQuery.Query.data q = Some data
       /\ RunDetail_view q = Detail content
       /\ shortId content = firstn 8 (Run.id run)
       /\ explanation_card content = explanation_panel run
       /\ export_button (RunDetail_view q) = true.
Proof.
  intros Hid Hb Hok Hv Hconforms Hread run. split.
  - cbn [truthy_opt_string]. rewrite Hid. reflexivity.
  - assert (Hq : RunDetail_queryFn (Some runId) t
                 = (t ++ [EFetch (getRun_request runId)], Ok data)).
    { unfold RunDetail_queryFn. rewrite Hid. cbn [negb].
      rewrite getRun_result, Hb. unfold response_result.
      now rewrite Hok, Hv, Hread. }
    eexists. eexists. split; [|split; [|split; [|split; [|split]]]].
    + unfold RunDetail_query, ReactQuery.useQuery. cbn [truthy_opt_string].
      rewrite Hid. unfold try_catch, bind.
      rewrite (attempt_first_success _ retry _ _ _ Hq). reflexivity.
    + reflexivity.
    + reflexivity.
    + reflexivity.
    + reflexivity.
    + reflexivity.
Qed.

(** *** The findings card *)

Lemma mapi_from_length {A B} (f : A -> nat -> B) (l : list A) (start : nat) :
  List.length (mapi_from start f l) = List.length l.
Proof.
  revert start; induction l as [|x l IH]; intros start; simpl;
    [reflexivity | now rewrite IH].
Qed.

Lemma map_mapi_from {A B C} (g : B -> C) (h : A -> C) (f : A -> nat -> B)
  (l : list A) (start : nat) :
  (forall x i, g (f x i) = h x) ->
  map g (mapi_from start f l) = map h l.
Proof.
  intros H. revert start; induction l as [|x l IH]; intros start; simpl;
    [reflexivity | now rewrite H, IH].
Qed.

(** X13.  The findings table is replaced by [No findings] exactly when the
    run has no findings list or an empty one; otherwise it has one row per
    finding, in the order of the list, each with the finding's type and
    reason. *)
Theorem findings_table_has_a_row_per_finding (response : GetRunResponse.t) :
  let run := GetRunResponse.run response in
  exists content,
    RunDetail_view (ReactQuery.Query.mk (Some response) None false) = Detail content
    /\ (findings_table content = None
        <-> Run.findings run = None \/ Run.findings run = Some [])
    /\ (forall findings,
          Run.findings run = Some findings ->
          findings <> [] ->
          exists rows,
            findings_table content = Some rows
            /\ List.length rows = List.length findings
            /\ map type_cell rows = map Finding.type findings
            /\ map reason_cell rows = map Finding.reason findings).
Proof.
  intros run. eexists. split; [reflexivity|].
  cbn [findings_table]. fold run. split.
  - destruct (Run.findings run) as [[|f fs]|]; split; intros H;
      try reflexivity; try discriminate; auto.
    destruct H as [H|H]; discriminate.
  - intros findings Hf Hne. rewrite Hf.
    destruct findings as [|f fs]; [congruence|].
    eexists. split; [reflexivity|]. unfold mapi. split; [|split].
    + apply mapi_from_length.
    + apply map_mapi_from. reflexivity.
    + apply map_mapi_from. reflexivity.
Qed.

(** X14.  The row-data cell of a finding shows the dash placeholder exactly
    when the payload is absent or falsy: null, false, a number that is zero
    (of either sign, so also a numeral that underflows to zero) or NaN, or
    the empty string; every other payload is shown through [formatJson]. *)
Theorem falsy_row_payload_shows_the_placeholder (finding : Finding.t) (idx : nat) :
  (row_cell (finding_row finding idx) = None
   <-> Finding.row finding = None
       \/ Finding.row finding = Some JNull
       \/ Finding.row finding = Some (JBool false)
       \/ (exists x, Finding.row finding = Some (JNumber x)
                     /\ (PrimFloat.is_zero x = true \/ PrimFloat.is_nan x = true))
       \/ Finding.row finding = Some (JString []))
  /\ (forall r,
        Finding.row finding = Some r -> truthy r = true ->
        row_cell (finding_row finding idx) = Some (formatJson r)).
Proof.
  unfold finding_row. cbn [row_cell]. split.
  - destruct (Finding.row finding) as [r|]; [|split; auto].
    destruct r as [| [|] | x | [|c s] | items | members];
      cbn [truthy truthy_string]; unfold truthy_number;
      split; intros H; try discriminate; auto.
    + decompose [or ex and] H; discriminate.
    + right; right; right; left. exists x. split; [reflexivity|].
      destruct (PrimFloat.is_nan x); [now right|].
      destruct (PrimFloat.is_zero x); [now left | discriminate].
    + decompose [or ex and] H; try discriminate;
        match goal with H' : Some _ = Some _ |- _ => inversion H'; subst end;
        match goal with H' : _ = true |- _ => rewrite H' end;
        [now rewrite orb_true_r | reflexivity].
    + decompose [or ex and] H; discriminate.
    + decompose [or ex and] H; discriminate.
    + decompose [or ex and] H; discriminate.
  - intros r Hr Ht. now rewrite Hr, Ht.
Qed.

(** X15.  The summary line of the findings card counts the findings and
    uses the singular for exactly one: a run without a findings list reads
    [0 issues detected], one finding reads [1 issue detected]. *)
Theorem findings_summary_counts (run : Run.t) :
  (Run.findings run = None -> findings_text run = lit "0 issues detected")
  /\ (forall f, Run.findings run = Some [f] ->
                findings_text run = lit "1 issue detected")
  /\ (forall findings,
        Run.findings run = Some findings ->
        List.length findings <> 1 ->
        findings_text run
        = Z_toString (Z.of_nat (List.length findings)) ++ lit " issues detected").
Proof.
  unfold findings_text. split; [|split].
  - intros ->. reflexivity.
  - intros f ->. reflexivity.
  - intros findings -> Hn. cbn [option_map]. f_equal.
    destruct findings as [|a [|b l]]; [reflexivity | simpl in Hn; lia | reflexivity].
Qed.

(** *** The run list *)

Lemma displayed_ids_runs (q : ReactQuery.Infinite.t ListRunsResponse.t) :
  ReactQuery.Infinite.isLoading q = false ->
  displayed_ids (Home_view q) = map Run.id (Home_runs q).
Proof.
  intros H. unfold Home_view. rewrite H.
  destruct (Home_runs q) as [|r rs]; [reflexivity|].
  cbn [List.length Nat.eqb displayed_ids]. now rewrite map_map.
Qed.

(** X16.  Whenever the run table is on screen it has one row per
    accumulated run; every row is keyed by its run's identifier, its Open
    action leads to the detail route of that same run and its Export action
    exports that same run; the source cell is never empty (a run without a
    source, or with an empty one, shows the dash, any other run its source)
    and a run without a row count shows 0. *)
Theorem run_rows_point_at_their_run (q : ReactQuery.Infinite.t ListRunsResponse.t) :
  forall rows loadMore,
    Home_view q = RunsTable rows loadMore ->
    map export_id rows = map Run.id (Home_runs q)
    /\ Forall (fun row =>
                 row_key row = export_id row
                 /\ open_path row = lit "/run/" ++ export_id row
                 /\ source_cell row <> []) rows
    /\ (forall i run row,
          nth_error (Home_runs q) i = Some run ->
          nth_error rows i = Some row ->
          Run.rowCount run = None -> rows_cell row = 0%Z)
    /\ (forall i run row,
          nth_error (Home_runs q) i = Some run ->
          nth_error rows i = Some row ->
          source_cell row
          = match Run.source run with
            | Some (c :: s) => c :: s
            | Some [] | None => dash
            end).
Proof.
  intros rows loadMore. unfold Home_view.
  destruct (ReactQuery.Infinite.isLoading q); [discriminate|].
  destruct (Nat.eqb (List.length (Home_runs q)) 0); [discriminate|].
  intros H; inversion H; subst; clear H. split; [|split; [|split]].
  - rewrite map_map. reflexivity.
  - rewrite Forall_map. apply Forall_forall. intros run _. unfold Home_row.
    cbn [row_key export_id open_path source_cell]. repeat split.
    unfold or_else, dash. destruct (Run.source run) as [[|c s]|]; discriminate.
  - intros i run row Hrun Hrow Hcount.
    rewrite nth_error_map, Hrun in Hrow. inversion Hrow; subst.
    unfold Home_row. cbn [rows_cell]. now rewrite Hcount.
  - intros i run row Hrun Hrow.
    rewrite nth_error_map, Hrun in Hrow. inversion Hrow; subst.
    unfold Home_row, or_else. cbn [source_cell].
    destruct (Run.source run) as [[|c s]|]; reflexivity.
Qed.

(** X17.  The first page is requested with page size 20 and no cursor, at
    most [retry + 1] times, and the query always settles (it does not
    throw). *)
Theorem first_page_request (t : Trace) :
  Request.url (listRuns_request (Some 20%float) None) = API_URL ++ lit "/runs?limit=20"
  /\ exists k q,
       1 <= k <= S retry
       /\ Home_query t
          = (t ++ repeat (EFetch (listRuns_request (Some 20%float) None)) k, Ok q)
       /\ ReactQuery.Infinite.isLoading q = false.
Proof.
  split; [reflexivity|].
  destruct (attempt_trace (Home_queryFn None)
              (EFetch (listRuns_request (Some 20%float) None))
              (listRuns_trace (Some 20%float) None) retry t) as (k & Hk & Ek).
  unfold Home_query, ReactQuery.useInfiniteQuery, try_catch, bind, ret.
  destruct (ReactQuery.attempt retry (Home_queryFn None) t) as [t1 [page|e]];
    cbn [fst] in Ek; subst t1; exists k; eexists; repeat split; try lia.
Qed.

(** X18.  When the backend keeps answering the first page with a status
    outside 200..299, the run list, after [retry + 1] requests, shows
    [No runs yet]: the view has no error panel of its own. *)
Theorem failed_first_page_shows_no_runs (t : Trace) (response : Response.t) :
  (forall t', backend t' (listRuns_request (Some 20%float) None) = Some response) ->
  Response.ok response = false ->
  exists q,
    Home_query t
    = (t ++ repeat (EFetch (listRuns_request (Some 20%float) None)) (S retry), Ok q)
    /\ ReactQuery.Infinite.error q
       = Some (Error (lit "Failed to list runs: " ++ Response.statusText response))
    /\ Home_view q = NoRunsYet.
Proof.
  intros Hb Hok.
  assert (Hq : forall t', Home_queryFn None t'
                 = (t' ++ [EFetch (listRuns_request (Some 20%float) None)],
                    Thrown (Error (lit "Failed to list runs: "
                                     ++ Response.statusText response)))).
  { intros t'. unfold Home_queryFn. rewrite listRuns_result, Hb.
    unfold response_result. now rewrite Hok. }
  eexists. split; [|split].
  - unfold Home_query, ReactQuery.useInfiniteQuery, try_catch, bind.
    rewrite (attempt_always_fails _ _ _ Hq retry t). reflexivity.
  - reflexivity.
  - reflexivity.
Qed.

(** X19.  Loading more only appends: after [fetchNextPage] the pages fetched
    before are still there, in place, followed by at most one new page, so
    the rows already on screen stay where they are and the new runs come
    after them; the call never throws, and when the request fails the pages
    are unchanged. *)
Theorem load_more_only_appends
  (pages : list ListRunsResponse.t) (fetchingNext : bool) (t : Trace) :
  pages <> [] ->
  exists t' q' extra,
    Home_fetchNextPage (fetched pages fetchingNext) t = (t', Ok q')
    /\ ReactQuery.Infinite.pages q' = Some (pages ++ extra)
    /\ List.length extra <= 1
    /\ (ReactQuery.Infinite.error q' <> None -> extra = [])
    /\ displayed_ids (Home_view q')
       = displayed_ids (Home_view (fetched pages fetchingNext))
           ++ List.concat (map page_ids extra).
Proof.
  intros Hne.
  assert (Hids : forall q' extra,
             ReactQuery.Infinite.isLoading q' = false ->
             ReactQuery.Infinite.pages q' = Some (pages ++ extra) ->
             displayed_ids (Home_view q')
             = displayed_ids (Home_view (fetched pages fetchingNext))
                 ++ List.concat (map page_ids extra)).
  { intros q' extra Hl Hp.
    rewrite (displayed_ids_runs q' Hl),
      (displayed_ids_runs (fetched pages fetchingNext) eq_refl).
    unfold Home_runs. rewrite Hp. cbn [fetched ReactQuery.Infinite.pages].
    rewrite flat_map_app, map_app. f_equal.
    unfold page_ids. apply map_flat_map. }
  unfold Home_fetchNextPage, ReactQuery.fetchNextPage.
  cbn [fetched ReactQuery.Infinite.pages].
  destruct pages as [|p ps]; [congruence|].
  destruct (ReactQuery.next_page_param Home_getNextPageParam
              (fetched (p :: ps) fetchingNext))
    as [param|].
  - unfold try_catch, bind, ret.
    destruct (ReactQuery.attempt retry (Home_queryFn (Some param)) t)
      as [t1 [page|e]].
    + exists t1. eexists. exists [page].
      split; [reflexivity|]. split; [reflexivity|]. split; [simpl; lia|].
      split; [intros H; now elim H|]. apply Hids; reflexivity.
    + exists t1. eexists. exists [].
      split; [reflexivity|]. split; [cbn; now rewrite app_nil_r|].
      split; [simpl; lia|]. split; [reflexivity|].
      apply Hids; [reflexivity | cbn; now rewrite app_nil_r].
  - exists t. eexists. exists [].
    split; [reflexivity|]. split; [cbn; now rewrite app_nil_r|].
    split; [simpl; lia|]. split; [reflexivity|].
    apply Hids; [reflexivity | cbn; now rewrite app_nil_r].
Qed.

(** *** The buttons of the creation card *)

(** X20.  Both creation buttons are disabled while a creation is in flight.
    When the file button is enabled, clicking it takes the upload path (the
    flag is set first); when the JSON button is enabled, clicking it gets
    past the empty-input check: in neither case is the missing-input toast
    shown. *)
Theorem enabled_buttons_have_input (st : HomeState) (t : Trace) :
  (isCreating st = true ->
   file_button_disabled st = true /\ json_button_disabled st = true)
  /\ (file_button_disabled st = false ->
      exists rest, fst (handleFileUpload st t) = t ++ ESetIsCreating true :: rest)
  /\ (json_button_disabled st = false ->
      exists new,
        fst (handleJsonSubmit st t) = t ++ new
        /\ ~ In (warning_toast "No JSON provided") new
        /\ last_flag new = Some false).
Proof.
  split; [|split].
  - intros H. unfold file_button_disabled, json_button_disabled. rewrite H.
    split; apply orb_true_r.
  - unfold file_button_disabled. intros H.
    apply orb_false_iff in H. destruct H as [H _].
    rewrite handleFileUpload_cases.
    destruct (file st) as [f|]; [|discriminate]. cbv zeta.
    creation_outcomes; eexists; reflexivity.
  - unfold json_button_disabled. intros H.
    apply orb_false_iff in H. destruct H as [H _].
    apply negb_false_iff in H.
    rewrite handleJsonSubmit_cases, H. cbn [negb].
    destruct (JSON_parse (jsonText st)) as [v|].
    + destruct v;
        try (eexists; split; [reflexivity|]; split; [|reflexivity];
             simpl; intros [E|[E|[]]]; discriminate E).
      cbv zeta.
      creation_outcomes; eexists;
        (split; [reflexivity|]; split; [|reflexivity]);
        simpl; intuition discriminate.
    + eexists. split; [reflexivity|]. split; [|reflexivity].
      simpl; intros [E|[E|[]]]; discriminate E.
Qed.


(** *** Identifiers in request paths *)

(** X21.  A run identifier is spliced into the URL string that is given
    to [fetch] as it is, without any escaping, so an identifier can reach
    into another route: the string built to fetch the run [a] and the
    string built to export the run [b] are one and the same string exactly
    when [a] is [b] followed by [/export.csv], and then the two calls of
    [fetch] have the same arguments altogether.  (This is about the
    arguments of [fetch]; two different strings may still name one
    resource.) *)
Theorem run_id_is_not_escaped (a b : jsstring) :
  (Request.url (getRun_request a) = Request.url (exportRunCsv_request b)
   <-> a = b ++ lit "/export.csv")
  /\ (getRun_request a = exportRunCsv_request b <-> a = b ++ lit "/export.csv").
Proof.
  unfold getRun_request, exportRunCsv_request. cbn [Request.url].
  split; split.
  - intros Hurl. apply app_inv_head in Hurl. now inversion Hurl.
  - intros ->. reflexivity.
  - intros H. inversion H as [Hurl].
    apply app_inv_head in Hurl. now inversion Hurl.
  - intros ->. reflexivity.
Qed.

Lemma RunDetail_queryFn_trace (runId : jsstring) (t : Trace) :
  truthy_string runId = true ->
  fst (RunDetail_queryFn (Some runId) t) = t ++ [EFetch (getRun_request runId)].
Proof.
  intros H. unfold RunDetail_queryFn. rewrite H. cbn [negb].
  now rewrite getRun_result.
Qed.

Lemma attempt_result {A} (queryFn : M A) (n : nat) (t t1 : Trace) (r : Result A) :
  ReactQuery.attempt n queryFn t = (t1, r) ->
  exists t', queryFn t' = (t1, r).
Proof.
  revert t. induction n as [|n IH]; intros t; simpl; unfold try_catch, throw;
    destruct (queryFn t) as [t2 [a|x]] eqn:E; intros H.
  - exists t. congruence.
  - exists t. congruence.
  - exists t. congruence.
  - exact (IH t2 H).
Qed.

(** X22.  Entering the detail view with a non-empty identifier requests
    that run and nothing else, between one and [retry + 1] times, whatever
    the backend answers; the query settles without throwing, and then it
    holds either data or an error, never both and never neither: the data
    is what was read of the JSON body of a 2xx answer (with or without a
    run in it), the error is the one [getRun] threw on the last attempt. *)
Theorem detail_view_requests_only_its_run (runId : jsstring) (t : Trace) :
  truthy_string runId = true ->
  exists k q,
    1 <= k <= S retry
    /\ RunDetail_query (Some runId) t
       = (t ++ repeat (EFetch (getRun_request runId)) k, Ok q)
    /\ ReactQuery.Query.isLoading q = false
    /\ (ReactQuery.Query.data q = None <-> ReactQuery.Query.error q <> None)
    /\ (forall data,
          ReactQuery.Query.data q = Some data ->
          exists t' response v,
            backend t' (getRun_request runId) = Some response
            /\ Response.ok response = true
            /\ JSON_parse (Response.body response) = Some v
            /\ data = from_json v)
    /\ (forall error,
          ReactQuery.Query.error q = Some error ->
          exists t',
            response_result (A := GetRunResponse.t) (lit "Failed to get run: ")
              (backend t' (getRun_request runId))
            = Thrown error).
Proof.
  intros Hid.
  destruct (attempt_trace (RunDetail_queryFn (Some runId))
              (EFetch (getRun_request runId))
              (fun t' => RunDetail_queryFn_trace runId t' Hid) retry t)
    as (k & Hk & Ek).
  assert (Hfn : forall t', RunDetail_queryFn (Some runId) t'
                  = (t' ++ [EFetch (getRun_request runId)],
                     response_result (lit "Failed to get run: ")
                       (backend t' (getRun_request runId)))).
  { intros t'. unfold RunDetail_queryFn. rewrite Hid. cbn [negb].
    apply getRun_result. }
  unfold RunDetail_query, ReactQuery.useQuery. cbn [truthy_opt_string].
  rewrite Hid. unfold try_catch, bind, ret.
  destruct (ReactQuery.attempt retry (RunDetail_queryFn (Some runId)) t)
    as [t1 [a|x]] eqn:Ea; cbn [fst] in Ek; subst t1; exists k; eexists;
    (split; [exact Hk|]); (split; [reflexivity|]); (split; [reflexivity|]);
    cbn [ReactQuery.Query.data ReactQuery.Query.error];
    (split; [split; intros H; try discriminate; congruence|]);
    destruct (attempt_result _ _ _ _ _ Ea) as (t' & Ht');
    rewrite Hfn in Ht'; inversion Ht' as [[Htrace Hres]]; split.
  - intros data Hd. inversion Hd; subst data. clear Hd.
    unfold response_result in Hres.
    destruct (backend t' (getRun_request runId)) as [response|] eqn:Hb;
      [|discriminate].
    destruct (Response.ok response) eqn:Hok; cbn [negb] in Hres; [|discriminate].
    destruct (JSON_parse (Response.body response)) as [v|] eqn:Hv; [|discriminate].
    exists t', response, v. inversion Hres. repeat split; assumption.
  - intros error H. discriminate H.
  - intros data H. discriminate H.
  - intros error He. inversion He; subst error. exists t'. exact Hres.
Qed.

End Watchtower.

(* ================================================================== *)
(** ** Worked instances *)

Ltac distinct_ids :=
  repeat constructor; simpl; intuition discriminate.

(** C1: a 200 response whose body is not JSON still makes [listRuns]
    throw, after its single request. *)
Lemma success_status_with_garbled_body_throws :
  Response.ok Sample.garbled = true
  /\ @perform None None Sample.engine Sample.backend_garbled
       Sample.read_list Sample.read_get
       (ListRuns None None) []
     = ([EFetch (request_of None None (ListRuns None None))],
        Thrown (ErrorObject SyntaxError (lit "Unexpected token"))).
Proof. split; vm_compute; reflexivity. Qed.

Lemma transport_error_policy_witness :
  Sample.backend_404 [] (request_of None None (GetRun (lit "missing")))
  = Some Sample.not_found
  /\ exists msg,
       @perform None None Sample.engine Sample.backend_404
         Sample.read_list Sample.read_get
         (GetRun (lit "missing")) []
       = ([] ++ [EFetch (request_of None None (GetRun (lit "missing")))],
          Thrown (Error msg))
       /\ includes msg (Response.statusText Sample.not_found) = true.
Proof.
  split; [reflexivity|].
  exact (proj1 (proj2
    (@transport_error_policy None None Sample.engine Sample.backend_404
       Sample.read_list Sample.read_get
       (GetRun (lit "missing")) [] Sample.not_found eq_refl)) eq_refl).
Defined.

(** C2: a first page that has a cursor but no run shows [No runs yet] and
    no Load more button. *)
Lemma empty_page_with_cursor_offers_no_load_more :
  let page := Sample.page_of [] (Some (lit "c1")) in
  ListRunsResponse.nextCursor page = Some (lit "c1")
  /\ Home_view (fetched [page] false) = NoRunsYet
  /\ load_more_offered (Home_view (fetched [page] false)) = false.
Proof. repeat split. Qed.

Lemma load_more_follows_last_cursor_witness :
  let page := Sample.page_of ["r1"%string] (Some (lit "c1")) in
  load_more_offered (Home_view (fetched [page] false)) = true
  /\ exists k,
       1 <= k <= 4
       /\ fst (@Home_fetchNextPage None None Sample.engine Sample.backend_404 3
                 Sample.read_list (fetched [page] false) [])
          = [] ++ repeat (EFetch (listRuns_request None None (Some 20%float)
                                    (Some (lit "c1")))) k.
Proof.
  intros page.
  pose proof (@load_more_follows_last_cursor None None Sample.engine
                Sample.backend_404 3 Sample.read_list [page] false)
    as (Hiff & Hnext & _).
  split.
  - apply Hiff. split; [|discriminate].
    exists page, (lit "c1"). split; reflexivity.
  - apply (Hnext page (lit "c1") []); reflexivity.
Defined.

(** C3: one page that lists the same run twice is disjoint from every other
    page, there being none, and its run is on screen twice. *)
Lemma duplicate_within_a_page_is_displayed_twice :
  let pages := [Sample.page_of ["r1"%string; "r1"%string] None] in
  pairwise_disjoint (map page_ids pages)
  /\ displayed_ids (Home_view (fetched pages false)) = [lit "r1"; lit "r1"]
  /\ ~ NoDup (displayed_ids (Home_view (fetched pages false))).
Proof.
  intros pages. split; [simpl; auto|]. split; [reflexivity|].
  intros H. inversion H as [|x l Hin _]; subst. apply Hin. left. reflexivity.
Qed.

Lemma flattened_runs_keep_order_and_uniqueness_witness :
  let pages := [Sample.page_of ["r1"%string; "r2"%string] (Some (lit "c1"));
                Sample.page_of ["r3"%string] None] in
  Forall (fun page => NoDup (page_ids page)) pages
  /\ pairwise_disjoint (map page_ids pages)
  /\ displayed_ids (Home_view (fetched pages false))
     = [lit "r1"; lit "r2"; lit "r3"]
  /\ NoDup (displayed_ids (Home_view (fetched pages false))).
Proof.
  intros pages.
  assert (H1 : Forall (fun page => NoDup (page_ids page)) pages)
    by (unfold pages; distinct_ids).
  assert (H2 : pairwise_disjoint (map page_ids pages)).
  { simpl. split; [|split; [constructor | exact I]].
    constructor; [|constructor].
    intros x [<-|[<-|[]]] [H|[]]; discriminate H. }
  split; [exact H1|]. split; [exact H2|]. split; [reflexivity|].
  exact (proj2 (proj2 (flattened_runs_keep_order_and_uniqueness pages false)) H1 H2).
Defined.

Lemma non_array_json_is_rejected_before_any_request_witness :
  let st := mkHome false None (lit "{" ++ q "a" ++ lit ":1}") false in
  let v := JObject [(lit "a", JNumber 1%float)] in
  JSON_parse (jsonText st) = Some v
  /\ isArray v = false
  /\ @handleJsonSubmit None None Sample.engine Sample.backend_404
       st []
     = ([] ++ [EToast (mkToast (lit "Failed to create run")
                         (Some (lit "JSON must be an array of rows"))
                         (Some destructive));
               ESetIsCreating false],
        Ok tt).
Proof.
  intros st v.
  assert (Hp : JSON_parse (jsonText st) = Some v) by (vm_compute; reflexivity).
  split; [exact Hp|]. split; [reflexivity|].
  exact (proj1 (@non_array_json_is_rejected_before_any_request None None
                  Sample.engine Sample.backend_404
                  st v [] Hp eq_refl)).
Defined.

Lemma formatJson_string_payloads_witness :
  JSON_parse (lit "[1]") = Some (JArray [JNumber 1%float])
  /\ formatJson (JString (lit "[1]"))
     = JSON_stringify (JArray [JNumber 1%float]) 2.
Proof.
  assert (Hp : JSON_parse (lit "[1]") = Some (JArray [JNumber 1%float]))
    by (vm_compute; reflexivity).
  split; [exact Hp|].
  exact (proj1 (proj2 (proj2 formatJson_string_payloads)) _ _ Hp).
Defined.

(** C6: a limit of 0 or NaN and an empty cursor are supplied, and left
    out. *)
Lemma falsy_arguments_are_left_out :
  query_names (toString (listRuns_params (Some 0%float) (Some []))) = []
  /\ ~ In (lit "limit") (query_names (toString (listRuns_params (Some 0%float) None)))
  /\ ~ In (lit "limit")
        (query_names (toString (listRuns_params (Some PrimFloat.nan) None)))
  /\ ~ In (lit "cursor") (query_names (toString (listRuns_params None (Some []))))
  /\ listRuns_url None (Some 0%float) (Some [])
     = lit "http://localhost:8787/api/v1/runs".
Proof. repeat split; try (vm_compute; reflexivity); intros []. Qed.

Lemma listRuns_query_names_witness :
  In (lit "limit")
     (query_names (toString (listRuns_params (Some 20%float) (Some (lit "abc")))))
  /\ listRuns_url None (Some 20%float) (Some (lit "abc"))
     = lit "http://localhost:8787/api/v1/runs?limit=20&cursor=abc".
Proof.
  pose proof (listRuns_query_names None (Some 20%float) (Some (lit "abc")))
    as (_ & Hlimit & _).
  split.
  - apply Hlimit. exists 20%float. repeat split; reflexivity.
  - vm_compute. reflexivity.
Defined.

(** C7: entered without an identifier, the view shows the generic text,
    not the one of the query function. *)
Lemma missing_run_id_shows_generic_panel :
  exists q,
    @RunDetail_query None None Sample.engine Sample.backend_404 3
      Sample.read_get None [] = ([], Ok q)
    /\ panel_text (RunDetail_view q) = Some (lit "Failed to load run details")
    /\ panel_text (RunDetail_view q) <> Some (lit "No run ID provided").
Proof.
  exists (ReactQuery.first_render false).
  split; [reflexivity|]. split; [reflexivity|]. discriminate.
Qed.

Lemma missing_run_id_disables_query_witness :
  truthy_opt_string (Some []) = false
  /\ @RunDetail_query None None Sample.engine Sample.backend_404 3
       Sample.read_get (Some []) []
     = ([], Ok (ReactQuery.first_render false))
  /\ RunDetail_view (ReactQuery.first_render false)
     = ErrorPanel (lit "Failed to load run details").
Proof.
  pose proof (@missing_run_id_disables_query None None Sample.engine
                Sample.backend_404 3 Sample.read_get (Some []) [] eq_refl)
    as (H1 & H2 & _).
  split; [reflexivity|]. split; assumption.
Defined.

Lemma failed_export_downloads_nothing_witness :
  let req := exportRunCsv_request None None (lit "r1") in
  let failure :=
    EToast (mkToast (lit "Failed to export CSV")
              (Some (lit "Failed to export CSV: Not Found"))
              (Some destructive)) in
  Sample.backend_no_export [] req = Some Sample.not_found
  /\ Response.ok Sample.not_found = false
  /\ Home_handleExport None None Sample.engine Sample.backend_no_export
       (lit "r1") []
     = ([] ++ [EFetch req; failure], Ok tt)
  /\ RunDetail_handleExport None None Sample.engine Sample.backend_no_export
       (Some (lit "r1")) []
     = ([] ++ [EFetch req; failure], Ok tt).
Proof.
  intros req failure.
  assert (Hb : Sample.backend_no_export [] req = Some Sample.not_found)
    by (vm_compute; reflexivity).
  pose proof (@failed_export_downloads_nothing None None Sample.engine
                Sample.backend_no_export 3 Sample.read_get (lit "r1") []
                Sample.not_found Hb eq_refl)
    as (_ & _ & Hhome & Hdetail).
  split; [exact Hb|]. split; [reflexivity|]. split; [exact Hhome|].
  eapply (Hdetail []).
  - vm_compute. reflexivity.
  - reflexivity.
Defined.

Lemma explanation_card_iff_witness :
  let run := Run.mk (lit "r1") (lit "2024") None None (Some true) None (Some []) None in
  Run.explain run = Some true
  /\ explanation_panel run = None.
Proof.
  intros run. split; [reflexivity|].
  destruct (explanation_card_iff (GetRunResponse.mk true run))
    as (content & _ & _ & _ & Hnone).
  apply Hnone; [reflexivity | right; reflexivity].
Defined.

Lemma finding_index_falls_back_to_position_witness :
  let explicit := Finding.mk (Some 0%Z) (lit "dup") (lit "seen twice") None in
  let implicit := Finding.mk None (lit "gap") (lit "missing day") None in
  let findings := [implicit; explicit; implicit] in
  let run := Run.mk (lit "r1") (lit "2024") None None None None None (Some findings) in
  nth_error findings 2 = Some implicit
  /\ exists content rows row,
       RunDetail_view (ReactQuery.Query.mk (Some (GetRunResponse.mk true run)) None false)
       = Detail content
       /\ findings_table content = Some rows
       /\ nth_error rows 2 = Some row
       /\ index_cell row = 2%Z.
Proof.
  intros explicit implicit findings run.
  split; [reflexivity|].
  exact (finding_index_falls_back_to_position (GetRunResponse.mk true run)
           findings 2 implicit eq_refl eq_refl).
Defined.

(** *** The embedding at work *)

Example listRuns_url_is_encoded :
  listRuns_url None (Some 20%float) (Some (lit "a b&c"))
  = lit "http://localhost:8787/api/v1/runs?limit=20&cursor=a+b%26c".
Proof. vm_compute. reflexivity. Qed.

Example configured_base_url :
  listRuns_url (Some (lit "https://api.example/v1")) None None
  = lit "https://api.example/v1/runs".
Proof. vm_compute. reflexivity. Qed.

Example object_keys_are_ordered :
  option_map (fun v => JSON_stringify v 0)
    (JSON_parse (lit "{" ++ q "b" ++ lit ":1," ++ q "10" ++ lit ":2," ++ q "9"
                   ++ lit ":3," ++ q "b" ++ lit ":[true,null,-0,1.50,1e3]}"))
  = Some (lit "{" ++ q "9" ++ lit ":3," ++ q "10" ++ lit ":2," ++ q "b"
            ++ lit ":[true,null,0,1.5,1000]}").
Proof. vm_compute. reflexivity. Qed.

(** Numbers are binary64 values: parsing rounds to the nearest one, with
    overflow to an infinity and underflow to a zero, and printing uses the
    shortest digits that read back. *)
Example numbers_are_binary64 :
  option_map (fun v => JSON_stringify v 0)
    (JSON_parse (lit "[0.1,1e21,1E-7,123456789012345678901234567890,1e400,-0,5e-324,9007199254740993,0.000001,1e-400,100,2.50]"))
  = Some (lit "[0.1,1e+21,1e-7,1.2345678901234568e+29,null,0,5e-324,9007199254740992,0.000001,0,100,2.5]").
Proof. vm_compute. reflexivity. Qed.

(** A limit is put into the query as [Number.prototype.toString] prints it. *)
Example limit_is_printed_as_a_number :
  listRuns_url None (Some 1e21%float) None
  = lit "http://localhost:8787/api/v1/runs?limit=1e%2B21"
  /\ listRuns_url None (Some 2.5%float) None
     = lit "http://localhost:8787/api/v1/runs?limit=2.5"
  /\ listRuns_url None (Some PrimFloat.infinity) None
     = lit "http://localhost:8787/api/v1/runs?limit=Infinity"
  /\ listRuns_url None (Some PrimFloat.nan) None
     = lit "http://localhost:8787/api/v1/runs".
Proof. repeat split; vm_compute; reflexivity. Qed.

Example trailing_text_is_not_json :
  JSON_parse (lit "[1,2] x") = None /\ JSON_parse (lit "[1,]") = None
  /\ JSON_parse (lit "01") = None /\ JSON_parse [] = None.
Proof. repeat split; vm_compute; reflexivity. Qed.

(** Pasting an array of rows creates the run and opens it. *)
Example json_submission_creates_a_run :
  let st := mkHome true None (lit "[{" ++ q "a" ++ lit ":1}]") false in
  @handleJsonSubmit None None Sample.engine Sample.backend_creates
    st []
  = ([ESetIsCreating true;
      EFetch (createRunFromRows_request None None
                [JObject [(lit "a", JNumber 1%float)]] (Some true));
      EToast (mkToast (lit "Run created successfully") None None);
      ENavigate (lit "/run/r9");
      ESetIsCreating false],
     Ok tt).
Proof. vm_compute. reflexivity. Qed.

Example json_submission_body :
  createRunFromRows_body [JObject [(lit "a", JNumber 1%float)]] (Some true)
  = lit "{" ++ q "rows" ++ lit ":[{" ++ q "a" ++ lit ":1}]," ++ q "explain"
      ++ lit ":true}".
Proof. vm_compute. reflexivity. Qed.

(** A creation answered with the body [null]: the success toast, then the
    failure toast of the TypeError, and no navigation.  With a body that has
    no [runId] the route ends in [undefined]. *)
Example creation_bodies_without_a_run_id :
  let st := mkHome true None (lit "[]") false in
  let answers body := fun (_ : Trace) (_ : Request.t) =>
                        Some (Response.mk 200 (lit "OK") (lit body)) in
  @handleJsonSubmit None None Sample.engine (answers "null"%string) st []
  = ([ESetIsCreating true;
      EFetch (createRunFromRows_request None None [] (Some true));
      EToast (mkToast (lit "Run created successfully") None None);
      EToast (mkToast (lit "Failed to create run")
                (Some (lit "Cannot read properties of null (reading 'runId')"))
                (Some destructive));
      ESetIsCreating false],
     Ok tt)
  /\ @handleJsonSubmit None None Sample.engine (answers "{}"%string) st []
     = ([ESetIsCreating true;
         EFetch (createRunFromRows_request None None [] (Some true));
         EToast (mkToast (lit "Run created successfully") None None);
         ENavigate (lit "/run/undefined");
         ESetIsCreating false],
        Ok tt).
Proof. split; vm_compute; reflexivity. Qed.

(** Text that is not JSON at all is reported with the parser's message. *)
Example broken_json_is_reported :
  @handleJsonSubmit None None Sample.engine Sample.backend_creates
    (mkHome false None (lit "[1,") false) []
  = ([EToast (mkToast (lit "Failed to create run")
                (Some (lit "Unexpected token")) (Some destructive));
      ESetIsCreating false],
     Ok tt).
Proof. vm_compute. reflexivity. Qed.

(** A successful export downloads [run-r1.csv]. *)
Example export_downloads_the_csv :
  let a := mkAnchor (BlobURL (lit "index,type,reason")) (lit "run-r1.csv") in
  Home_handleExport None None Sample.engine Sample.backend_csv (lit "r1") []
  = ([EFetch (exportRunCsv_request None None (lit "r1"));
      EBlob (Response.mk 200 (lit "OK") (lit "index,type,reason"));
      ECreateObjectURL (lit "index,type,reason");
      ECreateElement (lit "a");
      EAppendChild a; EClick a;
      ERevokeObjectURL (BlobURL (lit "index,type,reason"));
      ERemoveChild a;
      EToast (mkToast (lit "CSV exported successfully") None None)],
     Ok tt).
Proof. vm_compute. reflexivity. Qed.

(** Two pages, fetched one after the other with the cursor threaded. *)
Example two_pages_are_listed_in_order :
  let M1 := @Home_query None None Sample.engine Sample.backend_two_pages 3
              Sample.read_list in
  let M2 := bind M1 (@Home_fetchNextPage None None Sample.engine
                       Sample.backend_two_pages 3 Sample.read_list) in
  match M1 [], M2 [] with
  | (t1, Ok q1), (t2, Ok q2) =>
      requests t1 = [listRuns_request None None (Some 20%float) None]
      /\ displayed_ids (Home_view q1) = [lit "r1"; lit "r2"]
      /\ load_more_offered (Home_view q1) = true
      /\ requests t2 = [listRuns_request None None (Some 20%float) None;
                        listRuns_request None None (Some 20%float) (Some (lit "c1"))]
      /\ displayed_ids (Home_view q2) = [lit "r1"; lit "r2"; lit "r3"]
      /\ load_more_offered (Home_view q2) = false
  | _, _ => False
  end.
Proof. vm_compute. repeat split. Qed.

(** A query that keeps failing is tried [retry + 1] times. *)
Example failing_query_is_retried :
  requests (fst (@RunDetail_query None None Sample.engine Sample.backend_404 3
                   Sample.read_get (Some (lit "r1")) []))
  = repeat (getRun_request None None (lit "r1")) 4.
Proof. vm_compute. reflexivity. Qed.

(** The detail view of a fetched run. *)
Example detail_of_a_run :
  let run :=
    Run.mk (lit "0123456789abcdef") (lit "2024") None (Some 3%Z) (Some true) None
      (Some (lit "Two rows look wrong."))
      (Some [Finding.mk None (lit "dup") (lit "seen twice")
               (Some (JString (lit "{" ++ q "x" ++ lit ":1}")));
             Finding.mk (Some 0%Z) (lit "gap") (lit "missing day")
               (Some (JString (lit "oops")));
             Finding.mk None (lit "neg") (lit "negative amount") None]) in
  RunDetail_view (ReactQuery.Query.mk (Some (GetRunResponse.mk true run)) None false)
  = Detail (mkDetail (lit "01234567") (lit "2024")
              (Some (lit "Two rows look wrong."))
              (lit "3 issues detected")
              (Some [mkFindingRow 0 (lit "dup") (lit "seen twice")
                       (Some (lit "{" ++ lf :: lit "  " ++ q "x" ++ lit ": 1"
                                ++ lf :: lit "}"));
                     mkFindingRow 0 (lit "gap") (lit "missing day")
                       (Some (lit "oops"));
                     mkFindingRow 2 (lit "neg") (lit "negative amount") None])).
Proof. vm_compute. reflexivity. Qed.

(** *** Instances of the further properties *)

Lemma no_response_is_thrown_witness :
  Sample.backend_down [] (request_of None None (GetRun (lit "r1"))) = None
  /\ @perform None None Sample.engine Sample.backend_down
       Sample.read_list Sample.read_get (GetRun (lit "r1")) []
     = ([] ++ [EFetch (request_of None None (GetRun (lit "r1")))],
        Thrown (ErrorObject TypeError (lit "Failed to fetch"))).
Proof.
  split; [reflexivity|].
  exact (@no_response_is_thrown None None Sample.engine Sample.backend_down
           Sample.read_list Sample.read_get
           (GetRun (lit "r1")) [] eq_refl).
Defined.

Lemma blank_json_is_not_submitted_witness :
  let st := mkHome false None [32%N; 10%N; 160%N; 8232%N] false in
  Forall (fun c => is_white_space c = true) (jsonText st)
  /\ @handleJsonSubmit None None Sample.engine Sample.backend_creates
       st []
     = ([] ++ [warning_toast "No JSON provided"], Ok tt).
Proof.
  intros st.
  assert (H : Forall (fun c => is_white_space c = true) (jsonText st))
    by (repeat constructor).
  split; [exact H|].
  exact (@blank_json_is_not_submitted None None Sample.engine
           Sample.backend_creates st [] H).
Defined.

Lemma invalid_json_shows_the_parser_message_witness :
  let st := mkHome false None (lit "[1,") false in
  truthy_string (trim (jsonText st)) = true
  /\ JSON_parse (jsonText st) = None
  /\ @handleJsonSubmit None None Sample.engine Sample.backend_creates
       st []
     = ([] ++ [failure_toast "Failed to create run" (lit "Unexpected token");
               ESetIsCreating false],
        Ok tt).
Proof.
  intros st.
  assert (Hp : JSON_parse (jsonText st) = None) by (vm_compute; reflexivity).
  split; [reflexivity|]. split; [exact Hp|].
  exact (@invalid_json_shows_the_parser_message None None Sample.engine
           Sample.backend_creates st [] eq_refl Hp).
Defined.


Lemma file_upload_outcome_witness :
  let f := mkFile (lit "ledger.csv") (lit "day,amount") in
  let st := mkHome false (Some f) [] false in
  let req := createRunFromFile_request None None f (Some false) in
  file st = Some f
  /\ Sample.backend_404 ([] ++ [ESetIsCreating true]) req = Some Sample.not_found
  /\ Response.ok Sample.not_found = false
  /\ @handleFileUpload None None Sample.engine Sample.backend_404
       st []
     = ([] ++ [ESetIsCreating true; EFetch req;
               failure_toast "Failed to create run"
                 (lit "Failed to create run from file: "
                    ++ Response.statusText Sample.not_found);
               ESetIsCreating false],
        Ok tt).
Proof.
  intros f st req.
  split; [reflexivity|]. split; [reflexivity|]. split; [reflexivity|].
  exact (proj2 (proj2 (proj2 (proj2 (@file_upload_outcome None None Sample.engine
                                       Sample.backend_404 st [])
                                f Sample.not_found eq_refl eq_refl))) eq_refl).
Defined.

Lemma successful_export_downloads_once_witness :
  let response := Response.mk 200 (lit "OK") (lit "index,type,reason") in
  let a := mkAnchor (BlobURL (lit "index,type,reason")) (lit "run-" ++ lit "r1" ++ lit ".csv") in
  Sample.backend_csv [] (exportRunCsv_request None None (lit "r1")) = Some response
  /\ Response.ok response = true
  /\ Home_handleExport None None Sample.engine Sample.backend_csv (lit "r1") []
     = ([] ++ [EFetch (exportRunCsv_request None None (lit "r1"));
               EBlob response; ECreateObjectURL (lit "index,type,reason");
               ECreateElement (lit "a");
               EAppendChild a; EClick a;
               ERevokeObjectURL (BlobURL (lit "index,type,reason"));
               ERemoveChild a;
               success_toast "CSV exported successfully"],
        Ok tt).
Proof.
  intros response a.
  split; [reflexivity|]. split; [reflexivity|].
  exact (@successful_export_downloads_once None None Sample.engine
           Sample.backend_csv (lit "r1") [] response eq_refl eq_refl).
Defined.

Lemma missing_run_shows_the_status_text_witness :
  truthy_string (lit "r1") = true
  /\ (forall t', Sample.backend_404 t' (getRun_request None None (lit "r1"))
                 = Some Sample.not_found)
  /\ Response.ok Sample.not_found = false
  /\ exists q,
       @RunDetail_query None None Sample.engine Sample.backend_404 3
         Sample.read_get (Some (lit "r1")) []
       = ([] ++ repeat (EFetch (getRun_request None None (lit "r1"))) 4, Ok q)
       /\ RunDetail_view q
          = ErrorPanel (lit "Failed to get run: " ++ Response.statusText Sample.not_found)
       /\ export_button (RunDetail_view q) = false.
Proof.
  split; [reflexivity|]. split; [reflexivity|]. split; [reflexivity|].
  exact (@missing_run_shows_the_status_text None None Sample.engine
           Sample.backend_404 3 Sample.read_get (lit "r1") [] Sample.not_found
           eq_refl (fun _ => eq_refl) eq_refl).
Defined.

Lemma fetched_run_is_shown_witness :
  let response := Response.mk 200 (lit "OK") Sample.run_body in
  let run := Run.mk (lit "r1") (lit "2024") None None (Some true) None None None in
  let data := GetRunResponse.mk true run in
  Sample.backend_no_export [] (getRun_request None None (lit "r1")) = Some response
  /\ exists v,
       JSON_parse (Response.body response) = Some v
       /\ Conforming.getRunResponse v = Some data
       /\ Sample.read_get v = data
       /\ exists q content,
            @RunDetail_query None None Sample.engine Sample.backend_no_export 3
              Sample.read_get (Some (lit "r1")) []
            = ([] ++ [EFetch (getRun_request None None (lit "r1"))], Ok q)
            /\ ReactQuery.Query.data q = Some data
            /\ RunDetail_view q = Detail content
            /\ shortId content = firstn 8 (Run.id run)
            /\ explanation_card content = explanation_panel run
            /\ export_button (RunDetail_view q) = true.
Proof.
  intros response run data.
  assert (Hb : Sample.backend_no_export [] (getRun_request None None (lit "r1"))
               = Some response) by (vm_compute; reflexivity).
  split; [exact Hb|].
  destruct (JSON_parse (Response.body response)) as [v|] eqn:Hv;
    [|vm_compute in Hv; discriminate Hv].
  assert (Hc : Conforming.getRunResponse v = Some data).
  { vm_compute in Hv. inversion Hv; subst v. vm_compute. reflexivity. }
  assert (Hr : Sample.read_get v = data).
  { vm_compute in Hv. inversion Hv; subst v. vm_compute. reflexivity. }
  exists v. split; [reflexivity|]. split; [exact Hc|]. split; [exact Hr|].
  exact (proj2 (@fetched_run_is_shown None None Sample.engine
                  Sample.backend_no_export 3 Sample.read_get (lit "r1") []
                  response v data eq_refl Hb eq_refl Hv Hc Hr)).
Defined.

Lemma findings_table_has_a_row_per_finding_witness :
  let findings := [Finding.mk None (lit "dup") (lit "seen twice") None;
                   Finding.mk (Some 4%Z) (lit "gap") (lit "missing day") None] in
  let run := Run.mk (lit "r1") (lit "2024") None None None None None (Some findings) in
  Run.findings run = Some findings
  /\ findings <> []
  /\ exists content rows,
       RunDetail_view (ReactQuery.Query.mk (Some (GetRunResponse.mk true run)) None false)
       = Detail content
       /\ findings_table content = Some rows
       /\ List.length rows = 2
       /\ map type_cell rows = [lit "dup"; lit "gap"].
Proof.
  intros findings run. split; [reflexivity|]. split; [discriminate|].
  destruct (findings_table_has_a_row_per_finding (GetRunResponse.mk true run))
    as (content & Hview & _ & Hrows).
  destruct (Hrows findings eq_refl ltac:(discriminate))
    as (rows & Htable & Hlen & Htypes & _).
  exists content, rows. repeat split; assumption.
Defined.

Lemma falsy_row_payload_shows_the_placeholder_witness :
  let finding := Finding.mk None (lit "zero") (lit "amount is zero")
                   (JSON_parse (lit "1e-400")) in
  Finding.row finding = Some (JNumber 0%float)
  /\ row_cell (finding_row finding 0) = None.
Proof.
  intros finding.
  assert (H : Finding.row finding = Some (JNumber 0%float))
    by (vm_compute; reflexivity).
  split; [exact H|].
  apply (proj1 (falsy_row_payload_shows_the_placeholder finding 0)).
  right; right; right; left. exists 0%float. split; [exact H | left; reflexivity].
Defined.

Lemma findings_summary_counts_witness :
  let f := Finding.mk None (lit "dup") (lit "seen twice") None in
  let run := Run.mk (lit "r1") (lit "2024") None None None None None (Some [f]) in
  Run.findings run = Some [f]
  /\ findings_text run = lit "1 issue detected".
Proof.
  intros f run. split; [reflexivity|].
  exact (proj1 (proj2 (findings_summary_counts run)) f eq_refl).
Defined.

Lemma run_rows_point_at_their_run_witness :
  let q := fetched [Sample.page_of ["r1"%string; "r2"%string] None] false in
  exists rows loadMore,
    Home_view q = RunsTable rows loadMore
    /\ map export_id rows = map Run.id (Home_runs q)
    /\ Forall (fun row =>
                 row_key row = export_id row
                 /\ open_path row = lit "/run/" ++ export_id row
                 /\ source_cell row <> []) rows.
Proof.
  intros q. eexists. eexists. split; [reflexivity|].
  pose proof (run_rows_point_at_their_run q _ _ eq_refl) as (H1 & H2 & _).
  split; assumption.
Defined.

Lemma failed_first_page_shows_no_runs_witness :
  (forall t', Sample.backend_404 t' (listRuns_request None None (Some 20%float) None)
              = Some Sample.not_found)
  /\ Response.ok Sample.not_found = false
  /\ exists q,
       @Home_query None None Sample.engine Sample.backend_404 3 Sample.read_list []
       = ([] ++ repeat (EFetch (listRuns_request None None (Some 20%float) None)) 4, Ok q)
       /\ ReactQuery.Infinite.error q
          = Some (Error (lit "Failed to list runs: "
                           ++ Response.statusText Sample.not_found))
       /\ Home_view q = NoRunsYet.
Proof.
  split; [reflexivity|]. split; [reflexivity|].
  exact (@failed_first_page_shows_no_runs None None Sample.engine
           Sample.backend_404 3 Sample.read_list [] Sample.not_found
           (fun _ => eq_refl) eq_refl).
Defined.

Lemma load_more_only_appends_witness :
  let pages := [Sample.page_of ["r1"%string; "r2"%string] (Some (lit "c1"))] in
  pages <> []
  /\ exists t' q' extra,
       @Home_fetchNextPage None None Sample.engine Sample.backend_two_pages 3
         Sample.read_list (fetched pages false) [] = (t', Ok q')
       /\ ReactQuery.Infinite.pages q' = Some (pages ++ extra)
       /\ List.length extra <= 1
       /\ (ReactQuery.Infinite.error q' <> None -> extra = [])
       /\ displayed_ids (Home_view q')
          = displayed_ids (Home_view (fetched pages false))
              ++ List.concat (map page_ids extra).
Proof.
  intros pages.
  assert (H : pages <> []) by discriminate.
  split; [exact H|].
  exact (@load_more_only_appends None None Sample.engine Sample.backend_two_pages
           3 Sample.read_list pages false [] H).
Defined.

Lemma enabled_buttons_have_input_witness :
  let st := mkHome false None (lit "[1,") false in
  json_button_disabled st = false
  /\ exists new,
       fst (@handleJsonSubmit None None Sample.engine Sample.backend_creates
              st []) = [] ++ new
       /\ ~ In (warning_toast "No JSON provided") new
       /\ last_flag new = Some false.
Proof.
  intros st. split; [reflexivity|].
  exact (proj2 (proj2 (@enabled_buttons_have_input None None Sample.engine
                         Sample.backend_creates st []))
           eq_refl).
Defined.

Lemma detail_view_requests_only_its_run_witness :
  truthy_string (lit "r1") = true
  /\ exists k q,
       1 <= k <= 4
       /\ @RunDetail_query None None Sample.engine Sample.backend_no_export 3
            Sample.read_get (Some (lit "r1")) []
          = ([] ++ repeat (EFetch (getRun_request None None (lit "r1"))) k, Ok q)
       /\ ReactQuery.Query.isLoading q = false
       /\ (ReactQuery.Query.data q = None <-> ReactQuery.Query.error q <> None).
Proof.
  split; [reflexivity|].
  destruct (@detail_view_requests_only_its_run None None Sample.engine
              Sample.backend_no_export 3 Sample.read_get (lit "r1") [] eq_refl)
    as (k & q & Hk & Hq & Hl & Hiff & _).
  exists k, q. exact (conj Hk (conj Hq (conj Hl Hiff))).
Defined.
